(** * Feature-engineering pipeline (Group 6): a shallow embedding

    The five stages of the pipeline ([derive_computed_columns],
    [encode_categorical_features], [bin_numeric_ranges],
    [time_based_feature_extraction], [flag_anomalies_column]) are embedded as
    functions on a small model of the data frames they transform.

    - Numbers are IEEE-754 binary64 values ([spec_float] of the Standard
      Library with precision 53 and maximal exponent 1024) or 64-bit integers
      with their wrap-around written out.
    - A column ([Series]) is homogeneous, as in pandas: int64, float64 (NaN is
      the missing value), object (text, [None] is missing), datetime64
      ([None] is NaT) or categorical.
    - A [DataFrame] is a row count with an ordered list of named columns.
    - A stage that raises a Python exception returns [Raise]; an input the
      embedding does not cover (arithmetic on text, say) is reported as
      [Raise OutsideModel], so that nothing is claimed about it. *)

From Stdlib Require Import String Ascii ZArith List Bool Lia DecimalString.
From Stdlib Require Import Floats.SpecFloat.
From Stdlib Require Import Reals Lra.
Import ListNotations.

Set Implicit Arguments.
#[local] Open Scope string_scope.
#[local] Open Scope list_scope.
#[local] Open Scope Z_scope.

(* ===================================================================== *)
(** * Binary64 arithmetic *)
(* ===================================================================== *)

Abbreviation float := spec_float.

Module B64.

Definition prec : Z := 53.
Definition emax : Z := 1024.

Definition add : float -> float -> float := SFadd prec emax.
Definition sub : float -> float -> float := SFsub prec emax.
Definition mul : float -> float -> float := SFmul prec emax.
Definition div : float -> float -> float := SFdiv prec emax.
Definition sqrt : float -> float := SFsqrt prec emax.
Definition abs : float -> float := SFabs.
Definition opp : float -> float := SFopp.

Definition eqb : float -> float -> bool := SFeqb.
Definition ltb : float -> float -> bool := SFltb.
Definition leb : float -> float -> bool := SFleb.
Definition gtb (x y : float) : bool := SFltb y x.
Definition geb (x y : float) : bool := SFleb y x.

Definition nan : float := S754_nan.
Definition inf : float := S754_infinity false.
Definition zero : float := S754_zero false.

Definition is_nan (x : float) : bool :=
  match x with S754_nan => true | _ => false end.

Definition is_inf (x : float) : bool :=
  match x with S754_infinity _ => true | _ => false end.


(** Conversion of an integer (Python [int], numpy int64) to the nearest
    double, ties to even. *)
Definition of_Z (z : Z) : float := binary_normalize prec emax z 0 false.

Definition of_nat (n : nat) : float := of_Z (Z.of_nat n).

(** [m * 2^e] rounded to the nearest double. *)
Definition of_scaled (m e : Z) : float := binary_normalize prec emax m e false.

(** C [rint] in the default rounding mode: nearest integer, ties to even.
    Below 2^52 in magnitude, adding and removing 2^52 rounds to an integer;
    from 2^52 on every double is an integer already. *)
Definition two52 : float := of_Z (2 ^ 52).

Definition rint (x : float) : float :=
  match x with
  | S754_finite s _ _ =>
      if ltb (abs x) two52
      then let r := sub (add (abs x) two52) two52 in
           if s then opp (abs r) else abs r
      else x
  | _ => x
  end.

(** [numpy.round(x, decimals)] for [decimals >= 0] on a float:
    multiply by [10**decimals], [rint], divide. *)
Definition round (decimals : Z) (x : float) : float :=
  let f := of_Z (10 ^ decimals) in
  div (rint (mul x f)) f.

(** Floor of a finite value as an integer; [None] for NaN and infinities. *)
Definition floor_Z (x : float) : option Z :=
  match x with
  | S754_zero _ => Some 0
  | S754_finite s m e =>
      let v := if s then Z.neg m else Z.pos m in
      Some (if 0 <=? e then v * 2 ^ e else v / 2 ^ (- e))
  | _ => None
  end.

End B64.

(* ===================================================================== *)
(** * Exceptions *)
(* ===================================================================== *)

(** The Python exceptions the stages can raise.  [OutsideModel] is not one of
    them: it marks an input on which pandas does something this embedding
    does not describe. *)
Inductive exn : Type :=
| TypeError
| ValueError
| KeyError
| AttributeError
| OutsideModel.

Inductive result (A : Type) : Type :=
| Ok (a : A)
| Raise (e : exn).

Arguments Ok {A} a.
Arguments Raise {A} e.

Definition bind {A B : Type} (r : result A) (k : A -> result B) : result B :=
  match r with
  | Ok a => k a
  | Raise e => Raise e
  end.

Notation "'do' x <- r ; k" := (bind r (fun x => k))
  (at level 10, x name, r at level 100, k at level 200).

(** [try: ... except: pass] around a computation. *)
Definition succeeded {A : Type} (r : result A) : bool :=
  match r with Ok _ => true | Raise _ => false end.

Fixpoint mapM {A B : Type} (f : A -> result B) (l : list A) : result (list B) :=
  match l with
  | [] => Ok []
  | a :: l' => do b <- f a; do bs <- mapM f l'; Ok (b :: bs)
  end.

(* ===================================================================== *)
(** * 64-bit integers *)
(* ===================================================================== *)

(** numpy int64 arithmetic wraps around silently. *)
Definition wrap64 (z : Z) : Z := (z + 2 ^ 63) mod 2 ^ 64 - 2 ^ 63.

(* ===================================================================== *)
(** * Strings *)
(* ===================================================================== *)

Definition lower_ascii (c : ascii) : ascii :=
  let n := nat_of_ascii c in
  if ((65 <=? n) && (n <=? 90))%nat then ascii_of_nat (n + 32) else c.

(** [str.lower()] on ASCII text. *)
Fixpoint lower (s : string) : string :=
  match s with
  | EmptyString => EmptyString
  | String c s' => String (lower_ascii c) (lower s')
  end.

Definition startswith (s p : string) : bool := String.prefix p s.

(** [s.endswith(p)] *)
Definition endswith (s p : string) : bool :=
  let n := String.length s in
  let k := String.length p in
  if (k <=? n)%nat then String.eqb (String.substring (n - k) k s) p else false.

(** [sub in s] *)
Fixpoint contains (s sub : string) : bool :=
  if String.prefix sub s then true
  else match s with
       | EmptyString => false
       | String _ s' => contains s' sub
       end.

Definition mem_string (x : string) (l : list string) : bool :=
  existsb (String.eqb x) l.

(* ===================================================================== *)
(** * Columns and data frames *)
(* ===================================================================== *)

(** A category of a categorical column: a text label (explicit [labels=]) or
    an interval [(lo, hi]] (no labels given). *)
Inductive label : Type :=
| LStr (s : string)
| LInterval (lo hi : float).

Inductive Series : Type :=
| SInt (l : list Z)
| SFloat (l : list float)
| SObj (l : list (option string))
| SDate (l : list (option Z))
| SCat (l : list (option label)).

Definition slen (s : Series) : nat :=
  match s with
  | SInt l => length l
  | SFloat l => length l
  | SObj l => length l
  | SDate l => length l
  | SCat l => length l
  end.

(** [select_dtypes(include=[np.number])] *)
Definition is_numeric (s : Series) : bool :=
  match s with SInt _ | SFloat _ => true | _ => false end.

(** [select_dtypes(include=['object'])] *)
Definition is_object (s : Series) : bool :=
  match s with SObj _ => true | _ => false end.

Record DataFrame : Type := mkDF {
  nrows : nat;
  columns : list (string * Series)
}.

Definition names (df : DataFrame) : list string := map fst (columns df).

(** [col in df.columns] *)
Definition has_col (df : DataFrame) (c : string) : bool :=
  mem_string c (names df).

Fixpoint lookup (c : string) (cols : list (string * Series)) : option Series :=
  match cols with
  | [] => None
  | (n, s) :: cols' => if String.eqb c n then Some s else lookup c cols'
  end.

(** [df[c]] *)
Definition getitem (df : DataFrame) (c : string) : result Series :=
  match lookup c (columns df) with
  | Some s => Ok s
  | None => Raise KeyError
  end.

(** [df[c] = s]: an existing column keeps its place and gets the new values,
    a new column goes last. *)
Definition setitem (df : DataFrame) (c : string) (s : Series) : DataFrame :=
  if has_col df c
  then mkDF (nrows df)
         (map (fun ns => if String.eqb c (fst ns) then (fst ns, s) else ns)
              (columns df))
  else mkDF (nrows df) (columns df ++ [(c, s)]).

(** Every column has one value per row. *)
Definition aligned (df : DataFrame) : Prop :=
  Forall (fun ns => slen (snd ns) = nrows df) (columns df).

(** The table of the specification: aligned columns with unique names. *)
Definition well_formed (df : DataFrame) : Prop :=
  aligned df /\ NoDup (names df).

(* ===================================================================== *)
(** * Numbers and arithmetic on columns *)
(* ===================================================================== *)

(** One numeric cell, with the dtype of its column. *)
Inductive num : Type :=
| NInt (z : Z)
| NFloat (f : float).

Definition to_float (n : num) : float :=
  match n with
  | NInt z => B64.of_Z z
  | NFloat f => f
  end.

Definition n_arith (iop : Z -> Z -> Z) (fop : float -> float -> float)
    (a b : num) : num :=
  match a, b with
  | NInt x, NInt y => NInt (wrap64 (iop x y))
  | _, _ => NFloat (fop (to_float a) (to_float b))
  end.

Definition n_add : num -> num -> num := n_arith Z.add B64.add.
Definition n_sub : num -> num -> num := n_arith Z.sub B64.sub.
Definition n_mul : num -> num -> num := n_arith Z.mul B64.mul.

(** True division always yields a float. *)
Definition n_truediv (a b : num) : num :=
  NFloat (B64.div (to_float a) (to_float b)).

(** [round(decimals)] leaves an integer as it is. *)
Definition n_round (decimals : Z) (a : num) : num :=
  match a with
  | NInt z => NInt z
  | NFloat f => NFloat (B64.round decimals f)
  end.


Fixpoint map2 {A B C : Type} (f : A -> B -> C) (l : list A) (l' : list B)
    : list C :=
  match l, l' with
  | a :: t, b :: t' => f a b :: map2 f t t'
  | _, _ => []
  end.

Definition as_floats (s : Series) : option (list float) :=
  match s with
  | SInt l => Some (map B64.of_Z l)
  | SFloat l => Some l
  | _ => None
  end.

(** The numeric cells of a column; [None] for a column that is not numeric. *)
Definition nums (s : Series) : option (list num) :=
  match s with
  | SInt l => Some (map NInt l)
  | SFloat l => Some (map NFloat l)
  | _ => None
  end.

(** The numeric cell at row [i]. *)
Definition num_at (s : Series) (i : nat) : option num :=
  match nums s with
  | Some l => nth_error l i
  | None => None
  end.

(** Element-wise [+], [-], [*] of two columns.  Two int64 columns stay
    int64; an int64 column meeting a float64 one is converted.  Arithmetic on
    a column that is not numeric is outside the model. *)
Definition series_arith (iop : Z -> Z -> Z) (fop : float -> float -> float)
    (a b : Series) : result Series :=
  match a, b with
  | SInt x, SInt y => Ok (SInt (map2 (fun u v => wrap64 (iop u v)) x y))
  | _, _ =>
      match as_floats a, as_floats b with
      | Some x, Some y => Ok (SFloat (map2 fop x y))
      | _, _ => Raise OutsideModel
      end
  end.

Definition series_add : Series -> Series -> result Series :=
  series_arith Z.add B64.add.
Definition series_sub : Series -> Series -> result Series :=
  series_arith Z.sub B64.sub.
Definition series_mul : Series -> Series -> result Series :=
  series_arith Z.mul B64.mul.

(** [a / b] *)
Definition series_truediv (a b : Series) : result Series :=
  match as_floats a, as_floats b with
  | Some x, Some y => Ok (SFloat (map2 B64.div x y))
  | _, _ => Raise OutsideModel
  end.

(** [a / k] for a Python integer [k] *)
Definition series_truediv_scalar (a : Series) (k : Z) : result Series :=
  match as_floats a with
  | Some x => Ok (SFloat (map (fun u => B64.div u (B64.of_Z k)) x))
  | None => Raise OutsideModel
  end.

(** [a * k] for a Python integer [k] *)
Definition series_mul_scalar (a : Series) (k : Z) : result Series :=
  match a with
  | SInt x => Ok (SInt (map (fun u => wrap64 (u * k)) x))
  | SFloat x => Ok (SFloat (map (fun u => B64.mul u (B64.of_Z k)) x))
  | _ => Raise OutsideModel
  end.

(** [a ** 2]: numpy squares for the exponent 2. *)
Definition series_square (a : Series) : result Series :=
  match a with
  | SInt x => Ok (SInt (map (fun u => wrap64 (u * u)) x))
  | SFloat x => Ok (SFloat (map (fun u => B64.mul u u) x))
  | _ => Raise OutsideModel
  end.

(** [a.round(decimals)] *)
Definition series_round (decimals : Z) (a : Series) : result Series :=
  match a with
  | SInt x => Ok (SInt x)
  | SFloat x => Ok (SFloat (map (B64.round decimals) x))
  | _ => Raise OutsideModel
  end.

(* ===================================================================== *)
(** * Stage 1: derive_computed_columns *)
(* ===================================================================== *)

(** The seven numbered blocks of [derive_computed_columns], in order. *)

(* 1. Calculate total cost (purchase + shipping) *)
Definition derive_total_cost (df_new : DataFrame) : result DataFrame :=
  if has_col df_new "purchase_amount" && has_col df_new "shipping_cost"
  then do pa <- getitem df_new "purchase_amount";
       do sc <- getitem df_new "shipping_cost";
       do v <- series_add pa sc;
       Ok (setitem df_new "total_cost" v)
  else Ok df_new.

(* 2. Calculate discount amount *)
Definition derive_discount_amount (df_new : DataFrame) : result DataFrame :=
  if has_col df_new "purchase_amount" && has_col df_new "discount_percent"
  then do pa <- getitem df_new "purchase_amount";
       do dp <- getitem df_new "discount_percent";
       do p <- series_mul pa dp;
       do q <- series_truediv_scalar p 100;
       do v <- series_round 2 q;
       Ok (setitem df_new "discount_amount" v)
  else Ok df_new.

(* 3. Calculate final price after discount *)
Definition derive_final_price (df_new : DataFrame) : result DataFrame :=
  if has_col df_new "total_cost" && has_col df_new "discount_amount"
  then do tc <- getitem df_new "total_cost";
       do da <- getitem df_new "discount_amount";
       do d <- series_sub tc da;
       do v <- series_round 2 d;
       Ok (setitem df_new "final_price" v)
  else Ok df_new.

(* 4. Calculate price per rating point *)
Definition derive_price_per_rating (df_new : DataFrame) : result DataFrame :=
  if has_col df_new "final_price" && has_col df_new "rating"
  then do fp <- getitem df_new "final_price";
       do r <- getitem df_new "rating";
       do q <- series_truediv fp r;
       do v <- series_round 2 q;
       Ok (setitem df_new "price_per_rating" v)
  else Ok df_new.

(* 5. Calculate income to purchase ratio *)
Definition derive_income_purchase_ratio (df_new : DataFrame)
    : result DataFrame :=
  if has_col df_new "income" && has_col df_new "purchase_amount"
  then do pa <- getitem df_new "purchase_amount";
       do inc <- getitem df_new "income";
       do q <- series_truediv pa inc;
       do p <- series_mul_scalar q 100;
       do v <- series_round 2 p;
       Ok (setitem df_new "income_purchase_ratio" v)
  else Ok df_new.

(* 6. Calculate age groups *)
Definition derive_age_squared (df_new : DataFrame) : result DataFrame :=
  if has_col df_new "age"
  then do a <- getitem df_new "age";
       do v <- series_square a;
       Ok (setitem df_new "age_squared" v)
  else Ok df_new.

(* 7. Calculate spending power index (normalized) *)
Definition derive_spending_power_index (df_new : DataFrame)
    : result DataFrame :=
  if has_col df_new "income" && has_col df_new "age"
  then do inc <- getitem df_new "income";
       do a <- getitem df_new "age";
       do k <- series_truediv_scalar inc 1000;
       do q <- series_truediv k a;
       do v <- series_round 2 q;
       Ok (setitem df_new "spending_power_index" v)
  else Ok df_new.

Definition derive_computed_columns (df : DataFrame) : result DataFrame :=
  let df_new := df in
  do df_new <- derive_total_cost df_new;
  do df_new <- derive_discount_amount df_new;
  do df_new <- derive_final_price df_new;
  do df_new <- derive_price_per_rating df_new;
  do df_new <- derive_income_purchase_ratio df_new;
  do df_new <- derive_age_squared df_new;
  do df_new <- derive_spending_power_index df_new;
  Ok df_new.




(* ===================================================================== *)
(** * Order statistics *)
(* ===================================================================== *)

Definition n_ltb (a b : num) : bool :=
  match a, b with
  | NInt x, NInt y => x <? y
  | _, _ => B64.ltb (to_float a) (to_float b)
  end.

Definition n_leb (a b : num) : bool :=
  match a, b with
  | NInt x, NInt y => x <=? y
  | _, _ => B64.leb (to_float a) (to_float b)
  end.

Definition n_eqb (a b : num) : bool :=
  match a, b with
  | NInt x, NInt y => x =? y
  | _, _ => B64.eqb (to_float a) (to_float b)
  end.

Definition n_is_nan (a : num) : bool :=
  match a with
  | NInt _ => false
  | NFloat f => B64.is_nan f
  end.

(** [s.dropna()] on the cells of a numeric column. *)
Definition dropna (l : list num) : list num :=
  filter (fun a => negb (n_is_nan a)) l.

Fixpoint insert_sorted (a : num) (l : list num) : list num :=
  match l with
  | [] => [a]
  | b :: l' => if n_leb a b then a :: l else b :: insert_sorted a l'
  end.

Definition sort_nums (l : list num) : list num :=
  fold_right insert_sorted [] l.

(** [numpy.lib.function_base._lerp] *)
Definition lerp (a b : num) (t : float) : float :=
  let diff_b_a := to_float (n_sub b a) in
  if B64.geb t (B64.of_scaled 1 (-1))
  then B64.sub (to_float b) (B64.mul diff_b_a (B64.sub (B64.of_Z 1) t))
  else B64.add (to_float a) (B64.mul diff_b_a t).

(** [numpy.quantile(values, q, method='linear')] on values without NaN, as
    numpy 1.22 and later compute it: the virtual index [(n - 1) * q], its
    two neighbours in sorted order, and [_lerp] between them.  An empty
    input gives NaN (pandas returns its missing value). *)
Definition np_quantile (values : list num) (q : float) : float :=
  let arr := sort_nums values in
  let n := length arr in
  match arr with
  | [] => B64.nan
  | first :: _ =>
      let last_ := nth (n - 1) arr first in
      let virtual_index := B64.mul (B64.of_nat (n - 1)) q in
      if B64.geb virtual_index (B64.of_nat (n - 1))
      then lerp last_ last_ (B64.sub virtual_index (B64.of_Z (-1)))
      else if B64.ltb virtual_index B64.zero
      then lerp first first virtual_index
      else match B64.floor_Z virtual_index with
           | Some k =>
               let previous := nth (Z.to_nat k) arr first in
               let next := nth (Z.to_nat k + 1) arr first in
               lerp previous next (B64.sub virtual_index (B64.of_Z k))
           | None => B64.nan
           end
  end.

(** [Series.quantile(q)]: missing values are dropped first. *)
Definition series_quantile (s : Series) (q : float) : result float :=
  match nums s with
  | Some l => Ok (np_quantile (dropna l) q)
  | None => Raise OutsideModel
  end.

(* ===================================================================== *)
(** * Stage 3: bin_numeric_ranges *)
(* ===================================================================== *)

(** [bins.searchsorted(x, side='left')] on increasing [bins]: the number of
    edges below [x]; NaN sorts after every edge. *)
Fixpoint count_below (bins : list num) (x : num) : nat :=
  match bins with
  | [] => 0
  | b :: bins' => if n_ltb b x then S (count_below bins' x) else 0
  end.

Definition searchsorted_left (bins : list num) (x : num) : nat :=
  if n_is_nan x then length bins else count_below bins x.

(** [algos.unique]: first occurrences, in order. *)
Fixpoint unique_nums (l : list num) : list num :=
  match l with
  | [] => []
  | a :: l' => a :: filter (fun b => negb (n_eqb a b || (n_is_nan a && n_is_nan b)))
                           (unique_nums l')
  end.

Fixpoint unique_strings (l : list string) : list string :=
  match l with
  | [] => []
  | a :: l' => a :: filter (fun b => negb (String.eqb a b)) (unique_strings l')
  end.

(** The code of one value in [_bins_to_cuts]: [None] is the missing label. *)
Definition bin_code (bins : list num) (include_lowest : bool) (x : num)
    : option nat :=
  let ids := searchsorted_left bins x in
  let ids :=
    if include_lowest &&
       match bins with b0 :: _ => n_eqb x b0 | [] => false end
    then 1%nat else ids in
  if n_is_nan x || (ids =? length bins)%nat || (ids =? 0)%nat
  then None
  else Some (ids - 1)%nat.

(** [_bins_to_cuts(x, bins, labels=labels, include_lowest=..., duplicates=...)]
    with [right=True] and [ordered=True]: duplicate edges raise or are
    dropped, and the labels must be unique and one fewer than the edges. *)
Definition bins_to_cuts (x : list num) (bins : list num)
    (labels : list string) (include_lowest : bool) (drop_duplicates : bool)
    : result (list (option label)) :=
  let unique_bins := unique_nums bins in
  do bins <-
    (if (length unique_bins <? length bins)%nat
        && negb (length bins =? 2)%nat
     then if drop_duplicates then Ok unique_bins else Raise ValueError
     else Ok bins);
  if negb (length (unique_strings labels) =? length labels)%nat
  then Raise ValueError
  else if negb (length labels =? length bins - 1)%nat
  then Raise ValueError
  else Ok (map (fun v => match bin_code bins include_lowest v with
                         | Some k => option_map LStr (nth_error labels k)
                         | None => None
                         end) x).

(** [pd.cut(s, bins=bins, labels=labels, include_lowest=...)] with a list of
    increasing edges. *)
Definition cut (s : Series) (bins : list num) (labels : list string)
    (include_lowest : bool) : result Series :=
  match nums s with
  | Some x =>
      do c <- bins_to_cuts x bins labels include_lowest false;
      Ok (SCat c)
  | None => Raise OutsideModel
  end.

(** [np.linspace(0, 1, q + 1)] for [q = 4] *)
Definition quartile_points : list float :=
  [B64.zero; B64.of_scaled 1 (-2); B64.of_scaled 1 (-1); B64.of_scaled 3 (-2);
   B64.of_Z 1].

(** [pd.qcut(s, q=4, labels=labels, duplicates='drop')] *)
Definition qcut4 (s : Series) (labels : list string) : result Series :=
  match nums s with
  | Some x =>
      let bins := map (fun q => NFloat (np_quantile (dropna x) q))
                      quartile_points in
      do c <- bins_to_cuts x bins labels true true;
      Ok (SCat c)
  | None => Raise OutsideModel
  end.

Fixpoint fmin_list (m : float) (l : list float) : float :=
  match l with
  | [] => m
  | a :: l' => fmin_list (if B64.ltb a m then a else m) l'
  end.

Fixpoint fmax_list (m : float) (l : list float) : float :=
  match l with
  | [] => m
  | a :: l' => fmax_list (if B64.ltb m a then a else m) l'
  end.

(** [np.linspace(start, stop, num)] with the end point, [num >= 2] *)
Definition linspace (start stop : float) (num : nat) : list float :=
  let div := B64.of_nat (num - 1) in
  let delta := B64.sub stop start in
  let step := B64.div delta div in
  let y := map B64.of_nat (seq 0 num) in
  let y := if B64.eqb step B64.zero
           then map (fun v => B64.mul (B64.div v div) delta) y
           else map (fun v => B64.mul v step) y in
  let y := map (fun v => B64.add v start) y in
  firstn (num - 1) y ++ [stop].

Definition milli : float := B64.div (B64.of_Z 1) (B64.of_Z 1000).

(** [_nbins_to_bins(x, nbins, right=True)]: equal-width edges over the
    observed range, the lowest edge moved down by 0.1% of the range. *)
Definition nbins_to_bins (x : list float) (nbins : nat) : result (list float) :=
  match filter (fun v => negb (B64.is_nan v)) x with
  | [] => Raise ValueError
  | v0 :: vs =>
      let mn := fmin_list v0 vs in
      let mx := fmax_list v0 vs in
      if B64.is_inf mn || B64.is_inf mx then Raise ValueError
      else if B64.eqb mn mx
      then
        let mn' := B64.sub mn (if negb (B64.eqb mn B64.zero)
                               then B64.mul milli (B64.abs mn) else milli) in
        let mx' := B64.add mx (if negb (B64.eqb mx B64.zero)
                               then B64.mul milli (B64.abs mx) else milli) in
        Ok (linspace mn' mx' (nbins + 1))
      else
        let bins := linspace mn mx (nbins + 1) in
        let adj := B64.mul (B64.sub mx mn) milli in
        match bins with
        | b0 :: rest => Ok (B64.sub b0 adj :: rest)
        | [] => Ok []
        end
  end.

(** [Index.is_monotonic_increasing] *)
Fixpoint is_monotonic_increasing (l : list float) : bool :=
  match l with
  | a :: ((b :: _) as l') => B64.leb a b && is_monotonic_increasing l'
  | _ => true
  end.

(** The interval of code [k] between consecutive edges.  pandas shows the
    ends rounded to three significant digits; the edges are kept exact
    here. *)
Definition interval_label (bins : list float) (k : nat) : option label :=
  match nth_error bins k, nth_error bins (k + 1) with
  | Some lo, Some hi => Some (LInterval lo hi)
  | _, _ => None
  end.

(** [pd.cut(s, bins=nbins)] with a number of equal-width bins. *)
Definition cut_equal_width (s : Series) (nbins : nat) : result Series :=
  match as_floats s with
  | Some x =>
      if (length x =? 0)%nat then Raise ValueError
      else
        do bins <- nbins_to_bins x nbins;
        let edges := map NFloat bins in
        if negb (is_monotonic_increasing bins) then Raise ValueError
        else if (length (unique_nums edges) <? length edges)%nat
        then Raise ValueError
        else Ok (SCat (map (fun v => match bin_code edges false (NFloat v) with
                                     | Some k => interval_label bins k
                                     | None => None
                                     end) x))
  | None => Raise OutsideModel
  end.

Definition age_bins : list num := map NInt [0; 25; 35; 50; 65; 100].
Definition age_labels : list string :=
  ["18-25"; "26-35"; "36-50"; "51-65"; "65+"].

Definition income_bins : list num :=
  map NFloat [B64.zero; B64.of_Z 30000; B64.of_Z 50000; B64.of_Z 75000;
              B64.of_Z 100000; B64.inf].
Definition income_labels : list string :=
  ["Low"; "Lower-Middle"; "Middle"; "Upper-Middle"; "High"].

Definition purchase_bins : list num :=
  map NFloat [B64.zero; B64.of_Z 100; B64.of_Z 500; B64.of_Z 1000;
              B64.of_Z 2000; B64.inf].
Definition purchase_labels : list string :=
  ["Very Low"; "Low"; "Medium"; "High"; "Very High"].

Definition rating_bins : list num := map NInt [0; 2; 3; 4; 5].
Definition rating_labels : list string :=
  ["Poor"; "Fair"; "Good"; "Excellent"].

Definition discount_bins : list num := map NInt [0; 10; 25; 40; 100].
Definition discount_labels : list string :=
  ["No Discount"; "Low Discount"; "Medium Discount"; "High Discount"].

Definition quartile_labels : list string := ["Q1"; "Q2"; "Q3"; "Q4"].

(** One block of the binner: [if src in df.columns: df[dst] = f(df[src])]. *)
Definition bin_column (src dst : string) (f : Series -> result Series)
    (df_new : DataFrame) : result DataFrame :=
  if has_col df_new src
  then do s <- getitem df_new src;
       do v <- f s;
       Ok (setitem df_new dst v)
  else Ok df_new.

Definition bin_numeric_ranges (df : DataFrame) : result DataFrame :=
  let df_new := df in
  (* 1. Bin Age into groups *)
  do df_new <- bin_column "age" "age_group"
                 (fun s => cut s age_bins age_labels true) df_new;
  (* 2. Bin Income into brackets *)
  do df_new <- bin_column "income" "income_bracket"
                 (fun s => cut s income_bins income_labels false) df_new;
  (* 3. Bin Purchase Amount *)
  do df_new <- bin_column "purchase_amount" "purchase_category"
                 (fun s => cut s purchase_bins purchase_labels false) df_new;
  (* 4. Bin Rating *)
  do df_new <- bin_column "rating" "rating_category"
                 (fun s => cut s rating_bins rating_labels true) df_new;
  (* 5. Bin Discount Percentage *)
  do df_new <- bin_column "discount_percent" "discount_tier"
                 (fun s => cut s discount_bins discount_labels true) df_new;
  (* 6. Quantile-based binning *)
  do df_new <- bin_column "final_price" "price_quartile"
                 (fun s => qcut4 s quartile_labels) df_new;
  (* 7. Equal-width binning *)
  do df_new <- bin_column "income_purchase_ratio" "spending_ratio_bin"
                 (fun s => cut_equal_width s 5) df_new;
  Ok df_new.

(* ===================================================================== *)
(** * Cells *)
(* ===================================================================== *)

(** One non-missing value of a column of any dtype. *)
Inductive cell : Type :=
| CInt (z : Z)
| CFloat (f : float)
| CStr (s : string)
| CDate (t : Z)
| CLabel (l : label).

(** The cells of a column; [None] is the missing value (NaN, None, NaT). *)
Definition cells (s : Series) : list (option cell) :=
  match s with
  | SInt l => map (fun z => Some (CInt z)) l
  | SFloat l => map (fun f => if B64.is_nan f then None else Some (CFloat f)) l
  | SObj l => map (option_map CStr) l
  | SDate l => map (option_map CDate) l
  | SCat l => map (option_map CLabel) l
  end.

Definition cell_at (s : Series) (i : nat) : option (option cell) :=
  nth_error (cells s) i.

(** A cell that holds the number [k], as an int64 or as a float64. *)
Definition holds_int (k : Z) (c : option cell) : Prop :=
  c = Some (CInt k) \/ c = Some (CFloat (B64.of_Z k)).

(* ===================================================================== *)
(** * Stage 2: encode_categorical_features *)
(* ===================================================================== *)

Fixpoint index_of (x : string) (l : list string) (i : Z) : option Z :=
  match l with
  | [] => None
  | y :: l' => if String.eqb x y then Some i else index_of x l' (i + 1)
  end.

(** [{v: i for i, v in enumerate(order)}.get(key)] *)
Definition rank_in (order : list string) (key : string) : option Z :=
  index_of key order 0.

Definition all_some {A : Type} (l : list (option A)) : option (list A) :=
  fold_right (fun o acc => match o, acc with
                           | Some a, Some r => Some (a :: r)
                           | _, _ => None
                           end) (Some []) l.

(** A column of optional integers as pandas stores it: int64 when nothing
    is missing, float64 with NaN otherwise. *)
Definition int_or_nan_series (l : list (option Z)) : Series :=
  match all_some l with
  | Some zs => SInt zs
  | None => SFloat (map (fun o => match o with
                                  | Some z => B64.of_Z z
                                  | None => B64.nan
                                  end) l)
  end.

(** The text of a cell a dictionary with string keys can match. *)
Definition text_key (c : option cell) : option string :=
  match c with
  | Some (CStr s) => Some s
  | Some (CLabel (LStr s)) => Some s
  | _ => None
  end.

(** [s.map({v: i for i, v in enumerate(order)})]: the rank of each category,
    missing where the value is not a key.  (For a categorical column pandas
    keeps the result categorical; the cells are the same.) *)
Definition map_rank (order : list string) (s : Series) : Series :=
  int_or_nan_series
    (map (fun c => match text_key c with
                   | Some k => rank_in order k
                   | None => None
                   end) (cells s)).

Definition education_order : list string :=
  ["High School"; "Bachelor"; "Master"; "PhD"].

Definition somes {A : Type} (l : list (option A)) : list A :=
  flat_map (fun o => match o with Some a => [a] | None => [] end) l.

Section Levels.

Variable K : Type.
Variable eqb leb : K -> K -> bool.

Fixpoint unique_keys (l : list K) : list K :=
  match l with
  | [] => []
  | a :: l' => a :: filter (fun b => negb (eqb a b)) (unique_keys l')
  end.

Fixpoint insert_key (a : K) (l : list K) : list K :=
  match l with
  | [] => [a]
  | b :: l' => if leb a b then a :: l else b :: insert_key a l'
  end.

Definition sort_keys (l : list K) : list K := fold_right insert_key [] l.

(** The categories of a column: its distinct non-missing values, sorted. *)
Definition levels (l : list (option K)) : list K :=
  sort_keys (unique_keys (somes l)).

(** The indicator of one level: 1 in the rows that hold it, 0 elsewhere,
    also in the rows with a missing value. *)
Definition indicator (level : K) (l : list (option K)) : list Z :=
  map (fun o => match o with
                | Some v => if eqb v level then 1 else 0
                | None => 0
                end) l.

(** [pd.get_dummies(s, prefix=prefix)] on the keys [l], named through
    [render]. *)
Definition dummies_of (render : K -> string) (prefix : string)
    (l : list (option K)) : list (string * Series) :=
  map (fun level =>
         (String.append prefix (String.append "_" (render level)),
          SInt (indicator level l)))
      (levels l).

End Levels.

Definition str_of_Z (z : Z) : string :=
  NilZero.string_of_int (Z.to_int z).

(** [pd.get_dummies(s, prefix=prefix, drop_first=False)].  The indicators
    are the integers 0 and 1 (pandas 2 stores the same as False and True).
    Columns of floats, timestamps and categories are outside the model. *)
Definition get_dummies (s : Series) (prefix : string)
    : result (list (string * Series)) :=
  match s with
  | SObj l => Ok (dummies_of String.eqb String.leb (fun k => k) prefix l)
  | SInt l => Ok (dummies_of Z.eqb Z.leb str_of_Z prefix (map Some l))
  | _ => Raise OutsideModel
  end.

(** [pd.concat([df, dummies], axis=1)] *)
Definition concat_columns (df : DataFrame) (cols : list (string * Series))
    : DataFrame :=
  mkDF (nrows df) (columns df ++ cols).

Definition cell_eqb (a b : cell) : bool :=
  match a, b with
  | CInt x, CInt y => x =? y
  | CFloat x, CFloat y => B64.eqb x y
  | CStr x, CStr y => String.eqb x y
  | CDate x, CDate y => x =? y
  | _, _ => false
  end.

Definition count_cell (v : cell) (l : list (option cell)) : nat :=
  length (filter (fun o => match o with
                           | Some u => cell_eqb u v
                           | None => false
                           end) l).

(** [s.map(s.value_counts(normalize=True))]: the share of the non-missing
    rows that hold the same value; missing stays missing. *)
Definition frequencies (s : Series) : result Series :=
  match s with
  | SInt _ | SFloat _ | SObj _ =>
      let cs := cells s in
      let total := length (somes cs) in
      Ok (SFloat (map (fun o => match o with
                                | Some v => B64.div (B64.of_nat (count_cell v cs))
                                                    (B64.of_nat total)
                                | None => B64.nan
                                end) cs))
  | _ => Raise OutsideModel
  end.

Definition count_name (c : string) (df : DataFrame) : nat :=
  length (filter (String.eqb c) (names df)).

Definition ordinal_features : list string := ["education"].
Definition nominal_features : list string := ["gender"; "product_category"].

Section Stages.

(** [pd.to_datetime] on a column of text: nanoseconds since the epoch for
    each row ([None] is NaT), or [None] when parsing raises. *)
Variable to_datetime_text : list (option string) -> option (list (option Z)).

(** [pd.Timestamp.now()], in nanoseconds since the epoch. *)
Variable now : Z.

(** [pd.to_datetime(s)].  An int64 column counts nanoseconds since the
    epoch, the smallest int64 being NaT. *)
Definition to_datetime (s : Series) : result (list (option Z)) :=
  match s with
  | SObj l => match to_datetime_text l with
              | Some r => Ok r
              | None => Raise ValueError
              end
  | SDate l => Ok l
  | SInt l => Ok (map (fun z => if z =? - 2 ^ 63 then None else Some z) l)
  | _ => Raise OutsideModel
  end.

(** The object columns that do not parse as dates. *)
Definition categorical_columns (df : DataFrame) : list string :=
  let categorical_cols :=
    map fst (filter (fun ns => is_object (snd ns)) (columns df)) in
  let datetime_cols :=
    filter (fun col => match getitem df col with
                       | Ok s => succeeded (to_datetime s)
                       | Raise _ => false
                       end) categorical_cols in
  filter (fun col => negb (mem_string col datetime_cols)) categorical_cols.

(* 1. Label Encoding for ordinal features *)
Definition encode_ordinal (col : string) (df_new : DataFrame)
    : result DataFrame :=
  if has_col df_new col
  then if String.eqb col "education"
       then do s <- getitem df_new col;
            Ok (setitem df_new (String.append col "_encoded")
                  (map_rank education_order s))
       else Ok df_new
  else Ok df_new.

(* 2. One-Hot Encoding for nominal features *)
Definition encode_nominal (col : string) (df_new : DataFrame)
    : result DataFrame :=
  if has_col df_new col
  then do s <- getitem df_new col;
       do dummies <- get_dummies s col;
       Ok (concat_columns df_new dummies)
  else Ok df_new.

(* 3. Frequency Encoding; [df[col]] is one column only when the name
   occurs once. *)
Definition encode_frequency (col : string) (df_new : DataFrame)
    : result DataFrame :=
  if negb (mem_string col (ordinal_features ++ nominal_features))
  then if has_col df_new col
       then if (1 <? count_name col df_new)%nat then Raise TypeError
            else do s <- getitem df_new col;
                 do freq <- frequencies s;
                 do v <- series_round 4 freq;
                 Ok (setitem df_new (String.append col "_freq") v)
       else Ok df_new
  else Ok df_new.

(** [for col in cols: df_new = step(col, df_new)] *)
Fixpoint for_each (step : string -> DataFrame -> result DataFrame)
    (cols : list string) (df_new : DataFrame) : result DataFrame :=
  match cols with
  | [] => Ok df_new
  | col :: cols' => do df_new <- step col df_new; for_each step cols' df_new
  end.

Definition encode_categorical_features (df : DataFrame) : result DataFrame :=
  let df_new := df in
  let categorical_cols := categorical_columns df_new in
  do df_new <- for_each encode_ordinal ordinal_features df_new;
  do df_new <- for_each encode_nominal nominal_features df_new;
  do df_new <- for_each encode_frequency categorical_cols df_new;
  Ok df_new.

(* ===================================================================== *)
(** * Stage 4: time_based_feature_extraction *)
(* ===================================================================== *)

Definition ns_per_day : Z := 86400 * 10 ^ 9.

(** Days since 1970-01-01 of a timestamp in nanoseconds. *)
Definition days_of_ns (t : Z) : Z := t / ns_per_day.

(** Year, month and day of the proleptic Gregorian calendar for a day count
    since 1970-01-01. *)
Definition civil_from_days (z : Z) : Z * Z * Z :=
  let z := z + 719468 in
  let era := z / 146097 in
  let doe := z - era * 146097 in
  let yoe := (doe - doe / 1460 + doe / 36524 - doe / 146096) / 365 in
  let y := yoe + era * 400 in
  let doy := doe - (365 * yoe + yoe / 4 - yoe / 100) in
  let mp := (5 * doy + 2) / 153 in
  let d := doy - (153 * mp + 2) / 5 + 1 in
  let m := if mp <? 10 then mp + 3 else mp - 9 in
  (if m <=? 2 then y + 1 else y, m, d).

Definition dt_year (t : Z) : Z := fst (fst (civil_from_days (days_of_ns t))).
Definition dt_month (t : Z) : Z := snd (fst (civil_from_days (days_of_ns t))).
Definition dt_day (t : Z) : Z := snd (civil_from_days (days_of_ns t)).

(** Monday is 0; 1970-01-01 was a Thursday. *)
Definition dt_dayofweek (t : Z) : Z := (days_of_ns t + 3) mod 7.

Definition dt_quarter (t : Z) : Z := (dt_month t - 1) / 3 + 1.

Definition is_leap_year (y : Z) : bool :=
  ((y mod 4 =? 0) && negb (y mod 100 =? 0)) || (y mod 400 =? 0).

Definition days_in_month (y m : Z) : Z :=
  if m =? 2 then (if is_leap_year y then 29 else 28)
  else if (m =? 4) || (m =? 6) || (m =? 9) || (m =? 11) then 30
  else 31.

Definition days_before_month (y m : Z) : Z :=
  fold_right Z.add 0
    (map (fun k => days_in_month y (Z.of_nat k)) (seq 1 (Z.to_nat (m - 1)))).

Definition day_of_year (t : Z) : Z :=
  days_before_month (dt_year t) (dt_month t) + dt_day t.

(** Number of ISO weeks of a year. *)
Definition iso_weeks_in_year (y : Z) : Z :=
  let p := fun y => (y + y / 4 - y / 100 + y / 400) mod 7 in
  if (p y =? 4) || (p (y - 1) =? 3) then 53 else 52.

(** [isocalendar().week] *)
Definition dt_isoweek (t : Z) : Z :=
  let w := (day_of_year t - (dt_dayofweek t + 1) + 10) / 7 in
  if w <? 1 then iso_weeks_in_year (dt_year t - 1)
  else if iso_weeks_in_year (dt_year t) <? w then 1
  else w.

Definition month_names : list string :=
  ["January"; "February"; "March"; "April"; "May"; "June"; "July"; "August";
   "September"; "October"; "November"; "December"].

Definition day_names : list string :=
  ["Monday"; "Tuesday"; "Wednesday"; "Thursday"; "Friday"; "Saturday";
   "Sunday"].

Definition dt_month_name (t : Z) : string :=
  nth (Z.to_nat (dt_month t - 1)) month_names "".

Definition dt_day_name (t : Z) : string :=
  nth (Z.to_nat (dt_dayofweek t)) day_names "".

Definition bool_int (b : bool) : Z := if b then 1 else 0.

(** The lambda of the season column; the month of NaT is NaN, which is in
    none of the three lists. *)
Definition season_of (month : option Z) : string :=
  match month with
  | Some x =>
      if (x =? 12) || (x =? 1) || (x =? 2) then "Winter"
      else if (x =? 3) || (x =? 4) || (x =? 5) then "Spring"
      else if (x =? 6) || (x =? 7) || (x =? 8) then "Summer"
      else "Fall"
  | None => "Fall"
  end.

(** [df[col].dt]: only a datetime column has the accessor. *)
Definition dt (df : DataFrame) (col : string) : result (list (option Z)) :=
  do s <- getitem df col;
  match s with
  | SDate l => Ok l
  | _ => Raise AttributeError
  end.

(** A field of the accessor as a column: integers, or floats with NaN when
    some timestamp is NaT. *)
Definition dt_field (f : Z -> Z) (l : list (option Z)) : Series :=
  int_or_nan_series (map (option_map f) l).

(** A flag of the accessor after [.astype(int)]; NaT gives 0. *)
Definition dt_flag (f : Z -> bool) (l : list (option Z)) : Series :=
  SInt (map (fun o => match o with
                      | Some t => bool_int (f t)
                      | None => 0
                      end) l).

(** [col + suffix] is set from the datetime column [col] as it is now. *)
Definition set_from_dt (col suffix : string)
    (f : list (option Z) -> Series) (df_new : DataFrame) : result DataFrame :=
  do l <- dt df_new col;
  Ok (setitem df_new (String.append col suffix) (f l)).

(** The first loop: a column whose name holds "date" or "time" and that
    parses is replaced by its timestamps and remembered. *)
Fixpoint find_datetime_cols (cols : list string) (df_new : DataFrame)
    : result (DataFrame * list string) :=
  match cols with
  | [] => Ok (df_new, [])
  | col :: cols' =>
      if contains (lower col) "date" || contains (lower col) "time"
      then
        do s <- getitem df_new col;
        match to_datetime s with
        | Ok l =>
            do r <- find_datetime_cols cols' (setitem df_new col (SDate l));
            Ok (fst r, col :: snd r)
        | Raise OutsideModel => Raise OutsideModel
        | Raise _ => find_datetime_cols cols' df_new
        end
      else find_datetime_cols cols' df_new
  end.

(** The body of the second loop for one datetime column. *)
Definition extract_time_features (col : string) (df_new : DataFrame)
    : result DataFrame :=
  (* 1. Year *)
  do df_new <- set_from_dt col "_year" (dt_field dt_year) df_new;
  (* 2. Month *)
  do df_new <- set_from_dt col "_month" (dt_field dt_month) df_new;
  (* 3. Month Name *)
  do df_new <- set_from_dt col "_month_name"
                 (fun l => SObj (map (option_map dt_month_name) l)) df_new;
  (* 4. Day of Month *)
  do df_new <- set_from_dt col "_day" (dt_field dt_day) df_new;
  (* 5. Day of Week (0=Monday, 6=Sunday) *)
  do df_new <- set_from_dt col "_day_of_week" (dt_field dt_dayofweek) df_new;
  (* 6. Day Name *)
  do df_new <- set_from_dt col "_day_name"
                 (fun l => SObj (map (option_map dt_day_name) l)) df_new;
  (* 7. Quarter *)
  do df_new <- set_from_dt col "_quarter" (dt_field dt_quarter) df_new;
  (* 8. Week of Year *)
  do df_new <- set_from_dt col "_week_of_year" (dt_field dt_isoweek) df_new;
  (* 9. Is Weekend *)
  do df_new <- set_from_dt col "_is_weekend"
                 (dt_flag (fun t => (dt_dayofweek t =? 5)
                                    || (dt_dayofweek t =? 6))) df_new;
  (* 10. Is Month Start *)
  do df_new <- set_from_dt col "_is_month_start"
                 (dt_flag (fun t => dt_day t =? 1)) df_new;
  (* 11. Is Month End *)
  do df_new <- set_from_dt col "_is_month_end"
                 (dt_flag (fun t => dt_day t
                                    =? days_in_month (dt_year t) (dt_month t)))
                 df_new;
  (* 12. Days Since Epoch *)
  do df_new <- set_from_dt col "_days_since_epoch" (dt_field days_of_ns)
                 df_new;
  (* 13. Season (Northern Hemisphere) *)
  do df_new <- set_from_dt col "_season"
                 (fun l => SObj (map (fun o => Some (season_of
                                                       (option_map dt_month o)))
                                     l)) df_new;
  (* 14. Days from today *)
  let today := now in
  do df_new <- set_from_dt col "_days_from_today"
                 (dt_field (fun t => days_of_ns (today - t))) df_new;
  (* 15. Is Recent (within last 30 days) *)
  do d <- getitem df_new (String.append col "_days_from_today");
  do flags <-
    match d with
    | SInt l => Ok (SInt (map (fun z => bool_int (z <=? 30)) l))
    | SFloat l => Ok (SInt (map (fun f => bool_int (B64.leb f (B64.of_Z 30))) l))
    | _ => Raise TypeError
    end;
  Ok (setitem df_new (String.append col "_is_recent") flags).

Definition time_based_feature_extraction (df : DataFrame) : result DataFrame :=
  let df_new := df in
  do r <- find_datetime_cols (names df_new) df_new;
  let df_new := fst r in
  let datetime_cols := snd r in
  for_each extract_time_features datetime_cols df_new.

End Stages.

(* ===================================================================== *)
(** * Stage 5: flag_anomalies_column *)
(* ===================================================================== *)

(** The arithmetic the z-score is computed in.  The code runs on
    [binary64]; [exact_real] is the same arithmetic without rounding. *)
Record arith (F : Type) : Type := mkArith {
  a_add : F -> F -> F;
  a_sub : F -> F -> F;
  a_mul : F -> F -> F;
  a_div : F -> F -> F;
  a_sqrt : F -> F;
  a_abs : F -> F;
  a_of_nat : nat -> F;
  a_zero : F;
  a_one : F;
  a_nan : F;
  a_gtb : F -> F -> bool;
  a_eqb : F -> F -> bool
}.

Definition binary64 : arith float :=
  mkArith B64.add B64.sub B64.mul B64.div B64.sqrt B64.abs B64.of_nat
          B64.zero (B64.of_Z 1) B64.nan B64.gtb B64.eqb.


Section ZScore.

Variable F : Type.
Variable A : arith F.

(** The eight running sums of numpy's unrolled loop after [k] more blocks
    of eight, with what is left of the input. *)
Fixpoint sum_blocks (k : nat) (r rest : list F) : list F * list F :=
  match k with
  | O => (r, rest)
  | S k' => sum_blocks k' (map2 (a_add A) r (firstn 8 rest)) (skipn 8 rest)
  end.

Definition combine8 (r : list F) : F :=
  match r with
  | [r0; r1; r2; r3; r4; r5; r6; r7] =>
      a_add A (a_add A (a_add A r0 r1) (a_add A r2 r3))
              (a_add A (a_add A r4 r5) (a_add A r6 r7))
  | _ => a_zero A
  end.

(** numpy's [pairwise_sum]: a plain loop below 8 elements, eight running
    sums up to 128 elements, and two halves above. *)
Fixpoint pairwise_sum (fuel : nat) (l : list F) : F :=
  let n := length l in
  if (n <? 8)%nat then fold_left (a_add A) l (a_zero A)
  else if (n <=? 128)%nat then
    let '(r, rest) := sum_blocks (n / 8 - 1) (firstn 8 l) (skipn 8 l) in
    fold_left (a_add A) rest (combine8 r)
  else
    match fuel with
    | O => a_zero A
    | S fuel' =>
        let n2 := (n / 2)%nat in
        let n2 := (n2 - n2 mod 8)%nat in
        a_add A (pairwise_sum fuel' (firstn n2 l))
                (pairwise_sum fuel' (skipn n2 l))
    end.

(** [np.add.reduce(l)] *)
Definition np_sum (l : list F) : F :=
  a_add A (a_zero A) (pairwise_sum (length l) l).

(** [l.mean()] *)
Definition np_mean (l : list F) : F :=
  a_div A (np_sum l) (a_of_nat A (length l)).

(** [l.std()] with [ddof=0]: the root of the mean squared deviation. *)
Definition np_std (l : list F) : F :=
  let arrmean := np_mean l in
  let x := map (fun v => a_sub A v arrmean) l in
  let x := map (fun v => a_mul A v v) x in
  a_sqrt A (a_div A (np_sum x) (a_of_nat A (length l))).

(** [scipy.stats.zscore(l)] on values without NaN; a constant input gives
    NaN throughout. *)
Definition zscore (l : list F) : list F :=
  match l with
  | [] => []
  | first :: _ =>
      let mn := np_mean l in
      let std := np_std l in
      let isconst := forallb (fun v => a_eqb A first v) l in
      let std := if isconst then a_one A else std in
      let z := map (fun v => a_div A (a_sub A v mn) std) l in
      if isconst then map (fun _ => a_nan A) z else z
  end.

(** [(np.abs(zscore(values)) > threshold).astype(int)] *)
Definition zscore_flags (values : list F) (threshold : F) : list Z :=
  map (fun z => if a_gtb A (a_abs A z) threshold then 1 else 0)
      (zscore values).

End ZScore.

(** [flags.loc[present] = values]: the rows of [present] take the values in
    order, the other rows keep 0. *)
Fixpoint assign_where (present : list bool) (values : list Z) : list Z :=
  match present with
  | [] => []
  | true :: present' =>
      match values with
      | v :: values' => v :: assign_where present' values'
      | [] => 0 :: assign_where present' []
      end
  | false :: present' => 0 :: assign_where present' values
  end.

(** [flag_anomalies_zscore(df, column, threshold=3)] on the values of the
    column. *)
Definition flag_anomalies_zscore (column : list float) : list Z :=
  let present := map (fun v => negb (B64.is_nan v)) column in
  let z_flags :=
    zscore_flags binary64 (filter (fun v => negb (B64.is_nan v)) column)
                 (B64.of_Z 3) in
  assign_where present z_flags.

(** [flag_anomalies_iqr(df, column, multiplier=1.5)] *)
Definition flag_anomalies_iqr (column : list num) : list Z :=
  let Q1 := np_quantile (dropna column) (B64.of_scaled 1 (-2)) in
  let Q3 := np_quantile (dropna column) (B64.of_scaled 3 (-2)) in
  let IQR := B64.sub Q3 Q1 in
  let multiplier := B64.of_scaled 3 (-1) in
  let lower_bound := B64.sub Q1 (B64.mul multiplier IQR) in
  let upper_bound := B64.add Q3 (B64.mul multiplier IQR) in
  map (fun v => bool_int (B64.ltb (to_float v) lower_bound
                          || B64.gtb (to_float v) upper_bound)) column.

(** [flag_anomalies_percentile(df, column, lower=1, upper=99)]; the stage
    does not call it. *)
Definition flag_anomalies_percentile (column : list num) : list Z :=
  let lower_bound :=
    np_quantile (dropna column) (B64.div (B64.of_Z 1) (B64.of_Z 100)) in
  let upper_bound :=
    np_quantile (dropna column) (B64.div (B64.of_Z 99) (B64.of_Z 100)) in
  map (fun v => bool_int (B64.ltb (to_float v) lower_bound
                          || B64.gtb (to_float v) upper_bound)) column.

Definition exclude : list string := ["customer_id"; "id"].
Definition priority_cols : list string :=
  ["income"; "purchase_amount"; "final_price"; "age"].

(** The candidates: numeric columns whose name holds no identifier word and
    is not that of an encoded or one-hot column. *)
Definition numeric_candidates (df : DataFrame) : list string :=
  let numeric_cols :=
    map fst (filter (fun ns => is_numeric (snd ns)) (columns df)) in
  let numeric_cols :=
    filter (fun col => negb (existsb (fun ex => contains (lower col) ex)
                                     exclude)) numeric_cols in
  let numeric_cols :=
    filter (fun col => negb (endswith col "_encoded")) numeric_cols in
  let numeric_cols :=
    filter (fun col => negb (startswith col "gender_")) numeric_cols in
  let numeric_cols :=
    filter (fun col => negb (startswith col "product_category_"))
           numeric_cols in
  numeric_cols.

(** The columns the stage flags: the priority columns among the candidates,
    then the first six other candidates. *)
Definition cols_to_check (df : DataFrame) : list string :=
  let numeric_cols := numeric_candidates df in
  let cols := filter (fun col => mem_string col numeric_cols) priority_cols in
  let other_cols :=
    firstn 6 (filter (fun col => negb (mem_string col priority_cols))
                     numeric_cols) in
  cols ++ other_cols.

(** [(a == 1) | (b == 1)] as integers *)
Definition either_flag (a b : Series) : result Series :=
  match a, b with
  | SInt x, SInt y =>
      Ok (SInt (map2 (fun u v => bool_int ((u =? 1) || (v =? 1))) x y))
  | _, _ => Raise OutsideModel
  end.

(** The body of the loop over [cols_to_check]. *)
Definition flag_column (col : string) (df_new : DataFrame)
    : result DataFrame :=
  if has_col df_new col
  then
    (* Method 1: Z-score *)
    do s <- getitem df_new col;
    do values <- match as_floats s with
                 | Some l => Ok l
                 | None => Raise OutsideModel
                 end;
    let df_new := setitem df_new (String.append col "_anomaly_zscore")
                    (SInt (flag_anomalies_zscore values)) in
    (* Method 2: IQR *)
    do s <- getitem df_new col;
    do cells_ <- match nums s with
                 | Some l => Ok l
                 | None => Raise OutsideModel
                 end;
    let df_new := setitem df_new (String.append col "_anomaly_iqr")
                    (SInt (flag_anomalies_iqr cells_)) in
    (* Method 3: Combined flag *)
    do z <- getitem df_new (String.append col "_anomaly_zscore");
    do q <- getitem df_new (String.append col "_anomaly_iqr");
    do both <- either_flag z q;
    Ok (setitem df_new (String.append col "_is_anomaly") both)
  else Ok df_new.

(** One more column added to the row sums of [sum(axis=1)]; a missing
    value counts as 0. *)
Definition add_to_row_sums (acc : Series) (s : Series) : result Series :=
  match acc, s with
  | SInt a, SInt x => Ok (SInt (map2 (fun u v => wrap64 (u + v)) a x))
  | _, _ =>
      match as_floats acc, as_floats s with
      | Some a, Some x =>
          Ok (SFloat (map2 (fun u v => if B64.is_nan v then u
                                       else B64.add u v) a x))
      | _, _ => Raise OutsideModel
      end
  end.

Fixpoint sum_rows (acc : Series) (cols : list Series) : result Series :=
  match cols with
  | [] => Ok acc
  | s :: cols' => do acc <- add_to_row_sums acc s; sum_rows acc cols'
  end.

Definition is_int64 (s : Series) : bool :=
  match s with SInt _ => true | _ => false end.

(** [df[cols].sum(axis=1)]: integer sums when every selected column is
    int64, float sums otherwise, also when no column is selected. *)
Definition sum_axis1 (df : DataFrame) (cols : list string) : result Series :=
  do ss <- mapM (getitem df) cols;
  let zeros :=
    match ss with
    | _ :: _ => if forallb is_int64 ss
                then SInt (repeat 0 (nrows df))
                else SFloat (repeat B64.zero (nrows df))
    | [] => SFloat (repeat B64.zero (nrows df))
    end in
  sum_rows zeros ss.

(** [(s > 0).astype(int)] *)
Definition positive_flag (s : Series) : result Series :=
  match s with
  | SInt l => Ok (SInt (map (fun z => bool_int (0 <? z)) l))
  | SFloat l => Ok (SInt (map (fun f => bool_int (B64.gtb f B64.zero)) l))
  | _ => Raise OutsideModel
  end.

Definition flag_anomalies_column (df : DataFrame) : result DataFrame :=
  let df_new := df in
  let cols_to_check := cols_to_check df_new in
  do df_new <- for_each flag_column cols_to_check df_new;
  (* Create an overall anomaly score *)
  let anomaly_cols :=
    filter (fun col => endswith col "_is_anomaly") (names df_new) in
  do score <- sum_axis1 df_new anomaly_cols;
  let df_new := setitem df_new "anomaly_score" score in
  do score <- getitem df_new "anomaly_score";
  do flag <- positive_flag score;
  Ok (setitem df_new "has_any_anomaly" flag).

(** The columns of a frame whose name ends in [_is_anomaly]. *)
Definition anomaly_columns (df : DataFrame) : list (string * Series) :=
  filter (fun ns => endswith (fst ns) "_is_anomaly") (columns df).

(** The sum over the given flag columns in row [i]. *)
Definition row_total (cols : list (list Z)) (i : nat) : Z :=
  fold_left (fun acc col => acc + nth i col 0) cols 0.

(* ===================================================================== *)
(** * The pipeline *)
(* ===================================================================== *)

Inductive stage : Type :=
| DeriveComputedColumns
| EncodeCategoricalFeatures
| BinNumericRanges
| TimeBasedFeatureExtraction
| FlagAnomaliesColumn.

Section Pipeline.

Variable to_datetime_text : list (option string) -> option (list (option Z)).
Variable now : Z.

Definition run_stage (st : stage) (df : DataFrame) : result DataFrame :=
  match st with
  | DeriveComputedColumns => derive_computed_columns df
  | EncodeCategoricalFeatures =>
      encode_categorical_features to_datetime_text df
  | BinNumericRanges => bin_numeric_ranges df
  | TimeBasedFeatureExtraction =>
      time_based_feature_extraction to_datetime_text now df
  | FlagAnomaliesColumn => flag_anomalies_column df
  end.

(** [run_pipeline] of the driver, between reading and writing the file. *)
Definition run_pipeline (df : DataFrame) : result DataFrame :=
  do df <- run_stage DeriveComputedColumns df;
  do df <- run_stage EncodeCategoricalFeatures df;
  do df <- run_stage BinNumericRanges df;
  do df <- run_stage TimeBasedFeatureExtraction df;
  run_stage FlagAnomaliesColumn df.

End Pipeline.

(** The values of an int64 column. *)
Definition ints_of (s : Series) : list Z :=
  match s with
  | SInt l => l
  | _ => []
  end.

(* ===================================================================== *)
(** * Relations between tables *)
(* ===================================================================== *)

(** What one block of a stage may do to a frame: set the column [c]. *)
Definition sets_only (c : string) (df df' : DataFrame) : Prop :=
  df' = df \/ exists v, df' = setitem df c v.

(** [df'] has the rows of [df], its columns under their names and in their
    order, possibly more columns after them, and is aligned. *)
Definition grows (df df' : DataFrame) : Prop :=
  nrows df' = nrows df /\
  (exists extra, names df' = names df ++ extra) /\
  aligned df'.

(** A column that is there stays as it is. *)
Definition keeps (c : string) (df df' : DataFrame) : Prop :=
  forall s, lookup c (columns df) = Some s -> lookup c (columns df') = Some s.

(** What makes a column a candidate. *)
Definition is_candidate (ns : string * Series) : bool :=
  is_numeric (snd ns)
  && negb (existsb (fun ex => contains (lower (fst ns)) ex) exclude)
  && negb (endswith (fst ns) "_encoded")
  && negb (startswith (fst ns) "gender_")
  && negb (startswith (fst ns) "product_category_").

(** The combined flag of two flag columns. *)
Definition combined (z q : list Z) : list Z :=
  map2 (fun u v => bool_int ((u =? 1) || (v =? 1))) z q.

(** The three assignments of one turn of the loop. *)
Definition flagged (col : string) (zf qf : list Z) (df : DataFrame)
    : DataFrame :=
  setitem
    (setitem
       (setitem df (String.append col "_anomaly_zscore") (SInt zf))
       (String.append col "_anomaly_iqr") (SInt qf))
    (String.append col "_is_anomaly") (SInt (combined zf qf)).

(** Every [_is_anomaly] column holds flags. *)
Definition flags_ok (df : DataFrame) : Prop :=
  Forall (fun ns => exists bl, snd ns = SInt bl /\
                               Forall (fun x => x = 0 \/ x = 1) bl)
         (anomaly_columns df).

(** Every [_is_anomaly] column is the combination of the two flag columns of
    the same source column. *)
Definition combined_ok (df : DataFrame) : Prop :=
  forall c b,
    lookup (String.append c "_is_anomaly") (columns df) = Some b ->
    exists z q,
      lookup (String.append c "_anomaly_zscore") (columns df) = Some (SInt z) /\
      lookup (String.append c "_anomaly_iqr") (columns df) = Some (SInt q) /\
      b = SInt (combined z q).


(* ===================================================================== *)
(** * Example tables *)
(* ===================================================================== *)

(** The decimal literal [m / 10^k], correctly rounded. *)
Definition dec (m k : Z) : float := B64.div (B64.of_Z m) (B64.of_Z (10 ^ k)).

(** Midnight of day [n] after 1970-01-01, in nanoseconds. *)
Definition day (n : Z) : option Z := Some (n * 86400 * 10 ^ 9).

(** The fixture [sample_df] of tests/test_features.py. *)
Definition sample_df : DataFrame := mkDF 5
  [("customer_id", SInt [1; 2; 3; 4; 5]);
   ("age", SInt [22; 35; 45; 55; 70]);
   ("gender", SObj [Some "Male"; Some "Female"; Some "Male"; Some "Other";
                    Some "Female"]);
   ("education", SObj [Some "Bachelor"; Some "Master"; Some "PhD";
                       Some "High School"; Some "Bachelor"]);
   ("income", SInt [30000; 50000; 75000; 100000; 400000]);
   ("purchase_amount", SFloat (map B64.of_Z [100; 500; 1000; 2000; 12000]));
   ("purchase_date", SDate [day 19737; day 19894; day 19792; day 19692;
                            day 20052]);
   ("product_category", SObj [Some "Electronics"; Some "Clothing";
                              Some "Food"; Some "Books"; Some "Home"]);
   ("rating", SFloat [dec 45 1; dec 30 1; dec 20 1; dec 50 1; dec 15 1]);
   ("discount_percent", SFloat (map B64.of_Z [10; 25; 5; 40; 0]));
   ("shipping_cost", SFloat (map B64.of_Z [5; 10; 15; 20; 25]))].

(** A parser of text columns under which no text column holds dates, as is
    the case for the text columns of [sample_df]. *)
Definition no_text_dates (l : list (option string))
    : option (list (option Z)) := None.


(** Every binned column at the lower bound of its table in row 0, and well
    inside the table in row 1. *)
Definition lower_bound_df : DataFrame := mkDF 2
  [("age", SInt [0; 30]);
   ("income", SInt [0; 40000]);
   ("purchase_amount", SFloat [B64.zero; B64.of_Z 250]);
   ("rating", SFloat [B64.zero; dec 45 1]);
   ("discount_percent", SFloat [B64.zero; B64.of_Z 15])].

(** Four orders at one price, and eight at different prices. *)
Definition same_price_df : DataFrame :=
  mkDF 4 [("final_price", SFloat (map B64.of_Z [5; 5; 5; 5]))].

Definition spread_price_df : DataFrame :=
  mkDF 8 [("final_price", SFloat (map B64.of_Z [1; 2; 3; 4; 5; 6; 7; 8]))].

(** A gender column with a missing value in row 1. *)
Definition missing_gender_df : DataFrame :=
  mkDF 3 [("gender", SObj [Some "Male"; None; Some "Female"])].

(** A numeric column named like a gender indicator. *)
Definition indicator_named_df : DataFrame :=
  mkDF 2 [("gender_Male", SInt [1; 0])].

(** A frame that comes with a column named like an anomaly flag. *)
Definition flag_named_df : DataFrame :=
  mkDF 2 [("x_is_anomaly", SInt [-1; -1])].


(** The incomes of [sample_df] alone. *)
Definition incomes_df : DataFrame :=
  mkDF 5 [("income", SInt [30000; 50000; 75000; 100000; 400000])].

(* ===================================================================== *)
(** * The calendar, the other way round *)
(* ===================================================================== *)

(** The day count since 1970-01-01 of the date [y]-[m]-[d] of the proleptic
    Gregorian calendar. *)
Definition days_from_civil (y m d : Z) : Z :=
  let y := if m <=? 2 then y - 1 else y in
  let era := y / 400 in
  let yoe := y - era * 400 in
  let mp := if 2 <? m then m - 3 else m + 9 in
  let doy := (153 * mp + 2) / 5 + d - 1 in
  let doe := yoe * 365 + yoe / 4 - yoe / 100 + doy in
  era * 146097 + doe - 719468.

(** The date after [y]-[m]-[d]. *)
Definition next_date (y m d : Z) : Z * Z * Z :=
  if d <? days_in_month y m then (y, m, d + 1)
  else if m <? 12 then (y, m + 1, 1)
  else (y + 1, 1, 1).

(** The parts of [civil_from_days]: in a cycle of 400 years that starts on
    a 1 March, the year of the cycle a day falls in, the day on which a
    year of the cycle starts and its last day, and month and day of a day
    of such a year. *)
Definition year_guess (doe : Z) : Z :=
  (doe - doe / 1460 + doe / 36524 - doe / 146096) / 365.

Definition year_start (y : Z) : Z := 365 * y + y / 4 - y / 100.

Definition year_last (y : Z) : Z :=
  year_start y + 364 + (if is_leap_year (y + 1) then 1 else 0).

Definition month_day (doy : Z) : Z * Z :=
  let mp := (5 * doy + 2) / 153 in
  let d := doy - (153 * mp + 2) / 5 + 1 in
  (if mp <? 10 then mp + 3 else mp - 9, d).

(** [f] holds of the [n] integers from [z] on. *)
Fixpoint all_from (f : Z -> bool) (n : nat) (z : Z) : bool :=
  match n with
  | O => true
  | S n' => f z && all_from f n' (z + 1)
  end.

(** What is to hold of a year of the cycle: its first and its last day are
    guessed to be in it, and the next year starts on the day after. *)
Definition year_ok (y : Z) : bool :=
  (0 <=? year_start y) && (year_last y <=? 146096)
  && (year_guess (year_start y) =? y) && (year_guess (year_last y) =? y)
  && (if y =? 399 then year_last y =? 146096
      else year_last y + 1 =? year_start (y + 1)).

(** What is to hold of a day of a year that starts on 1 March: month and
    day are in range and lead back to the day; February is the last
    month. *)
Definition day_ok (doy : Z) : bool :=
  let '(m, d) := month_day doy in
  (1 <=? m) && (m <=? 12) && (1 <=? d)
  && ((153 * (if 2 <? m then m - 3 else m + 9) + 2) / 5 + d - 1 =? doy)
  && (if m =? 2 then d =? doy - 336 else d <=? days_in_month 1 m).

(** What is to hold of a day of such a year and the day after it: the next
    day of the month, or the first of the next month after the last day of
    a month that is not February. *)
Definition next_ok (doy : Z) : bool :=
  let '(m, d) := month_day doy in
  let '(m', d') := month_day (doy + 1) in
  ((m' =? m) && (d' =? d + 1))
  || ((d' =? 1) && (d =? days_in_month 1 m) && negb (m =? 2)
      && (m' =? (if m <? 12 then m + 1 else 1))).

(** The columns stage 1 writes. *)
Definition stage1_targets : list string :=
  ["total_cost"; "discount_amount"; "final_price"; "price_per_rating";
   "income_purchase_ratio"; "age_squared"; "spending_power_index"].

(** The shape of a block of a stage:
    [if guard(df): df[dst] = value(df)]. *)
Definition block (guard : DataFrame -> bool)
    (value : DataFrame -> result Series) (dst : string) (df : DataFrame)
    : result DataFrame :=
  if guard df then do v <- value df; Ok (setitem df dst v) else Ok df.

(** [f] looks at the columns [srcs] of a frame only. *)
Definition reads_only {A : Type} (srcs : list string) (f : DataFrame -> A)
    : Prop :=
  forall d d',
    (forall c, In c srcs -> lookup c (columns d) = lookup c (columns d')) ->
    f d = f d'.

(** [step] is a block that reads [srcs] and writes [dst]. *)
Definition is_block (srcs : list string) (dst : string)
    (step : DataFrame -> result DataFrame) : Prop :=
  exists guard value,
    reads_only srcs guard /\ reads_only srcs value /\
    forall df, step df = block guard value dst df.

(** The number of rows of a text column that hold [v]. *)
Definition count_text (v : string) (l : list (option string)) : nat :=
  length (filter (fun o => match o with
                           | Some u => String.eqb u v
                           | None => false
                           end) l).

(** The share of the rows with a value that hold the value of the cell [o],
    to four decimals; NaN for a missing cell. *)
Definition text_frequency (l : list (option string)) (o : option string)
    : float :=
  match o with
  | Some v => B64.round 4 (B64.div (B64.of_nat (count_text v l))
                                   (B64.of_nat (length (somes l))))
  | None => B64.nan
  end.

(** The flag columns of the source column [c] are there: two columns of
    flags and their combination. *)
Definition has_flags (c : string) (d : DataFrame) : Prop :=
  exists z q,
    lookup (String.append c "_anomaly_zscore") (columns d) = Some (SInt z) /\
    lookup (String.append c "_anomaly_iqr") (columns d) = Some (SInt q) /\
    lookup (String.append c "_is_anomaly") (columns d)
    = Some (SInt (combined z q)) /\
    Forall (fun x => x = 0 \/ x = 1) z /\
    Forall (fun x => x = 0 \/ x = 1) q.

(** The name has "date" or "time" in it, in any case of the letters. *)
Definition dated (name : string) : bool :=
  contains (lower name) "date" || contains (lower name) "time".

(** What the second loop of stage 4 leaves for the datetime column [n] with
    the timestamps [l], the is-recent flag apart. *)
Definition time_features (now : Z) (n : string) (l : list (option Z))
    (d : DataFrame) : Prop :=
  let at_ := fun suffix => lookup (String.append n suffix) (columns d) in
  lookup n (columns d) = Some (SDate l) /\
  at_ "_year" = Some (dt_field dt_year l) /\
  at_ "_month" = Some (dt_field dt_month l) /\
  at_ "_month_name" = Some (SObj (map (option_map dt_month_name) l)) /\
  at_ "_day" = Some (dt_field dt_day l) /\
  at_ "_day_of_week" = Some (dt_field dt_dayofweek l) /\
  at_ "_day_name" = Some (SObj (map (option_map dt_day_name) l)) /\
  at_ "_quarter" = Some (dt_field dt_quarter l) /\
  at_ "_week_of_year" = Some (dt_field dt_isoweek l) /\
  at_ "_is_weekend"
  = Some (dt_flag (fun t => (dt_dayofweek t =? 5) || (dt_dayofweek t =? 6))
                  l) /\
  at_ "_is_month_start" = Some (dt_flag (fun t => dt_day t =? 1) l) /\
  at_ "_is_month_end"
  = Some (dt_flag (fun t => dt_day t
                            =? days_in_month (dt_year t) (dt_month t)) l) /\
  at_ "_days_since_epoch" = Some (dt_field days_of_ns l) /\
  at_ "_season"
  = Some (SObj (map (fun o => Some (season_of (option_map dt_month o))) l)) /\
  at_ "_days_from_today"
  = Some (dt_field (fun t => days_of_ns (now - t)) l) /\
  exists r, at_ "_is_recent" = Some (SInt r) /\ length r = length l.

(** An income is missing in row 0. *)
Definition missing_income_df : DataFrame :=
  mkDF 2 [("income", SFloat [B64.nan; B64.of_Z 40000])].

(** A text column that is neither ordinal nor nominal, with a missing cell. *)
Definition city_df : DataFrame :=
  mkDF 4 [("city", SObj [Some "Rome"; None; Some "Oslo"; Some "Rome"])].

(** A parser of text columns that knows two dates and fails on any other
    text. *)
Definition two_text_dates (l : list (option string))
    : option (list (option Z)) :=
  all_some
    (map (fun o => match o with
                   | None => Some None
                   | Some s =>
                       if String.eqb s "1970-01-01" then Some (day 0)
                       else if String.eqb s "2024-01-15"
                       then Some (day 19737)
                       else None
                   end) l).

(** A text column of dates. *)
Definition signup_df : DataFrame :=
  mkDF 2 [("signup", SObj [Some "2024-01-15"; Some "1970-01-01"])].

(** Whole-number discounts and ratings. *)
Definition whole_numbers_df : DataFrame :=
  mkDF 3 [("discount_percent", SInt [0; 25; 101]);
          ("rating", SInt [0; 3; 5])].

(* ===================================================================== *)
(** * Lemmas and theorems *)
(* ===================================================================== *)

(* ===================================================================== *)
(** * Lemmas on lists, strings and frames *)
(* ===================================================================== *)

Lemma map2_length {A B C : Type} (f : A -> B -> C) (l : list A) (l' : list B) :
  length l = length l' -> length (map2 f l l') = length l.
Proof.
  revert l'; induction l as [|a l IH]; intros [|b l'] H; simpl in *;
    try discriminate; auto.
Qed.

Lemma map2_nth_error {A B C : Type} (f : A -> B -> C) (l : list A)
    (l' : list B) (i : nat) :
  nth_error (map2 f l l') i =
  match nth_error l i, nth_error l' i with
  | Some a, Some b => Some (f a b)
  | _, _ => None
  end.
Proof.
  revert l' i; induction l as [|a l IH]; intros [|b l'] [|i]; simpl; auto;
    destruct (nth_error l i); reflexivity.
Qed.

Lemma mem_string_In (x : string) (l : list string) :
  mem_string x l = true <-> In x l.
Proof.
  unfold mem_string. rewrite existsb_exists. split.
  - intros [y [Hy E]]. apply String.eqb_eq in E. subst. exact Hy.
  - intros H. exists x. split; [exact H | apply String.eqb_refl].
Qed.

Lemma lookup_None_names (c : string) (cols : list (string * Series)) :
  lookup c cols = None <-> ~ In c (map fst cols).
Proof.
  induction cols as [|[n s] cols IH]; simpl.
  - tauto.
  - destruct (String.eqb_spec c n) as [->|Hne].
    + split; [discriminate | intros H; exfalso; apply H; now left].
    + rewrite IH. split; [intros H [E|I]; [congruence | tauto] | tauto].
Qed.

Lemma has_col_lookup (df : DataFrame) (c : string) :
  has_col df c = match lookup c (columns df) with Some _ => true | None => false end.
Proof.
  unfold has_col, names.
  destruct (lookup c (columns df)) eqn:E.
  - apply mem_string_In. destruct (in_dec string_dec c (map fst (columns df))) as [I|N]; auto.
    apply lookup_None_names in N. congruence.
  - apply lookup_None_names in E.
    destruct (mem_string c (map fst (columns df))) eqn:M; auto.
    apply mem_string_In in M. contradiction.
Qed.

Lemma lookup_app (c : string) (l l' : list (string * Series)) :
  lookup c (l ++ l') =
  match lookup c l with Some s => Some s | None => lookup c l' end.
Proof.
  induction l as [|[n s] l IH]; simpl; auto.
  destruct (String.eqb c n); auto.
Qed.

Lemma lookup_replace (c c' : string) (s : Series) (l : list (string * Series)) :
  lookup c (map (fun ns => if String.eqb c' (fst ns) then (fst ns, s) else ns) l) =
  match lookup c l with
  | Some s0 => if String.eqb c c' then Some s else Some s0
  | None => None
  end.
Proof.
  induction l as [|[n s0] l IH]; simpl; auto.
  destruct (String.eqb_spec c' n) as [->|Hne]; simpl.
  - destruct (String.eqb_spec c n) as [->|Hne']; auto.
  - destruct (String.eqb_spec c n) as [->|Hne']; auto.
    destruct (String.eqb_spec n c'); congruence.
Qed.

Lemma lookup_setitem (df : DataFrame) (c c' : string) (s : Series) :
  lookup c (columns (setitem df c' s)) =
  if String.eqb c c' then Some s else lookup c (columns df).
Proof.
  unfold setitem. rewrite has_col_lookup.
  destruct (lookup c' (columns df)) eqn:E; simpl.
  - rewrite lookup_replace.
    destruct (String.eqb_spec c c') as [->|Hne].
    + rewrite E. reflexivity.
    + destruct (lookup c (columns df)); reflexivity.
  - rewrite lookup_app. simpl.
    destruct (String.eqb_spec c c') as [->|Hne].
    + rewrite E. reflexivity.
    + destruct (lookup c (columns df)); reflexivity.
Qed.

Lemma nrows_setitem (df : DataFrame) (c : string) (s : Series) :
  nrows (setitem df c s) = nrows df.
Proof. unfold setitem. destruct (has_col df c); reflexivity. Qed.

Lemma names_setitem (df : DataFrame) (c : string) (s : Series) :
  names (setitem df c s) =
  if has_col df c then names df else names df ++ [c].
Proof.
  unfold setitem, names. destruct (has_col df c); simpl.
  - rewrite map_map. apply map_ext. intros [n s0]; simpl.
    destruct (String.eqb c n); reflexivity.
  - rewrite map_app. reflexivity.
Qed.

Lemma aligned_setitem (df : DataFrame) (c : string) (s : Series) :
  aligned df -> slen s = nrows df -> aligned (setitem df c s).
Proof.
  unfold aligned, setitem. intros H Hs.
  destruct (has_col df c); simpl.
  - rewrite Forall_map. eapply Forall_impl; [|exact H].
    intros [n s0]; simpl. destruct (String.eqb c n); simpl; auto.
  - apply Forall_app. split; auto.
Qed.

Lemma lookup_In (c : string) (cols : list (string * Series)) (s : Series) :
  lookup c cols = Some s -> In (c, s) cols.
Proof.
  induction cols as [|[n s0] cols IH]; simpl; [discriminate|].
  destruct (String.eqb_spec c n) as [->|Hne].
  - intros [= ->]. now left.
  - intros H. right. auto.
Qed.

Lemma aligned_lookup (df : DataFrame) (c : string) (s : Series) :
  aligned df -> lookup c (columns df) = Some s -> slen s = nrows df.
Proof.
  intros H L. apply lookup_In in L.
  unfold aligned in H. rewrite Forall_forall in H. apply (H _ L).
Qed.

Lemma getitem_Ok (df : DataFrame) (c : string) (s : Series) :
  getitem df c = Ok s <-> lookup c (columns df) = Some s.
Proof.
  unfold getitem. destruct (lookup c (columns df)); split; congruence.
Qed.

(** ** Arithmetic on columns is element-wise *)

Ltac case_nth :=
  repeat match goal with
         | |- context [@nth_error ?A ?l ?i] =>
             let o := fresh "o" in
             generalize (@nth_error A l i); intros o; destruct o
         end.

Lemma slen_nums (s : Series) (l : list num) :
  nums s = Some l -> length l = slen s.
Proof.
  destruct s; simpl; intros [= <-]; apply length_map.
Qed.

Lemma as_floats_nums (s : Series) :
  as_floats s = option_map (map to_float) (nums s).
Proof.
  destruct s; simpl; auto; rewrite map_map; simpl; auto.
  f_equal. symmetry. apply map_id.
Qed.

Lemma series_arith_num_at iop fop (a b c : Series) (i : nat) :
  series_arith iop fop a b = Ok c ->
  num_at c i =
  match num_at a i, num_at b i with
  | Some x, Some y => Some (n_arith iop fop x y)
  | _, _ => None
  end.
Proof.
  unfold series_arith, num_at.
  destruct a as [x|x| | |], b as [y|y| | |]; simpl; try discriminate;
    intros [= <-]; simpl;
    rewrite ?nth_error_map, ?map2_nth_error, ?nth_error_map;
    case_nth; reflexivity.
Qed.

Lemma series_arith_slen iop fop (a b c : Series) :
  series_arith iop fop a b = Ok c -> slen a = slen b -> slen c = slen a.
Proof.
  unfold series_arith.
  destruct a as [x|x| | |], b as [y|y| | |]; simpl; try discriminate;
    intros [= <-] H; simpl; rewrite map2_length; rewrite ?length_map; auto.
Qed.

Lemma series_truediv_num_at (a b c : Series) (i : nat) :
  series_truediv a b = Ok c ->
  num_at c i =
  match num_at a i, num_at b i with
  | Some x, Some y => Some (n_truediv x y)
  | _, _ => None
  end.
Proof.
  unfold series_truediv, num_at.
  destruct a as [x|x| | |], b as [y|y| | |]; simpl; try discriminate;
    intros [= <-]; simpl;
    rewrite ?nth_error_map, ?map2_nth_error, ?nth_error_map;
    case_nth; reflexivity.
Qed.

Lemma series_truediv_slen (a b c : Series) :
  series_truediv a b = Ok c -> slen a = slen b -> slen c = slen a.
Proof.
  unfold series_truediv.
  destruct a as [x|x| | |], b as [y|y| | |]; simpl; try discriminate;
    intros [= <-] H; simpl; rewrite map2_length; rewrite ?length_map; auto.
Qed.

Lemma series_truediv_scalar_num_at (a c : Series) (k : Z) (i : nat) :
  series_truediv_scalar a k = Ok c ->
  num_at c i = option_map (fun x => n_truediv x (NInt k)) (num_at a i).
Proof.
  unfold series_truediv_scalar, num_at.
  destruct a as [x|x| | |]; simpl; try discriminate; intros [= <-]; simpl;
    rewrite ?nth_error_map; case_nth; reflexivity.
Qed.

Lemma series_truediv_scalar_slen (a c : Series) (k : Z) :
  series_truediv_scalar a k = Ok c -> slen c = slen a.
Proof.
  unfold series_truediv_scalar.
  destruct a; simpl; try discriminate; intros [= <-]; simpl;
    rewrite ?length_map; auto.
Qed.

Lemma series_mul_scalar_num_at (a c : Series) (k : Z) (i : nat) :
  series_mul_scalar a k = Ok c ->
  num_at c i = option_map (fun x => n_mul x (NInt k)) (num_at a i).
Proof.
  unfold series_mul_scalar, num_at.
  destruct a as [x|x| | |]; simpl; try discriminate; intros [= <-]; simpl;
    rewrite ?nth_error_map; case_nth; reflexivity.
Qed.

Lemma series_mul_scalar_slen (a c : Series) (k : Z) :
  series_mul_scalar a k = Ok c -> slen c = slen a.
Proof.
  unfold series_mul_scalar.
  destruct a; simpl; try discriminate; intros [= <-]; simpl;
    rewrite ?length_map; auto.
Qed.

Lemma series_square_slen (a c : Series) :
  series_square a = Ok c -> slen c = slen a.
Proof.
  unfold series_square.
  destruct a; simpl; try discriminate; intros [= <-]; simpl;
    rewrite ?length_map; auto.
Qed.

Lemma series_round_num_at (d : Z) (a c : Series) (i : nat) :
  series_round d a = Ok c ->
  num_at c i = option_map (n_round d) (num_at a i).
Proof.
  unfold series_round, num_at.
  destruct a as [x|x| | |]; simpl; try discriminate; intros [= <-]; simpl;
    rewrite ?nth_error_map; case_nth; reflexivity.
Qed.

Lemma series_round_slen (d : Z) (a c : Series) :
  series_round d a = Ok c -> slen c = slen a.
Proof.
  unfold series_round.
  destruct a; simpl; try discriminate; intros [= <-]; simpl;
    rewrite ?length_map; auto.
Qed.

(** ** Strings *)

Lemma string_length_append (a b : string) :
  String.length (String.append a b) = (String.length a + String.length b)%nat.
Proof. induction a as [|c a IH]; simpl; auto. Qed.

Lemma substring_all (b : string) :
  String.substring 0 (String.length b) b = b.
Proof. induction b as [|c b IH]; simpl; auto. rewrite IH. reflexivity. Qed.

Lemma substring_append_suffix (a b : string) :
  String.substring (String.length a) (String.length b) (String.append a b) = b.
Proof.
  induction a as [|c a IH]; simpl.
  - apply substring_all.
  - exact IH.
Qed.

Lemma endswith_append (a b : string) : endswith (String.append a b) b = true.
Proof.
  unfold endswith. rewrite string_length_append.
  replace (String.length b <=? String.length a + String.length b)%nat
    with true by (symmetry; apply Nat.leb_le; lia).
  replace (String.length a + String.length b - String.length b)%nat
    with (String.length a) by lia.
  rewrite substring_append_suffix. apply String.eqb_refl.
Qed.

(** Two names built with suffixes of which neither ends the other's name
    differ. *)
Lemma append_suffix_neq (a b s t : string) :
  endswith (String.append b t) s = false ->
  String.append a s <> String.append b t.
Proof.
  intros H E. rewrite <- E, endswith_append in H. discriminate.
Qed.

Lemma endswith_suffix_of (a s t : string) :
  endswith t s = false ->
  (String.length s <= String.length t)%nat ->
  endswith (String.append a t) s = endswith t s.
Proof.
  intros H L. rewrite H. unfold endswith in *.
  rewrite string_length_append.
  destruct (String.length s <=? String.length a + String.length t)%nat eqn:E;
    [|reflexivity].
  replace (String.length s <=? String.length t)%nat with true in H
    by (symmetry; apply Nat.leb_le; lia).
  replace (String.length a + String.length t - String.length s)%nat
    with (String.length a + (String.length t - String.length s))%nat by lia.
  assert (G : forall a n k t,
             String.substring (String.length a + n) k (String.append a t)
             = String.substring n k t).
  { clear. induction a as [|c a IH]; simpl; auto. }
  rewrite G. exact H.
Qed.

Lemma append_inj_l (a b s : string) :
  String.append a s = String.append b s -> a = b.
Proof.
  revert b. induction a as [|c a IH]; intros [|d b] H; simpl in *; auto.
  - exfalso. apply (f_equal String.length) in H. simpl in H.
    rewrite string_length_append in H. lia.
  - exfalso. apply (f_equal String.length) in H. simpl in H.
    rewrite string_length_append in H. lia.
  - injection H as -> H. f_equal. auto.
Qed.

(* ===================================================================== *)
(** * Stage 1 *)
(* ===================================================================== *)

Lemma sets_only_lookup (c c' : string) (df df' : DataFrame) :
  sets_only c df df' -> c' <> c ->
  lookup c' (columns df') = lookup c' (columns df).
Proof.
  intros [->|[v ->]] Hne; auto.
  rewrite lookup_setitem. destruct (String.eqb_spec c' c); congruence.
Qed.

Ltac inv_bind H :=
  match type of H with
  | bind ?r _ = Ok _ =>
      let E := fresh "E" in
      destruct r eqn:E; cbn [bind] in H; [|discriminate H]
  end.

Ltac block_sets :=
  match goal with
  | H : (if ?b then _ else _) = Ok _ |- _ =>
      destruct b;
      [repeat inv_bind H; injection H as <-; right; eexists; reflexivity
      |injection H as <-; left; reflexivity]
  end.

Lemma derive_total_cost_sets df df' :
  derive_total_cost df = Ok df' -> sets_only "total_cost" df df'.
Proof. unfold derive_total_cost. intros H. block_sets. Qed.

Lemma derive_discount_amount_sets df df' :
  derive_discount_amount df = Ok df' -> sets_only "discount_amount" df df'.
Proof. unfold derive_discount_amount. intros H. block_sets. Qed.

Lemma derive_final_price_sets df df' :
  derive_final_price df = Ok df' -> sets_only "final_price" df df'.
Proof. unfold derive_final_price. intros H. block_sets. Qed.

Lemma derive_price_per_rating_sets df df' :
  derive_price_per_rating df = Ok df' -> sets_only "price_per_rating" df df'.
Proof. unfold derive_price_per_rating. intros H. block_sets. Qed.

Lemma derive_income_purchase_ratio_sets df df' :
  derive_income_purchase_ratio df = Ok df' ->
  sets_only "income_purchase_ratio" df df'.
Proof. unfold derive_income_purchase_ratio. intros H. block_sets. Qed.

Lemma derive_age_squared_sets df df' :
  derive_age_squared df = Ok df' -> sets_only "age_squared" df df'.
Proof. unfold derive_age_squared. intros H. block_sets. Qed.

Lemma derive_spending_power_index_sets df df' :
  derive_spending_power_index df = Ok df' ->
  sets_only "spending_power_index" df df'.
Proof. unfold derive_spending_power_index. intros H. block_sets. Qed.

(** The seven intermediate frames of a run that does not raise. *)
Lemma derive_computed_columns_steps df df' :
  derive_computed_columns df = Ok df' ->
  exists d1 d2 d3 d4 d5 d6,
    derive_total_cost df = Ok d1 /\
    derive_discount_amount d1 = Ok d2 /\
    derive_final_price d2 = Ok d3 /\
    derive_price_per_rating d3 = Ok d4 /\
    derive_income_purchase_ratio d4 = Ok d5 /\
    derive_age_squared d5 = Ok d6 /\
    derive_spending_power_index d6 = Ok df'.
Proof.
  unfold derive_computed_columns. intros H.
  repeat inv_bind H. injection H as <-.
  do 6 eexists. repeat split; eassumption.
Qed.

Lemma lookup_has_col df c s :
  lookup c (columns df) = Some s -> has_col df c = true.
Proof. intros H. rewrite has_col_lookup, H. reflexivity. Qed.

(** Block 1 on a frame that has both inputs. *)
Lemma derive_total_cost_value df df' pa sc :
  lookup "purchase_amount" (columns df) = Some pa ->
  lookup "shipping_cost" (columns df) = Some sc ->
  derive_total_cost df = Ok df' ->
  exists tc, series_add pa sc = Ok tc /\
             lookup "total_cost" (columns df') = Some tc.
Proof.
  intros Hpa Hsc. unfold derive_total_cost, getitem.
  rewrite (lookup_has_col _ _ Hpa), (lookup_has_col _ _ Hsc), Hpa, Hsc.
  cbn [bind andb]. intros H. inv_bind H. injection H as <-.
  eexists. split; [reflexivity|]. rewrite lookup_setitem. reflexivity.
Qed.

(** Block 2 on a frame that has both inputs. *)
Lemma derive_discount_amount_value df df' pa dp :
  lookup "purchase_amount" (columns df) = Some pa ->
  lookup "discount_percent" (columns df) = Some dp ->
  derive_discount_amount df = Ok df' ->
  exists p q da, series_mul pa dp = Ok p /\
                 series_truediv_scalar p 100 = Ok q /\
                 series_round 2 q = Ok da /\
                 lookup "discount_amount" (columns df') = Some da.
Proof.
  intros Hpa Hdp. unfold derive_discount_amount, getitem.
  rewrite (lookup_has_col _ _ Hpa), (lookup_has_col _ _ Hdp), Hpa, Hdp.
  cbn [bind andb]. intros H. repeat inv_bind H. injection H as <-.
  do 3 eexists. repeat split; try reflexivity; try eassumption.
  rewrite lookup_setitem. reflexivity.
Qed.

(** Block 3 on a frame that has both inputs. *)
Lemma derive_final_price_value df df' tc da :
  lookup "total_cost" (columns df) = Some tc ->
  lookup "discount_amount" (columns df) = Some da ->
  derive_final_price df = Ok df' ->
  exists d fp, series_sub tc da = Ok d /\
               series_round 2 d = Ok fp /\
               lookup "final_price" (columns df') = Some fp.
Proof.
  intros Htc Hda. unfold derive_final_price, getitem.
  rewrite (lookup_has_col _ _ Htc), (lookup_has_col _ _ Hda), Htc, Hda.
  cbn [bind andb]. intros H. repeat inv_bind H. injection H as <-.
  do 2 eexists. repeat split; try reflexivity; try eassumption.
  rewrite lookup_setitem. reflexivity.
Qed.

Ltac frame_lookup :=
  repeat match goal with
  | S : sets_only ?c ?d ?d' |- context [lookup ?c' (columns ?d')] =>
      rewrite (@sets_only_lookup c c' d d' S) by discriminate
  end.

(** C1.  In a frame with the columns purchase_amount, shipping_cost and
    discount_percent, every row [i] whose three cells are the numbers [p],
    [s] and [d] gets total_cost [p + s] and final_price
    [round(p + s - round(p * d / 100, 2), 2)], whenever the stage returns. *)
Theorem derive_final_price_total_cost_rows
    (df df' : DataFrame) (pa sc dp : Series) (i : nat) (p s d : num) :
  lookup "purchase_amount" (columns df) = Some pa ->
  lookup "shipping_cost" (columns df) = Some sc ->
  lookup "discount_percent" (columns df) = Some dp ->
  num_at pa i = Some p ->
  num_at sc i = Some s ->
  num_at dp i = Some d ->
  derive_computed_columns df = Ok df' ->
  exists tc fp,
    lookup "total_cost" (columns df') = Some tc /\
    lookup "final_price" (columns df') = Some fp /\
    num_at tc i = Some (n_add p s) /\
    num_at fp i =
      Some (n_round 2
              (n_sub (n_add p s)
                     (n_round 2 (n_truediv (n_mul p d) (NInt 100))))).
Proof.
  intros Hpa Hsc Hdp Hp Hs Hd Hrun.
  destruct (derive_computed_columns_steps _ Hrun)
    as (d1 & d2 & d3 & d4 & d5 & d6 & R1 & R2 & R3 & R4 & R5 & R6 & R7).
  pose proof (derive_total_cost_sets _ R1) as S1.
  pose proof (derive_discount_amount_sets _ R2) as S2.
  pose proof (derive_final_price_sets _ R3) as S3.
  pose proof (derive_price_per_rating_sets _ R4) as S4.
  pose proof (derive_income_purchase_ratio_sets _ R5) as S5.
  pose proof (derive_age_squared_sets _ R6) as S6.
  pose proof (derive_spending_power_index_sets _ R7) as S7.
  destruct (derive_total_cost_value _ Hpa Hsc R1) as (tc & Atc & Ltc).
  assert (Hpa1 : lookup "purchase_amount" (columns d1) = Some pa)
    by (frame_lookup; exact Hpa).
  assert (Hdp1 : lookup "discount_percent" (columns d1) = Some dp)
    by (frame_lookup; exact Hdp).
  destruct (derive_discount_amount_value _ Hpa1 Hdp1 R2)
    as (m & q & da & Am & Aq & Ada & Lda).
  assert (Ltc2 : lookup "total_cost" (columns d2) = Some tc)
    by (frame_lookup; exact Ltc).
  destruct (derive_final_price_value _ Ltc2 Lda R3)
    as (df0 & fp & Ad & Afp & Lfp).
  exists tc, fp.
  assert (Ntc : num_at tc i = Some (n_add p s)).
  { rewrite (series_arith_num_at _ _ _ _ i Atc), Hp, Hs. reflexivity. }
  split; [frame_lookup; exact Ltc|].
  split; [frame_lookup; exact Lfp|].
  split; [exact Ntc|].
  rewrite (series_round_num_at _ _ i Afp).
  rewrite (series_arith_num_at _ _ _ _ i Ad), Ntc.
  rewrite (series_round_num_at _ _ i Ada).
  rewrite (series_truediv_scalar_num_at _ _ i Aq).
  rewrite (series_arith_num_at _ _ _ _ i Am), Hp, Hd.
  reflexivity.
Qed.

(** ** Division by zero in stage 1 *)










(** ** Stage 1 does not raise on numeric columns *)




















(** Block 4 on a frame that has both inputs. *)
Lemma derive_price_per_rating_value df df' fp r :
  lookup "final_price" (columns df) = Some fp ->
  lookup "rating" (columns df) = Some r ->
  derive_price_per_rating df = Ok df' ->
  exists q v, series_truediv fp r = Ok q /\
              series_round 2 q = Ok v /\
              lookup "price_per_rating" (columns df') = Some v.
Proof.
  intros Hfp Hr. unfold derive_price_per_rating, getitem.
  rewrite (lookup_has_col _ _ Hfp), (lookup_has_col _ _ Hr), Hfp, Hr.
  cbn [bind andb]. intros H. repeat inv_bind H. injection H as <-.
  do 2 eexists. repeat split; try reflexivity; try eassumption.
  rewrite lookup_setitem. reflexivity.
Qed.

(** Block 5 on a frame that has both inputs. *)
Lemma derive_income_purchase_ratio_value df df' pa inc :
  lookup "purchase_amount" (columns df) = Some pa ->
  lookup "income" (columns df) = Some inc ->
  derive_income_purchase_ratio df = Ok df' ->
  exists q p v, series_truediv pa inc = Ok q /\
                series_mul_scalar q 100 = Ok p /\
                series_round 2 p = Ok v /\
                lookup "income_purchase_ratio" (columns df') = Some v.
Proof.
  intros Hpa Hinc. unfold derive_income_purchase_ratio, getitem.
  rewrite (lookup_has_col _ _ Hpa), (lookup_has_col _ _ Hinc), Hpa, Hinc.
  cbn [bind andb]. intros H. repeat inv_bind H. injection H as <-.
  do 3 eexists. repeat split; try reflexivity; try eassumption.
  rewrite lookup_setitem. reflexivity.
Qed.

(** Block 7 on a frame that has both inputs. *)
Lemma derive_spending_power_index_value df df' inc a :
  lookup "income" (columns df) = Some inc ->
  lookup "age" (columns df) = Some a ->
  derive_spending_power_index df = Ok df' ->
  exists k q v, series_truediv_scalar inc 1000 = Ok k /\
                series_truediv k a = Ok q /\
                series_round 2 q = Ok v /\
                lookup "spending_power_index" (columns df') = Some v.
Proof.
  intros Hinc Ha. unfold derive_spending_power_index, getitem.
  rewrite (lookup_has_col _ _ Hinc), (lookup_has_col _ _ Ha), Hinc, Ha.
  cbn [bind andb]. intros H. repeat inv_bind H. injection H as <-.
  do 3 eexists. repeat split; try reflexivity; try eassumption.
  rewrite lookup_setitem. reflexivity.
Qed.

Ltac frame_lookup_in H :=
  repeat match type of H with
  | context [lookup ?c' (columns ?d')] =>
      match goal with
      | S : sets_only ?c ?d d' |- _ =>
          rewrite (@sets_only_lookup c c' d d' S) in H by discriminate
      end
  end.


(** ** Frames only grow *)

Lemma grows_refl df : aligned df -> grows df df.
Proof.
  intros H. repeat split; auto. exists []. rewrite app_nil_r. reflexivity.
Qed.

Lemma grows_trans a b c : grows a b -> grows b c -> grows a c.
Proof.
  intros (N1 & (e1 & E1) & A1) (N2 & (e2 & E2) & A2).
  repeat split; auto; try congruence.
  exists (e1 ++ e2). rewrite E2, E1, app_assoc. reflexivity.
Qed.

Lemma grows_aligned a b : grows a b -> aligned b.
Proof. intros (_ & _ & H). exact H. Qed.

Lemma grows_setitem df c v :
  aligned df -> slen v = nrows df -> grows df (setitem df c v).
Proof.
  intros A L. repeat split.
  - apply nrows_setitem.
  - rewrite names_setitem. destruct (has_col df c).
    + exists []. rewrite app_nil_r. reflexivity.
    + eexists. reflexivity.
  - apply aligned_setitem; auto.
Qed.

Lemma grows_concat df cols :
  aligned df -> Forall (fun ns => slen (snd ns) = nrows df) cols ->
  grows df (concat_columns df cols).
Proof.
  intros A L. repeat split.
  - exists (map fst cols). unfold names, concat_columns. simpl.
    apply map_app.
  - unfold aligned, concat_columns. simpl. apply Forall_app. split; auto.
Qed.

Lemma getitem_slen df c s :
  aligned df -> getitem df c = Ok s -> slen s = nrows df.
Proof. intros A H. apply getitem_Ok in H. eapply aligned_lookup; eauto. Qed.

Lemma for_each_grows step cols :
  (forall col df df', aligned df -> step col df = Ok df' -> grows df df') ->
  forall df df', aligned df -> for_each step cols df = Ok df' -> grows df df'.
Proof.
  intros Hstep. induction cols as [|col cols IH]; intros df df' A H; simpl in H.
  - injection H as <-. apply grows_refl, A.
  - inv_bind H. pose proof (Hstep _ _ _ A E) as G.
    eapply grows_trans; [exact G|]. apply IH; [eapply grows_aligned; eauto|exact H].
Qed.

(** *** Stage 1 *)

Ltac len_solve :=
  repeat match goal with
  | A : aligned ?d, H : getitem ?d _ = Ok ?s |- _ =>
      let L := fresh "L" in
      pose proof (getitem_slen _ A H) as L; clear H
  | H : series_arith _ _ ?a ?b = Ok ?s |- _ =>
      let L := fresh "L" in
      assert (L : slen s = slen a)
        by (apply (series_arith_slen _ _ _ _ H); congruence); clear H
  | H : series_add ?a ?b = Ok ?s |- _ => unfold series_add in H
  | H : series_sub ?a ?b = Ok ?s |- _ => unfold series_sub in H
  | H : series_mul ?a ?b = Ok ?s |- _ => unfold series_mul in H
  | H : series_truediv ?a ?b = Ok ?s |- _ =>
      let L := fresh "L" in
      assert (L : slen s = slen a)
        by (apply (series_truediv_slen _ _ H); congruence); clear H
  | H : series_truediv_scalar ?a _ = Ok ?s |- _ =>
      let L := fresh "L" in
      pose proof (series_truediv_scalar_slen _ _ H) as L; clear H
  | H : series_mul_scalar ?a _ = Ok ?s |- _ =>
      let L := fresh "L" in
      pose proof (series_mul_scalar_slen _ _ H) as L; clear H
  | H : series_square ?a = Ok ?s |- _ =>
      let L := fresh "L" in
      pose proof (series_square_slen _ H) as L; clear H
  | H : series_round _ ?a = Ok ?s |- _ =>
      let L := fresh "L" in
      pose proof (series_round_slen _ _ H) as L; clear H
  end; congruence.

Ltac block_grows A :=
  match goal with
  | H : (if ?b then _ else _) = Ok _ |- _ =>
      destruct b;
      [repeat inv_bind H; injection H as <-;
       apply grows_setitem; [exact A | len_solve]
      |injection H as <-; apply grows_refl, A]
  end.

Lemma derive_computed_columns_grows df df' :
  aligned df -> derive_computed_columns df = Ok df' -> grows df df'.
Proof.
  intros A0 Hrun.
  destruct (derive_computed_columns_steps _ Hrun)
    as (d1 & d2 & d3 & d4 & d5 & d6 & R1 & R2 & R3 & R4 & R5 & R6 & R7).
  assert (G1 : grows df d1)
    by (unfold derive_total_cost in R1; block_grows A0).
  pose proof (grows_aligned G1) as A1.
  assert (G2 : grows d1 d2)
    by (unfold derive_discount_amount in R2; block_grows A1).
  pose proof (grows_aligned G2) as A2.
  assert (G3 : grows d2 d3)
    by (unfold derive_final_price in R3; block_grows A2).
  pose proof (grows_aligned G3) as A3.
  assert (G4 : grows d3 d4)
    by (unfold derive_price_per_rating in R4; block_grows A3).
  pose proof (grows_aligned G4) as A4.
  assert (G5 : grows d4 d5)
    by (unfold derive_income_purchase_ratio in R5; block_grows A4).
  pose proof (grows_aligned G5) as A5.
  assert (G6 : grows d5 d6)
    by (unfold derive_age_squared in R6; block_grows A5).
  pose proof (grows_aligned G6) as A6.
  assert (G7 : grows d6 df')
    by (unfold derive_spending_power_index in R7; block_grows A6).
  repeat (eapply grows_trans; [eassumption|]). apply grows_refl.
  eapply grows_aligned; eauto.
Qed.

(** *** Stage 3 *)

Lemma nums_length s l : nums s = Some l -> length l = slen s.
Proof. apply slen_nums. Qed.

Lemma as_floats_length s l : as_floats s = Some l -> length l = slen s.
Proof. destruct s; simpl; intros [= <-]; rewrite ?length_map; auto. Qed.

Lemma bins_to_cuts_length x bins labels lowest drop c :
  bins_to_cuts x bins labels lowest drop = Ok c -> length c = length x.
Proof.
  unfold bins_to_cuts. intros H. inv_bind H.
  destruct (negb _) in H; [discriminate|].
  destruct (negb _) in H; [discriminate|].
  injection H as <-. apply length_map.
Qed.

Lemma cut_slen s bins labels lowest v :
  cut s bins labels lowest = Ok v -> slen v = slen s.
Proof.
  unfold cut. destruct (nums s) as [x|] eqn:N; [|discriminate].
  intros H. inv_bind H. injection H as <-. simpl.
  rewrite (bins_to_cuts_length _ _ _ _ _ E). apply nums_length, N.
Qed.

Lemma qcut4_slen s labels v : qcut4 s labels = Ok v -> slen v = slen s.
Proof.
  unfold qcut4. destruct (nums s) as [x|] eqn:N; [|discriminate].
  intros H. inv_bind H. injection H as <-. simpl.
  rewrite (bins_to_cuts_length _ _ _ _ _ E). apply nums_length, N.
Qed.

Lemma cut_equal_width_slen s n v :
  cut_equal_width s n = Ok v -> slen v = slen s.
Proof.
  unfold cut_equal_width. destruct (as_floats s) as [x|] eqn:N; [|discriminate].
  destruct (length x =? 0)%nat; [discriminate|].
  intros H. inv_bind H.
  destruct (negb _) in H; [discriminate|].
  destruct (_ <? _)%nat in H; [discriminate|].
  injection H as <-. simpl. rewrite length_map. apply as_floats_length, N.
Qed.

Lemma bin_column_grows src dst f df df' :
  (forall s v, f s = Ok v -> slen v = slen s) ->
  aligned df -> bin_column src dst f df = Ok df' -> grows df df'.
Proof.
  intros Hf A H. unfold bin_column in H.
  destruct (has_col df src).
  - repeat inv_bind H. injection H as <-.
    apply grows_setitem; auto.
    rewrite (Hf _ _ E0). eapply getitem_slen; eauto.
  - injection H as <-. apply grows_refl, A.
Qed.

Lemma bin_numeric_ranges_grows df df' :
  aligned df -> bin_numeric_ranges df = Ok df' -> grows df df'.
Proof.
  unfold bin_numeric_ranges. intros A H. repeat inv_bind H. injection H as <-.
  repeat match goal with
  | E : bin_column _ _ _ ?d = Ok ?d', A : aligned ?d |- _ =>
      let G := fresh "G" in
      assert (G : grows d d')
        by (eapply bin_column_grows; [|exact A|exact E];
            intros s v Hv;
            first [apply (cut_slen _ _ _ _ Hv)
                  |apply (qcut4_slen _ _ Hv)
                  |apply (cut_equal_width_slen _ _ Hv)]);
      clear E; pose proof (grows_aligned G)
  end.
  repeat (eapply grows_trans; [eassumption|]). apply grows_refl. assumption.
Qed.

(** *** Stage 2 *)

Lemma all_some_length {A : Type} (l : list (option A)) (r : list A) :
  all_some l = Some r -> length r = length l.
Proof.
  revert r. induction l as [|[a|] l IH]; simpl; intros r H.
  - injection H as <-. reflexivity.
  - destruct (all_some l) as [r'|]; [|discriminate].
    injection H as <-. simpl. f_equal. apply IH. reflexivity.
  - discriminate.
Qed.

Lemma int_or_nan_series_slen l : slen (int_or_nan_series l) = length l.
Proof.
  unfold int_or_nan_series. destruct (all_some l) eqn:E; simpl.
  - apply all_some_length, E.
  - apply length_map.
Qed.

Lemma cells_length s : length (cells s) = slen s.
Proof. destruct s; simpl; apply length_map. Qed.

Lemma map_rank_slen order s : slen (map_rank order s) = slen s.
Proof.
  unfold map_rank. rewrite int_or_nan_series_slen, length_map.
  apply cells_length.
Qed.

Lemma dummies_of_slen (K : Type) eqb leb (render : K -> string) prefix l :
  Forall (fun ns => slen (snd ns) = length l)
         (dummies_of eqb leb render prefix l).
Proof.
  unfold dummies_of. rewrite Forall_map. apply Forall_forall.
  intros k _. simpl. unfold indicator. apply length_map.
Qed.

Lemma get_dummies_slen s prefix d :
  get_dummies s prefix = Ok d ->
  Forall (fun ns => slen (snd ns) = slen s) d.
Proof.
  destruct s; simpl; try discriminate; intros [= <-].
  - eapply Forall_impl; [|apply dummies_of_slen].
    intros ns H. simpl in *. rewrite length_map in H. exact H.
  - apply dummies_of_slen.
Qed.

Lemma frequencies_slen s v : frequencies s = Ok v -> slen v = slen s.
Proof.
  destruct s; simpl; try discriminate; intros [= <-]; simpl;
    rewrite !length_map; reflexivity.
Qed.

Lemma encode_ordinal_grows col df df' :
  aligned df -> encode_ordinal col df = Ok df' -> grows df df'.
Proof.
  intros A H. unfold encode_ordinal in H.
  destruct (has_col df col); [|injection H as <-; apply grows_refl, A].
  destruct (String.eqb col "education");
    [|injection H as <-; apply grows_refl, A].
  inv_bind H. injection H as <-. apply grows_setitem; auto.
  rewrite map_rank_slen. eapply getitem_slen; eauto.
Qed.

Lemma encode_nominal_grows col df df' :
  aligned df -> encode_nominal col df = Ok df' -> grows df df'.
Proof.
  intros A H. unfold encode_nominal in H.
  destruct (has_col df col); [|injection H as <-; apply grows_refl, A].
  repeat inv_bind H. injection H as <-. apply grows_concat; auto.
  replace (nrows df) with (slen a) by (eapply getitem_slen; eauto).
  eapply get_dummies_slen. exact E0.
Qed.

Lemma encode_frequency_grows col df df' :
  aligned df -> encode_frequency col df = Ok df' -> grows df df'.
Proof.
  intros A H. unfold encode_frequency in H.
  destruct (negb _); [|injection H as <-; apply grows_refl, A].
  destruct (has_col df col); [|injection H as <-; apply grows_refl, A].
  destruct (_ <? _)%nat; [discriminate|].
  repeat inv_bind H. injection H as <-. apply grows_setitem; auto.
  erewrite series_round_slen by eassumption.
  erewrite frequencies_slen by eassumption.
  eapply getitem_slen; eauto.
Qed.

Lemma encode_categorical_features_grows to_datetime_text df df' :
  aligned df ->
  encode_categorical_features to_datetime_text df = Ok df' -> grows df df'.
Proof.
  unfold encode_categorical_features. intros A H. repeat inv_bind H.
  injection H as <-.
  assert (G1 : grows df a)
    by (eapply for_each_grows; [apply encode_ordinal_grows|exact A|exact E]).
  assert (G2 : grows a a0)
    by (eapply for_each_grows;
        [apply encode_nominal_grows|eapply grows_aligned; eauto|exact E0]).
  assert (G3 : grows a0 a1)
    by (eapply for_each_grows;
        [apply encode_frequency_grows|eapply grows_aligned; eauto|exact E1]).
  eapply grows_trans; [exact G1|]. eapply grows_trans; eauto.
Qed.

(** *** Stage 4 *)

Section TimeStage.

Variable to_datetime_text : list (option string) -> option (list (option Z)).
Variable now : Z.

(** Parsing a column gives one timestamp per row. *)
Hypothesis to_datetime_text_length :
  forall l r, to_datetime_text l = Some r -> length r = length l.

Lemma to_datetime_length s l :
  to_datetime to_datetime_text s = Ok l -> length l = slen s.
Proof.
  destruct s; simpl; try discriminate.
  - intros [= <-]. apply length_map.
  - destruct (to_datetime_text l0) eqn:E; [|discriminate].
    intros [= <-]. apply to_datetime_text_length, E.
  - intros [= <-]. reflexivity.
Qed.

Lemma find_datetime_cols_grows cols :
  forall df r, aligned df ->
  find_datetime_cols to_datetime_text cols df = Ok r -> grows df (fst r).
Proof.
  induction cols as [|col cols IH]; intros df r A H; simpl in H.
  - injection H as <-. apply grows_refl, A.
  - destruct (_ || _); [|apply IH; auto].
    inv_bind H.
    destruct (to_datetime to_datetime_text a) as [l|e] eqn:T.
    + inv_bind H. injection H as <-. simpl.
      assert (G : grows df (setitem df col (SDate l))).
      { apply grows_setitem; auto. simpl.
        erewrite to_datetime_length by eassumption.
        eapply getitem_slen; eauto. }
      eapply grows_trans; [exact G|].
      apply IH; [eapply grows_aligned; eauto|exact E0].
    + destruct e; try discriminate; apply IH; auto.
Qed.

Lemma dt_length df col l :
  aligned df -> dt df col = Ok l -> length l = nrows df.
Proof.
  unfold dt. intros A H. inv_bind H. destruct a; try discriminate.
  injection H as <-.
  match goal with
  | |- length ?x = _ => change (length x) with (slen (SDate x))
  end.
  eapply getitem_slen; eauto.
Qed.

Lemma set_from_dt_grows col suffix f df df' :
  (forall l, slen (f l) = length l) ->
  aligned df -> set_from_dt col suffix f df = Ok df' -> grows df df'.
Proof.
  intros Hf A H. unfold set_from_dt in H. inv_bind H. injection H as <-.
  apply grows_setitem; auto. rewrite Hf. eapply dt_length; eauto.
Qed.

Lemma dt_field_slen f l : slen (dt_field f l) = length l.
Proof. unfold dt_field. rewrite int_or_nan_series_slen. apply length_map. Qed.

Lemma dt_flag_slen f l : slen (dt_flag f l) = length l.
Proof. unfold dt_flag. simpl. apply length_map. Qed.

Lemma extract_time_features_grows col df df' :
  aligned df -> extract_time_features now col df = Ok df' -> grows df df'.
Proof.
  unfold extract_time_features. intros A H.
  repeat match goal with
  | H : bind (set_from_dt _ _ _ ?d) _ = Ok _, A : aligned ?d |- _ =>
      let E := fresh "E" in
      let G := fresh "G" in
      let d' := fresh "d" in
      destruct (set_from_dt _ _ _ d) as [d'|] eqn:E in H; cbn [bind] in H;
        [|discriminate H];
      assert (G : grows d d')
        by (eapply set_from_dt_grows; [|exact A|exact E];
            intros l;
            first [apply dt_field_slen | apply dt_flag_slen
                  | simpl; apply length_map]);
      clear E; pose proof (grows_aligned G)
  end.
  repeat inv_bind H. injection H as <-.
  match goal with
  | E : getitem ?d _ = Ok ?s, E' : _ = Ok ?fl
    |- grows _ (setitem ?d ?n ?fl) =>
      assert (G' : grows d (setitem d n fl));
      [apply grows_setitem; [assumption|];
       assert (L : slen s = nrows d) by (eapply getitem_slen; eauto);
       destruct s; try discriminate; injection E' as <-;
       simpl in *; rewrite length_map; exact L|]
  end.
  repeat (eapply grows_trans; [eassumption|]).
  apply grows_refl. eapply grows_aligned. exact G'.
Qed.

Lemma time_based_feature_extraction_grows df df' :
  aligned df ->
  time_based_feature_extraction to_datetime_text now df = Ok df' ->
  grows df df'.
Proof.
  unfold time_based_feature_extraction. intros A H. inv_bind H.
  assert (G : grows df (fst a))
    by (eapply find_datetime_cols_grows; eauto).
  eapply grows_trans; [exact G|].
  eapply for_each_grows; [apply extract_time_features_grows| |exact H].
  eapply grows_aligned; eauto.
Qed.

End TimeStage.

(** *** Stage 5 *)

Lemma assign_where_length present values :
  length (assign_where present values) = length present.
Proof.
  revert values. induction present as [|[|] p IH]; intros values; simpl; auto.
  destruct values; simpl; rewrite IH; reflexivity.
Qed.

Lemma flag_anomalies_zscore_length column :
  length (flag_anomalies_zscore column) = length column.
Proof.
  unfold flag_anomalies_zscore. rewrite assign_where_length. apply length_map.
Qed.

Lemma flag_anomalies_iqr_length column :
  length (flag_anomalies_iqr column) = length column.
Proof. unfold flag_anomalies_iqr. apply length_map. Qed.

Lemma either_flag_slen a b c :
  either_flag a b = Ok c -> slen a = slen b -> slen c = slen a.
Proof.
  destruct a, b; simpl; try discriminate. intros [= <-] H. simpl.
  apply map2_length, H.
Qed.

Lemma flag_column_grows col df df' :
  aligned df -> flag_column col df = Ok df' -> grows df df'.
Proof.
  intros A H. unfold flag_column in H.
  destruct (has_col df col); [|injection H as <-; apply grows_refl, A].
  inv_bind H. inv_bind H.
  assert (La : slen a = nrows df) by (eapply getitem_slen; eauto).
  assert (G1 : grows df (setitem df (String.append col "_anomaly_zscore")
                           (SInt (flag_anomalies_zscore a0)))).
  { apply grows_setitem; auto. simpl. rewrite flag_anomalies_zscore_length.
    destruct (as_floats a) eqn:F; [|discriminate]. injection E0 as <-.
    rewrite (as_floats_length _ F). exact La. }
  pose proof (grows_aligned G1) as A1.
  inv_bind H. inv_bind H.
  assert (La1 : slen a1 = nrows df).
  { erewrite getitem_slen by eassumption. apply nrows_setitem. }
  match type of H with
  | context [setitem ?d (String.append col "_anomaly_iqr") ?v] =>
      assert (G2 : grows d (setitem d (String.append col "_anomaly_iqr") v))
  end.
  { apply grows_setitem; auto. simpl. rewrite flag_anomalies_iqr_length.
    destruct (nums a1) eqn:F; [|discriminate]. injection E2 as <-.
    rewrite (nums_length _ F), nrows_setitem. exact La1. }
  pose proof (grows_aligned G2) as A2.
  repeat inv_bind H. injection H as <-.
  eapply grows_trans; [exact G1|]. eapply grows_trans; [exact G2|].
  apply grows_setitem; auto.
  erewrite either_flag_slen; [| eassumption |].
  - eapply getitem_slen; eauto.
  - transitivity (nrows (setitem (setitem df (String.append col "_anomaly_zscore")
                                    (SInt (flag_anomalies_zscore a0)))
                           (String.append col "_anomaly_iqr")
                           (SInt (flag_anomalies_iqr a2)))).
    + eapply getitem_slen; eauto.
    + symmetry. eapply getitem_slen; eauto.
Qed.

Lemma add_to_row_sums_slen acc s r :
  add_to_row_sums acc s = Ok r -> slen s = slen acc -> slen r = slen acc.
Proof.
  unfold add_to_row_sums. intros H L.
  destruct acc, s; simpl in *; try discriminate; injection H as <-; simpl;
    rewrite map2_length; rewrite ?length_map; auto.
Qed.

Lemma sum_rows_slen cols :
  forall acc r,
    sum_rows acc cols = Ok r ->
    Forall (fun s => slen s = slen acc) cols ->
    slen r = slen acc.
Proof.
  induction cols as [|s cols IH]; intros acc r H F; simpl in H.
  - injection H as <-. reflexivity.
  - inv_bind H. inversion F as [|? ? Hs Hcols]; subst.
    pose proof (add_to_row_sums_slen _ _ E Hs) as L.
    rewrite <- L. apply IH; auto.
    eapply Forall_impl; [|exact Hcols]. intros x Hx. simpl in Hx. congruence.
Qed.

Lemma mapM_getitem_slen df cols ss :
  aligned df -> mapM (getitem df) cols = Ok ss ->
  Forall (fun s => slen s = nrows df) ss.
Proof.
  intros A. revert ss. induction cols as [|c cols IH]; intros ss H; simpl in H.
  - injection H as <-. constructor.
  - repeat inv_bind H. injection H as <-. constructor.
    + eapply getitem_slen; eauto.
    + apply IH. reflexivity.
Qed.

Lemma sum_axis1_slen df cols r :
  aligned df -> sum_axis1 df cols = Ok r -> slen r = nrows df.
Proof.
  intros A H. unfold sum_axis1 in H. inv_bind H.
  pose proof (mapM_getitem_slen _ A E) as F.
  match type of H with
  | sum_rows ?z _ = _ => assert (Z : slen z = nrows df)
  end.
  { destruct a; [|destruct (forallb _ _)]; simpl; apply repeat_length. }
  erewrite sum_rows_slen; [exact Z|exact H|].
  eapply Forall_impl; [|exact F]. intros s Hs. simpl in Hs. congruence.
Qed.

Lemma positive_flag_slen s r : positive_flag s = Ok r -> slen r = slen s.
Proof.
  destruct s; simpl; try discriminate; intros [= <-]; simpl;
    apply length_map.
Qed.

Lemma flag_anomalies_column_grows df df' :
  aligned df -> flag_anomalies_column df = Ok df' -> grows df df'.
Proof.
  unfold flag_anomalies_column. intros A H. inv_bind H.
  assert (G1 : grows df a)
    by (eapply for_each_grows; [apply flag_column_grows|exact A|exact E]).
  pose proof (grows_aligned G1) as A1.
  inv_bind H.
  assert (G2 : grows a (setitem a "anomaly_score" a0)).
  { apply grows_setitem; auto. eapply sum_axis1_slen; eauto. }
  pose proof (grows_aligned G2) as A2.
  repeat inv_bind H. injection H as <-.
  eapply grows_trans; [exact G1|]. eapply grows_trans; [exact G2|].
  apply grows_setitem; auto.
  erewrite positive_flag_slen by eassumption.
  eapply getitem_slen; eauto.
Qed.

(** ** Stage 2: ordinal encoding *)

Lemma lookup_concat c df cols :
  lookup c (columns (concat_columns df cols)) =
  match lookup c (columns df) with
  | Some s => Some s
  | None => lookup c cols
  end.
Proof. unfold concat_columns. simpl. apply lookup_app. Qed.

Lemma keeps_refl c df : keeps c df df.
Proof. intros s H. exact H. Qed.

Lemma keeps_trans c a b d : keeps c a b -> keeps c b d -> keeps c a d.
Proof. intros H1 H2 s H. auto. Qed.

Lemma keeps_setitem c c' df v : c <> c' -> keeps c df (setitem df c' v).
Proof.
  intros Hne s H. rewrite lookup_setitem.
  destruct (String.eqb_spec c c'); congruence.
Qed.

Lemma keeps_concat c df cols : keeps c df (concat_columns df cols).
Proof. intros s H. rewrite lookup_concat, H. reflexivity. Qed.

Lemma for_each_keeps c step cols :
  (forall col df df', step col df = Ok df' -> keeps c df df') ->
  forall df df', for_each step cols df = Ok df' -> keeps c df df'.
Proof.
  intros Hstep. induction cols as [|col cols IH]; intros df df' H; simpl in H.
  - injection H as <-. apply keeps_refl.
  - inv_bind H. eapply keeps_trans; [eapply Hstep; eauto|apply IH; auto].
Qed.

Lemma encode_nominal_keeps c col df df' :
  encode_nominal col df = Ok df' -> keeps c df df'.
Proof.
  unfold encode_nominal. intros H.
  destruct (has_col df col); [|injection H as <-; apply keeps_refl].
  repeat inv_bind H. injection H as <-. apply keeps_concat.
Qed.

Lemma encode_frequency_keeps c col df df' :
  endswith c "_freq" = false ->
  encode_frequency col df = Ok df' -> keeps c df df'.
Proof.
  unfold encode_frequency. intros Hc H.
  destruct (negb _); [|injection H as <-; apply keeps_refl].
  destruct (has_col df col); [|injection H as <-; apply keeps_refl].
  destruct (_ <? _)%nat; [discriminate|].
  repeat inv_bind H. injection H as <-. apply keeps_setitem.
  intros ->. rewrite endswith_append in Hc. discriminate.
Qed.

Lemma encode_ordinal_keeps c col df df' :
  endswith c "_encoded" = false ->
  encode_ordinal col df = Ok df' -> keeps c df df'.
Proof.
  unfold encode_ordinal. intros Hc H.
  destruct (has_col df col); [|injection H as <-; apply keeps_refl].
  destruct (String.eqb col "education");
    [|injection H as <-; apply keeps_refl].
  inv_bind H. injection H as <-. apply keeps_setitem.
  intros ->. rewrite endswith_append in Hc. discriminate.
Qed.

Lemma nth_error_all_some {A : Type} (l : list (option A)) (r : list A) i :
  all_some l = Some r ->
  nth_error l i = option_map Some (nth_error r i).
Proof.
  revert r i. induction l as [|[a|] l IH]; simpl; intros r i H.
  - injection H as <-. destruct i; reflexivity.
  - destruct (all_some l) as [r'|]; [|discriminate]. injection H as <-.
    destruct i; simpl; auto.
  - discriminate.
Qed.

(** The cell that [int_or_nan_series] stores for an optional integer. *)
Lemma int_or_nan_series_cell l i o :
  nth_error l i = Some o ->
  exists c, cell_at (int_or_nan_series l) i = Some c /\
            match o with
            | Some z => B64.is_nan (B64.of_Z z) = false -> holds_int z c
            | None => c = None
            end.
Proof.
  intros H. unfold cell_at, int_or_nan_series.
  destruct (all_some l) as [zs|] eqn:E; simpl.
  - rewrite (@nth_error_all_some _ l zs i E) in H. rewrite nth_error_map.
    destruct (nth_error zs i) as [z|]; [|discriminate].
    injection H as <-. eexists. split; [reflexivity|]. intros _. now left.
  - rewrite !nth_error_map, H. simpl. destruct o as [z|].
    + eexists. split; [reflexivity|]. intros ->. now right.
    + eexists. split; reflexivity.
Qed.

Lemma cell_at_map_rank order s i c :
  cell_at s i = Some c ->
  exists c', cell_at (map_rank order s) i = Some c' /\
             match text_key c with
             | Some k =>
                 match rank_in order k with
                 | Some z => B64.is_nan (B64.of_Z z) = false -> holds_int z c'
                 | None => c' = None
                 end
             | None => c' = None
             end.
Proof.
  intros H. unfold map_rank.
  destruct (int_or_nan_series_cell
              (map (fun c => match text_key c with
                             | Some k => rank_in order k
                             | None => None
                             end) (cells s)) i
              (o := match text_key c with
                    | Some k => rank_in order k
                    | None => None
                    end)) as (c' & Hc' & P).
  { rewrite nth_error_map. unfold cell_at in H. rewrite H. reflexivity. }
  exists c'. split; [exact Hc'|].
  destruct (text_key c) as [k|]; [destruct (rank_in order k)|]; exact P.
Qed.

Lemma rank_in_education k :
  ~ In k education_order -> rank_in education_order k = None.
Proof.
  unfold rank_in, education_order. simpl. intros H.
  repeat match goal with
  | |- context [String.eqb k ?x] =>
      destruct (String.eqb_spec k x); [exfalso; apply H; subst; auto 10|]
  end.
  reflexivity.
Qed.

(** C8.  With an education column, the encoder adds education_encoded, in
    which High School is 0, Bachelor 1, Master 2 and PhD 3, and every other
    value, a missing one included, is missing. *)
Theorem education_encoded_ranks
    (to_datetime_text : list (option string) -> option (list (option Z)))
    (df df' : DataFrame) (s : Series) :
  lookup "education" (columns df) = Some s ->
  encode_categorical_features to_datetime_text df = Ok df' ->
  exists e,
    lookup "education_encoded" (columns df') = Some e /\
    lookup "education" (columns df') = Some s /\
    forall i c,
      cell_at s i = Some c ->
      exists c',
        cell_at e i = Some c' /\
        (text_key c = Some "High School" -> holds_int 0 c') /\
        (text_key c = Some "Bachelor" -> holds_int 1 c') /\
        (text_key c = Some "Master" -> holds_int 2 c') /\
        (text_key c = Some "PhD" -> holds_int 3 c') /\
        ((forall k, text_key c = Some k -> ~ In k education_order) ->
         c' = None).
Proof.
  intros Hs H. unfold encode_categorical_features in H.
  repeat inv_bind H. injection H as <-.
  assert (K : forall c, endswith c "_freq" = false -> keeps c a a1).
  { intros c Hc. eapply keeps_trans.
    - eapply for_each_keeps; [|exact E0]. intros. eapply encode_nominal_keeps; eauto.
    - eapply for_each_keeps; [|exact E1]. intros.
      eapply encode_frequency_keeps; eauto. }
  simpl in E. unfold encode_ordinal in E.
  rewrite (lookup_has_col _ _ Hs) in E. simpl in E.
  unfold getitem in E. rewrite Hs in E. simpl in E. injection E as <-.
  exists (map_rank education_order s).
  split; [apply K; [reflexivity|]; rewrite lookup_setitem; reflexivity|].
  split; [apply K; [reflexivity|]; rewrite lookup_setitem; exact Hs|].
  intros i c Hc.
  destruct (cell_at_map_rank education_order _ _ Hc) as (c' & Hc' & P).
  exists c'. split; [exact Hc'|].
  repeat split.
  - intros T. rewrite T in P. apply P. reflexivity.
  - intros T. rewrite T in P. apply P. reflexivity.
  - intros T. rewrite T in P. apply P. reflexivity.
  - intros T. rewrite T in P. apply P. reflexivity.
  - intros T. destruct (text_key c) as [k|]; [|exact P].
    rewrite rank_in_education in P; auto.
Qed.

(** ** Stage 2: one-hot encoding *)

Section LevelsFacts.

Variable K : Type.
Variable eqb leb : K -> K -> bool.
Hypothesis eqb_spec : forall a b, reflect (a = b) (eqb a b).

Lemma In_somes (l : list (option K)) (v : K) : In v (somes l) <-> In (Some v) l.
Proof.
  unfold somes. rewrite in_flat_map. split.
  - intros ([a|] & I & H); simpl in H; [|tauto].
    destruct H as [->|[]]. exact I.
  - intros I. exists (Some v). split; [exact I|now left].
Qed.

Lemma In_unique_keys (l : list K) (x : K) :
  In x (unique_keys eqb l) <-> In x l.
Proof.
  induction l as [|a l IH]; simpl; [tauto|].
  rewrite filter_In, IH. split.
  - intros [->|[I _]]; auto.
  - intros [->|I]; auto.
    destruct (eqb_spec a x) as [->|N]; auto.
Qed.

Lemma NoDup_unique_keys (l : list K) : NoDup (unique_keys eqb l).
Proof.
  induction l as [|a l IH]; simpl; constructor.
  - rewrite filter_In. intros [_ H].
    destruct (eqb_spec a a); [discriminate|congruence].
  - apply NoDup_filter, IH.
Qed.

Lemma In_insert_key (a x : K) (l : list K) :
  In x (insert_key leb a l) <-> x = a \/ In x l.
Proof.
  induction l as [|b l IH]; simpl.
  - intuition.
  - destruct (leb a b); simpl; rewrite ?IH; intuition.
Qed.

Lemma NoDup_insert_key (a : K) (l : list K) :
  ~ In a l -> NoDup l -> NoDup (insert_key leb a l).
Proof.
  induction l as [|b l IH]; simpl; intros N D.
  - constructor; [tauto|constructor].
  - destruct (leb a b).
    + constructor; [simpl; tauto|exact D].
    + inversion D as [|? ? Nb Dl]; subst. constructor.
      * rewrite In_insert_key. intros [->|I]; tauto.
      * apply IH; tauto.
Qed.

Lemma In_sort_keys (l : list K) (x : K) : In x (sort_keys leb l) <-> In x l.
Proof.
  induction l as [|a l IH]; simpl; [tauto|].
  rewrite In_insert_key, IH. intuition.
Qed.

Lemma NoDup_sort_keys (l : list K) : NoDup l -> NoDup (sort_keys leb l).
Proof.
  induction l as [|a l IH]; simpl; intros D; [constructor|].
  inversion D as [|? ? N Dl]; subst.
  apply NoDup_insert_key; [rewrite In_sort_keys; exact N|auto].
Qed.

Lemma In_levels (l : list (option K)) (v : K) :
  In v (levels eqb leb l) <-> In (Some v) l.
Proof.
  unfold levels. rewrite In_sort_keys, In_unique_keys. apply In_somes.
Qed.

Lemma NoDup_levels (l : list (option K)) : NoDup (levels eqb leb l).
Proof. unfold levels. apply NoDup_sort_keys, NoDup_unique_keys. Qed.

Lemma indicator_nth (level : K) (l : list (option K)) (i : nat) :
  nth_error (indicator eqb level l) i =
  option_map (fun o => match o with
                       | Some v => if eqb v level then 1 else 0
                       | None => 0
                       end) (nth_error l i).
Proof. unfold indicator. apply nth_error_map. Qed.

Lemma indicator_binary (level : K) (l : list (option K)) (i : nat) (x : Z) :
  nth_error (indicator eqb level l) i = Some x -> x = 0 \/ x = 1.
Proof.
  rewrite indicator_nth. destruct (nth_error l i) as [[v|]|]; simpl;
    try discriminate; intros [= <-]; [destruct (eqb v level)|]; auto.
Qed.

(** In a row that holds [v], the indicator of [u] is 1 exactly for
    [u = v]. *)
Lemma indicator_one (l : list (option K)) (i : nat) (u v : K) :
  nth_error l i = Some (Some v) ->
  (nth_error (indicator eqb u l) i = Some 1 <-> u = v).
Proof.
  intros H. rewrite indicator_nth, H. simpl.
  destruct (eqb_spec v u) as [->|N]; split; auto; try discriminate.
  intros ->. congruence.
Qed.

(** In a row with a missing value every indicator is 0. *)
Lemma indicator_missing (l : list (option K)) (i : nat) (u : K) :
  nth_error l i = Some None ->
  nth_error (indicator eqb u l) i = Some 0.
Proof. intros H. rewrite indicator_nth, H. reflexivity. Qed.

End LevelsFacts.

Lemma In_setitem_other df c v n s :
  In (n, s) (columns df) -> n <> c -> In (n, s) (columns (setitem df c v)).
Proof.
  intros I N. unfold setitem. destruct (has_col df c); simpl.
  - apply in_map_iff. exists (n, s). split; [|exact I]. simpl.
    destruct (String.eqb_spec c n); congruence.
  - apply in_or_app. now left.
Qed.

Lemma append_eq_cases (P c s v : string) :
  String.append c s = String.append P v ->
  String.prefix P c = true \/ exists r, P = String.append c r /\ s = String.append r v.
Proof.
  revert c. induction P as [|a P IH]; intros c H.
  - left. destruct c; reflexivity.
  - destruct c as [|b c].
    + right. exists (String a P). simpl in *. auto.
    + simpl in H. injection H as -> H. destruct (IH _ H) as [L|(r & -> & ->)].
      * left. simpl. destruct (Ascii.ascii_dec a a); [exact L|congruence].
      * right. exists r. auto.
Qed.

Lemma prefix_refl (P : string) : String.prefix P P = true.
Proof.
  induction P as [|a P IH]; simpl; auto.
  destruct (Ascii.ascii_dec a a); congruence.
Qed.

Lemma prefixes_of_freq (r v : string) :
  String.append r v = "_freq" ->
  r = "" \/ r = "_" \/ r = "_f" \/ r = "_fr" \/ r = "_fre" \/ r = "_freq".
Proof.
  intros H.
  repeat (destruct r as [|? r]; [tauto|simpl in H; injection H as -> H]).
  destruct r; [tauto|discriminate].
Qed.

(** The name of a frequency column is not that of an indicator of [col],
    unless it comes from [col] itself or from a column named like an
    indicator. *)
Lemma freq_name_not_indicator (col c v : string) :
  In col nominal_features ->
  startswith c (String.append col "_") = false ->
  c <> col ->
  String.append col (String.append "_" v) <> String.append c "_freq".
Proof.
  intros Hcol Hp Hne E.
  assert (E' : String.append c "_freq" = String.append (String.append col "_") v).
  { rewrite <- E. clear. induction col as [|a col IH]; simpl; [reflexivity|].
    f_equal. exact IH. }
  destruct (append_eq_cases _ _ _ _ E') as [L|(r & HP & Hr)].
  - unfold startswith in Hp. congruence.
  - symmetry in Hr. destruct (prefixes_of_freq _ _ Hr) as [->|R].
    + unfold startswith in Hp. rewrite HP in Hp.
      replace (String.append c "") with c in Hp
        by (clear; induction c as [|a c IH]; simpl; [reflexivity|];
            f_equal; exact IH).
      rewrite prefix_refl in Hp. discriminate.
    + assert (W : endswith (String.append col "_") r = true)
        by (rewrite HP; apply endswith_append).
      unfold nominal_features in Hcol. simpl in Hcol.
      destruct Hcol as [<-|[<-|[]]];
        destruct R as [->|[->|[->|[->| ->]]]];
        try (vm_compute in W; discriminate W);
        apply Hne; eapply append_inj_l; symmetry; exact HP.
Qed.

Lemma for_each_preserves (P : DataFrame -> Prop) step cols :
  (forall c d d', In c cols -> step c d = Ok d' -> P d -> P d') ->
  forall d d', for_each step cols d = Ok d' -> P d -> P d'.
Proof.
  induction cols as [|c cols IH]; intros Hstep d d' H Hd; simpl in H.
  - injection H as <-. exact Hd.
  - inv_bind H. eapply IH; [|exact H|].
    + intros c' x x' I. apply Hstep. now right.
    + eapply Hstep; eauto. now left.
Qed.

Lemma categorical_columns_names to_datetime_text df c :
  In c (categorical_columns to_datetime_text df) -> In c (names df).
Proof.
  unfold categorical_columns. rewrite filter_In. intros [H _].
  apply in_map_iff in H. destruct H as (ns & <- & I).
  apply filter_In in I. destruct I as [I _].
  unfold names. apply in_map. exact I.
Qed.

Lemma encode_frequency_In col v s c d d' :
  In col nominal_features ->
  startswith c (String.append col "_") = false ->
  encode_frequency c d = Ok d' ->
  In (String.append col (String.append "_" v), s) (columns d) ->
  In (String.append col (String.append "_" v), s) (columns d').
Proof.
  intros Hcol Hp H I. unfold encode_frequency in H.
  destruct (mem_string c (ordinal_features ++ nominal_features)) eqn:M;
    simpl in H; [injection H as <-; exact I|].
  destruct (has_col d c); [|injection H as <-; exact I].
  destruct (_ <? _)%nat; [discriminate|].
  repeat inv_bind H. injection H as <-.
  apply In_setitem_other; [exact I|].
  apply freq_name_not_indicator; auto.
  intros ->. assert (M' : mem_string col (ordinal_features ++ nominal_features) = true).
  { apply mem_string_In. apply in_or_app. now right. }
  congruence.
Qed.

Lemma encode_nominal_In col d d' x :
  encode_nominal col d = Ok d' -> In x (columns d) -> In x (columns d').
Proof.
  unfold encode_nominal. intros H I.
  destruct (has_col d col); [|injection H as <-; exact I].
  repeat inv_bind H. injection H as <-. simpl. apply in_or_app. now left.
Qed.

Lemma encode_nominal_dummies col d d' l v :
  lookup col (columns d) = Some (SObj l) ->
  encode_nominal col d = Ok d' ->
  In v (levels String.eqb String.leb l) ->
  In (String.append col (String.append "_" v),
      SInt (indicator String.eqb v l)) (columns d').
Proof.
  intros L H I. unfold encode_nominal, getitem in H.
  rewrite (lookup_has_col _ _ L), L in H. simpl in H. injection H as <-.
  simpl. apply in_or_app. right. unfold dummies_of.
  apply in_map_iff. exists v. split; [reflexivity|exact I].
Qed.

(** C5, as the code has it.  For a text column gender or product_category,
    in a frame with no column named like one of its indicators, the encoder
    adds one indicator column per distinct non-missing value; an indicator
    holds only 0 and 1; in a row with a value exactly the indicator of that
    value is 1, and in a row where the value is missing every indicator
    is 0. *)
Theorem one_hot_indicators
    (to_datetime_text : list (option string) -> option (list (option Z)))
    (df df' : DataFrame) (col : string) (l : list (option string)) :
  In col nominal_features ->
  lookup col (columns df) = Some (SObj l) ->
  (forall n, In n (names df) ->
             startswith n (String.append col "_") = false) ->
  encode_categorical_features to_datetime_text df = Ok df' ->
  let lv := levels String.eqb String.leb l in
  NoDup lv /\
  (forall v, In v lv <-> In (Some v) l) /\
  (forall v, In v lv ->
     In (String.append col (String.append "_" v),
         SInt (indicator String.eqb v l)) (columns df') /\
     ~ In (String.append col (String.append "_" v)) (names df)) /\
  (forall v i x, nth_error (indicator String.eqb v l) i = Some x ->
                 x = 0 \/ x = 1) /\
  (forall i v, nth_error l i = Some (Some v) ->
     In v lv /\
     forall u, In u lv ->
               (nth_error (indicator String.eqb u l) i = Some 1 <-> u = v)) /\
  (forall i, nth_error l i = Some None ->
     forall u, nth_error (indicator String.eqb u l) i = Some 0).
Proof.
  intros Hcol L Hnames H lv.
  split; [apply NoDup_levels, String.eqb_spec|].
  split; [intros v; apply In_levels, String.eqb_spec|].
  split; [|split; [|split]].
  - intros v Iv. split.
    + unfold encode_categorical_features in H. repeat inv_bind H.
      injection H as <-.
      assert (La : lookup col (columns a) = Some (SObj l)).
      { assert (K0 : keeps col df a).
        { eapply for_each_keeps; [|exact E].
          intros c d d' Hd. eapply encode_ordinal_keeps; [|exact Hd].
          unfold nominal_features in Hcol. simpl in Hcol.
          destruct Hcol as [<-|[<-|[]]]; reflexivity. }
        apply K0, L. }
      assert (I0 : In (String.append col (String.append "_" v),
                       SInt (indicator String.eqb v l)) (columns a0)).
      { unfold nominal_features in E0, Hcol. simpl in E0, Hcol.
        repeat inv_bind E0. injection E0 as <-.
        destruct Hcol as [<-|[<-|[]]].
        - eapply encode_nominal_In; [eassumption|].
          eapply encode_nominal_dummies; eauto.
        - match goal with
          | G : encode_nominal "gender" a = Ok ?d |- _ =>
              assert (K1 : keeps "product_category" a d)
                by (eapply encode_nominal_keeps; exact G);
              assert (Ld : lookup "product_category" (columns d)
                           = Some (SObj l)) by (apply K1, La)
          end.
          eapply encode_nominal_dummies; eauto. }
      refine (@for_each_preserves
                (fun d => In (String.append col (String.append "_" v),
                              SInt (indicator String.eqb v l)) (columns d))
                encode_frequency _ _ _ _ E1 I0).
      intros c d d' Ic Hd. eapply encode_frequency_In; eauto.
      apply Hnames. eapply categorical_columns_names; eauto.
    + intros I. apply Hnames in I. unfold startswith in I.
      assert (P : String.prefix (String.append col "_")
                    (String.append col (String.append "_" v)) = true).
      { clear. induction col as [|a col IH]; simpl.
        - destruct (Ascii.ascii_dec "_" "_"); [|congruence].
          destruct v; reflexivity.
        - destruct (Ascii.ascii_dec a a); [exact IH|congruence]. }
      congruence.
  - intros v i x. apply indicator_binary.
  - intros i v Hi. split.
    + apply In_levels; [apply String.eqb_spec|].
      eapply nth_error_In; eauto.
    + intros u _. apply indicator_one; [apply String.eqb_spec|exact Hi].
  - intros i Hi u. apply indicator_missing. exact Hi.
Qed.

(** ** Stage 5: the columns that are checked *)

Lemma filter_map_fst {A B : Type} (f : A -> bool) (l : list (A * B)) :
  filter f (map fst l) = map fst (filter (fun ab => f (fst ab)) l).
Proof.
  induction l as [|[a b] l IH]; simpl; auto.
  destruct (f a); simpl; rewrite IH; reflexivity.
Qed.

Lemma filter_filter {A : Type} (f g : A -> bool) (l : list A) :
  filter f (filter g l) = filter (fun a => g a && f a) l.
Proof.
  induction l as [|a l IH]; simpl; auto.
  destruct (g a); simpl; [destruct (f a)|]; rewrite ?IH; reflexivity.
Qed.

Lemma numeric_candidates_filter df :
  numeric_candidates df = map fst (filter is_candidate (columns df)).
Proof.
  unfold numeric_candidates.
  rewrite !filter_map_fst, !filter_filter. f_equal.
  apply filter_ext. intros [n s]. unfold is_candidate. simpl.
  rewrite !andb_assoc. reflexivity.
Qed.

Lemma length_filter_le {A : Type} (f : A -> bool) (l : list A) :
  (length (filter f l) <= length l)%nat.
Proof.
  induction l as [|a l IH]; simpl; auto. destruct (f a); simpl; lia.
Qed.

Lemma In_firstn {A : Type} (n : nat) (l : list A) (x : A) :
  In x (firstn n l) -> In x l.
Proof.
  intros H. rewrite <- (firstn_skipn n l). apply in_or_app. now left.
Qed.

Lemma cols_to_check_length df : (length (cols_to_check df) <= 10)%nat.
Proof.
  unfold cols_to_check. rewrite length_app.
  pose proof (length_filter_le
                (fun col => mem_string col (numeric_candidates df))
                priority_cols) as H1.
  pose proof (firstn_le_length 6
                (filter (fun col => negb (mem_string col priority_cols))
                        (numeric_candidates df))) as H2.
  assert (H3 : length priority_cols = 4%nat) by reflexivity.
  lia.
Qed.

(** C6, as the code has it.  The flagger checks the priority columns that
    are candidates, in the order income, purchase_amount, final_price, age,
    and then the first six other candidates in table order, at most ten
    columns in all.  A
    candidate is a numeric column whose lower-cased name holds neither
    "customer_id" nor "id", does not end in "_encoded" and does not start
    with "gender_" or "product_category_". *)
Theorem cols_to_check_selection (df : DataFrame) :
  let candidates := map fst (filter is_candidate (columns df)) in
  let chosen_priority :=
    filter (fun p => mem_string p candidates) priority_cols in
  let others :=
    map fst (filter (fun ns => is_candidate ns
                               && negb (mem_string (fst ns) priority_cols))
                    (columns df)) in
  cols_to_check df = chosen_priority ++ firstn 6 others /\
  (forall p, In p chosen_priority <-> In p priority_cols /\ In p candidates) /\
  (length (cols_to_check df) <= 10)%nat /\
  (forall c, In c (cols_to_check df) ->
     exists s, In (c, s) (columns df) /\
               is_numeric s = true /\
               contains (lower c) "id" = false /\
               endswith c "_encoded" = false).
Proof.
  intros candidates chosen_priority others.
  assert (E : cols_to_check df = chosen_priority ++ firstn 6 others).
  { unfold cols_to_check. rewrite numeric_candidates_filter.
    unfold chosen_priority, others, candidates. f_equal. f_equal.
    rewrite filter_map_fst, filter_filter. reflexivity. }
  split; [exact E|].
  split.
  { intros p. unfold chosen_priority. rewrite filter_In, mem_string_In.
    reflexivity. }
  split; [apply cols_to_check_length|].
  intros c I.
  assert (C : In c candidates).
  { rewrite E in I. apply in_app_or in I. destruct I as [I|I].
    - unfold chosen_priority in I. apply filter_In in I.
      apply mem_string_In, I.
    - apply In_firstn in I. unfold others in I.
      apply in_map_iff in I. destruct I as (ns & <- & I).
      apply filter_In in I. destruct I as [I F].
      apply andb_prop in F. unfold candidates.
      apply in_map. apply filter_In. tauto. }
  unfold candidates in C. apply in_map_iff in C.
  destruct C as ([n s] & <- & C). apply filter_In in C.
  destruct C as [C F]. unfold is_candidate in F. cbn [fst snd] in *.
  repeat (apply andb_prop in F; destruct F as [F ?]).
  exists s. split; [exact C|]. split; [exact F|].
  repeat match goal with
  | H : negb _ = true |- _ => apply negb_true_iff in H
  end.
  split; [|assumption].
  match goal with
  | H : existsb _ exclude = false |- _ =>
      unfold exclude in H; simpl in H;
      apply orb_false_iff in H; destruct H as [_ H];
      apply orb_false_iff in H; apply H
  end.
Qed.

(** ** Stage 5: the flags and the score *)

Lemma NoDup_setitem df c v :
  NoDup (names df) -> NoDup (names (setitem df c v)).
Proof.
  intros D. rewrite names_setitem. destruct (has_col df c) eqn:H; auto.
  apply NoDup_app; [exact D|repeat constructor; simpl; tauto|].
  intros x I [<-|[]].
  apply mem_string_In in I. unfold has_col in H. congruence.
Qed.

Lemma NoDup_lookup (cols : list (string * Series)) n s :
  NoDup (map fst cols) -> In (n, s) cols -> lookup n cols = Some s.
Proof.
  induction cols as [|[m t] cols IH]; simpl; intros D I; [tauto|].
  inversion D as [|? ? N D']; subst.
  destruct I as [[= -> ->]|I].
  - rewrite String.eqb_refl. reflexivity.
  - destruct (String.eqb_spec n m) as [->|Hne]; auto.
    exfalso. apply N. apply in_map_iff. exists (m, s). auto.
Qed.

Lemma In_setitem_inv df c v n s :
  In (n, s) (columns (setitem df c v)) ->
  (n = c /\ s = v) \/ In (n, s) (columns df).
Proof.
  unfold setitem. destruct (has_col df c); simpl.
  - intros I. apply in_map_iff in I. destruct I as ([m t] & E & I).
    simpl in E. destruct (String.eqb_spec c m) as [->|Hne].
    + injection E as <- <-. auto.
    + injection E as <- <-. auto.
  - intros I. apply in_app_or in I. destruct I as [I|[[= <- <-]|[]]]; auto.
Qed.

Lemma anomaly_columns_setitem_other df c v :
  endswith c "_is_anomaly" = false ->
  anomaly_columns (setitem df c v) = anomaly_columns df.
Proof.
  intros H. unfold anomaly_columns, setitem. destruct (has_col df c); simpl.
  - induction (columns df) as [|[m t] l IH]; simpl; auto.
    destruct (String.eqb_spec c m) as [<-|Hne]; simpl.
    + rewrite H. exact IH.
    + destruct (endswith m "_is_anomaly"); rewrite IH; reflexivity.
  - rewrite filter_app. simpl. rewrite H. apply app_nil_r.
Qed.

Lemma anomaly_columns_setitem_length df c v :
  (length (anomaly_columns (setitem df c v))
   <= S (length (anomaly_columns df)))%nat.
Proof.
  unfold anomaly_columns, setitem. destruct (has_col df c); simpl.
  - induction (columns df) as [|[m t] l IH]; simpl; auto.
    destruct (String.eqb_spec c m) as [<-|Hne]; simpl.
    + destruct (endswith c "_is_anomaly"); simpl; lia.
    + destruct (endswith m "_is_anomaly"); simpl; lia.
  - rewrite filter_app, length_app. simpl.
    destruct (endswith c "_is_anomaly"); simpl; lia.
Qed.

Lemma anomaly_columns_setitem_In df c v ns :
  In ns (anomaly_columns (setitem df c v)) ->
  ns = (c, v) \/ In ns (anomaly_columns df).
Proof.
  unfold anomaly_columns. rewrite !filter_In. intros [I E].
  destruct ns as [n s]. destruct (In_setitem_inv _ _ _ _ _ I) as [[-> ->]|I'];
    auto.
Qed.

(** The three names written for a column differ from each other and from
    those of any other column. *)
Lemma zscore_name_not_iqr a b :
  String.append a "_anomaly_zscore" <> String.append b "_anomaly_iqr".
Proof.
  intros E. symmetry in E. revert E. apply append_suffix_neq.
  rewrite endswith_suffix_of; [reflexivity|reflexivity|simpl; lia].
Qed.

Lemma zscore_name_not_flag a b :
  String.append a "_anomaly_zscore" <> String.append b "_is_anomaly".
Proof.
  intros E. symmetry in E. revert E. apply append_suffix_neq.
  rewrite endswith_suffix_of; [reflexivity|reflexivity|simpl; lia].
Qed.

Lemma iqr_name_not_flag a b :
  String.append a "_anomaly_iqr" <> String.append b "_is_anomaly".
Proof.
  intros E. symmetry in E. revert E. apply append_suffix_neq.
  rewrite endswith_suffix_of; [reflexivity|reflexivity|simpl; lia].
Qed.

Lemma zscore_name_no_flag a :
  endswith (String.append a "_anomaly_zscore") "_is_anomaly" = false.
Proof. rewrite endswith_suffix_of; [reflexivity|reflexivity|simpl; lia]. Qed.

Lemma iqr_name_no_flag a :
  endswith (String.append a "_anomaly_iqr") "_is_anomaly" = false.
Proof. rewrite endswith_suffix_of; [reflexivity|reflexivity|simpl; lia]. Qed.

Lemma eqb_false_of_neq a b : a <> b -> String.eqb a b = false.
Proof. apply String.eqb_neq. Qed.

Lemma combined_binary z q : Forall (fun x => x = 0 \/ x = 1) (combined z q).
Proof.
  unfold combined. revert q. induction z as [|u z IH]; intros [|v q]; simpl;
    constructor; auto.
  destruct ((u =? 1) || (v =? 1)); simpl; auto.
Qed.

Lemma combined_nth z q i bi :
  nth_error (combined z q) i = Some bi ->
  exists zi qi, nth_error z i = Some zi /\ nth_error q i = Some qi /\
                (bi = 1 <-> zi = 1 \/ qi = 1).
Proof.
  unfold combined. rewrite map2_nth_error.
  destruct (nth_error z i) as [zi|]; [|discriminate].
  destruct (nth_error q i) as [qi|]; [|discriminate].
  intros [= <-]. exists zi, qi. repeat split; auto.
  - destruct (Z.eqb_spec zi 1); destruct (Z.eqb_spec qi 1); simpl;
      auto; discriminate.
  - intros [->| ->]; simpl; auto. destruct (zi =? 1); reflexivity.
Qed.

Lemma flag_column_shape col df df' :
  flag_column col df = Ok df' ->
  df' = df \/ exists zf qf, df' = flagged col zf qf df.
Proof.
  unfold flag_column. intros H.
  destruct (has_col df col); [|injection H as <-; now left].
  right. repeat inv_bind H. injection H as <-.
  unfold getitem in E3, E4. rewrite !lookup_setitem in E3, E4.
  rewrite String.eqb_refl in E4.
  rewrite (eqb_false_of_neq (@zscore_name_not_iqr col col)) in E3.
  rewrite String.eqb_refl in E3.
  injection E3 as <-. injection E4 as <-. simpl in E5. injection E5 as <-.
  eexists _, _. reflexivity.
Qed.

Lemma flagged_flags_ok col zf qf df :
  flags_ok df -> flags_ok (flagged col zf qf df).
Proof.
  unfold flags_ok, flagged. intros H. apply Forall_forall. intros ns I.
  apply anomaly_columns_setitem_In in I. destruct I as [->|I].
  - simpl. eexists. split; [reflexivity|apply combined_binary].
  - rewrite anomaly_columns_setitem_other in I by apply iqr_name_no_flag.
    rewrite anomaly_columns_setitem_other in I by apply zscore_name_no_flag.
    rewrite Forall_forall in H. apply H, I.
Qed.

Lemma flagged_count col zf qf df :
  (length (anomaly_columns (flagged col zf qf df))
   <= S (length (anomaly_columns df)))%nat.
Proof.
  unfold flagged.
  etransitivity; [apply anomaly_columns_setitem_length|].
  rewrite anomaly_columns_setitem_other by apply iqr_name_no_flag.
  rewrite anomaly_columns_setitem_other by apply zscore_name_no_flag.
  lia.
Qed.

Lemma flagged_NoDup col zf qf df :
  NoDup (names df) -> NoDup (names (flagged col zf qf df)).
Proof. intros H. unfold flagged. repeat apply NoDup_setitem. exact H. Qed.

Lemma lookup_flagged col zf qf df n :
  lookup n (columns (flagged col zf qf df)) =
  if String.eqb n (String.append col "_is_anomaly")
  then Some (SInt (combined zf qf))
  else if String.eqb n (String.append col "_anomaly_iqr")
  then Some (SInt qf)
  else if String.eqb n (String.append col "_anomaly_zscore")
  then Some (SInt zf)
  else lookup n (columns df).
Proof. unfold flagged. rewrite !lookup_setitem. reflexivity. Qed.

Lemma flagged_combined_ok col zf qf df :
  combined_ok df -> combined_ok (flagged col zf qf df).
Proof.
  intros H c b L. rewrite lookup_flagged in L.
  destruct (String.eqb_spec (String.append c "_is_anomaly")
                            (String.append col "_is_anomaly")) as [E|N].
  - apply append_inj_l in E. subst c. injection L as <-.
    exists zf, qf. rewrite !lookup_flagged.
    rewrite (eqb_false_of_neq (@zscore_name_not_flag col col)).
    rewrite (eqb_false_of_neq (@zscore_name_not_iqr col col)).
    rewrite (eqb_false_of_neq (@iqr_name_not_flag col col)).
    rewrite !String.eqb_refl. auto.
  - assert (Nc : c <> col) by (intros ->; apply N; reflexivity).
    rewrite (eqb_false_of_neq
               (fun E => @iqr_name_not_flag col c (eq_sym E))) in L.
    rewrite (eqb_false_of_neq
               (fun E => @zscore_name_not_flag col c (eq_sym E))) in L.
    destruct (H _ _ L) as (z & q & Lz & Lq & ->).
    exists z, q. rewrite !lookup_flagged.
    rewrite (eqb_false_of_neq (@zscore_name_not_flag c col)).
    rewrite (eqb_false_of_neq (@zscore_name_not_iqr c col)).
    rewrite (eqb_false_of_neq (@iqr_name_not_flag c col)).
    assert (Nz : String.append c "_anomaly_zscore"
                 <> String.append col "_anomaly_zscore")
      by (intros E; apply Nc; eapply append_inj_l; exact E).
    assert (Nq : String.append c "_anomaly_iqr"
                 <> String.append col "_anomaly_iqr")
      by (intros E; apply Nc; eapply append_inj_l; exact E).
    rewrite (eqb_false_of_neq Nz), (eqb_false_of_neq Nq).
    rewrite (eqb_false_of_neq
               (fun E => @zscore_name_not_iqr col c (eq_sym E))).
    auto.
Qed.

Lemma for_each_flag_column cols :
  forall df df',
    for_each flag_column cols df = Ok df' ->
    flags_ok df -> combined_ok df -> NoDup (names df) ->
    flags_ok df' /\ combined_ok df' /\ NoDup (names df') /\
    (length (anomaly_columns df')
     <= length (anomaly_columns df) + length cols)%nat.
Proof.
  induction cols as [|col cols IH]; intros df df' H F C D; simpl in H.
  - injection H as <-. repeat split; auto. lia.
  - inv_bind H. destruct (flag_column_shape _ _ E) as [->|(zf & qf & ->)].
    + destruct (IH _ _ H F C D) as (F' & C' & D' & L').
      repeat split; auto. simpl. lia.
    + destruct (IH _ _ H (@flagged_flags_ok col zf qf df F)
                  (@flagged_combined_ok col zf qf df C)
                  (@flagged_NoDup col zf qf df D))
        as (F' & C' & D' & L').
      repeat split; auto. pose proof (flagged_count col zf qf df). simpl. lia.
Qed.

(** ** The row sums *)

Lemma wrap64_small z : - 2 ^ 63 <= z < 2 ^ 63 -> wrap64 z = z.
Proof.
  intros H. unfold wrap64. rewrite Z.mod_small; lia.
Qed.

Lemma row_step_bounds (cols : list (list Z)) (i : nat) (a : Z) :
  Forall (Forall (fun x => x = 0 \/ x = 1)) cols ->
  a <= fold_left (fun acc col => acc + nth i col 0) cols a
    <= a + Z.of_nat (length cols).
Proof.
  revert a. induction cols as [|col cols IH]; intros a F; simpl; [lia|].
  inversion F as [|? ? Fc Fcols]; subst.
  specialize (IH (a + nth i col 0) Fcols).
  assert (B : nth i col 0 = 0 \/ nth i col 0 = 1).
  { destruct (nth_in_or_default i col 0) as [I| ->]; auto.
    rewrite Forall_forall in Fc. apply Fc, I. }
  lia.
Qed.

Lemma sum_rows_ints (n : nat) (cols : list (list Z)) :
  forall acc,
    length acc = n ->
    Forall (fun col => length col = n) cols ->
    Forall (Forall (fun x => x = 0 \/ x = 1)) cols ->
    (forall i, (i < n)%nat ->
               0 <= nth i acc 0 /\
               nth i acc 0 + Z.of_nat (length cols) < 2 ^ 63) ->
    exists r,
      sum_rows (SInt acc) (map SInt cols) = Ok (SInt r) /\
      length r = n /\
      forall i, (i < n)%nat ->
        nth i r 0 = fold_left (fun a col => a + nth i col 0) cols (nth i acc 0).
Proof.
  induction cols as [|col cols IH]; intros acc La Lc Fc B; simpl.
  - exists acc. auto.
  - inversion Lc as [|? ? Lcol Lcols]; subst.
    inversion Fc as [|? ? Fcol Fcols]; subst.
    set (acc' := map2 (fun u v => wrap64 (u + v)) acc col).
    assert (La' : length acc' = length acc)
      by (unfold acc'; apply map2_length; congruence).
    assert (N : forall i, (i < length acc)%nat ->
                          nth i acc' 0 = nth i acc 0 + nth i col 0).
    { intros i Hi. unfold acc'. apply nth_error_nth.
      rewrite map2_nth_error.
      rewrite (nth_error_nth' acc 0) by lia.
      rewrite (nth_error_nth' col 0) by lia.
      f_equal. apply wrap64_small.
      assert (Bc : nth i col 0 = 0 \/ nth i col 0 = 1).
      { rewrite Forall_forall in Fcol. apply Fcol, nth_In. lia. }
      specialize (B i Hi). simpl in B. lia. }
    destruct (IH acc' La' Lcols Fcols) as (r & Hr & Lr & Nr).
    { intros i Hi. rewrite (N i Hi). specialize (B i Hi). simpl in B.
      assert (Bc : nth i col 0 = 0 \/ nth i col 0 = 1).
      { rewrite Forall_forall in Fcol. apply Fcol, nth_In. lia. }
      lia. }
    exists r. split; [exact Hr|]. split; [exact Lr|].
    intros i Hi. rewrite (Nr i Hi), (N i Hi). reflexivity.
Qed.

Lemma name_not_literal (a s t : string) :
  endswith t s = false -> String.append a s <> t.
Proof.
  intros H. apply (@append_suffix_neq a "" s t). exact H.
Qed.

Lemma mapM_getitem_sublist df (l : list (string * Series)) :
  NoDup (names df) ->
  (forall ns, In ns l -> In ns (columns df)) ->
  mapM (getitem df) (map fst l) = Ok (map snd l).
Proof.
  intros D. induction l as [|[n s] l IH]; intros I; simpl; [reflexivity|].
  unfold getitem at 1.
  rewrite (@NoDup_lookup (columns df) n s D) by (apply I; now left).
  simpl. rewrite IH by (intros ns Hns; apply I; now right). reflexivity.
Qed.

Lemma flags_ok_ints df :
  flags_ok df ->
  map snd (anomaly_columns df)
  = map SInt (map (fun ns => ints_of (snd ns)) (anomaly_columns df)) /\
  Forall (Forall (fun x => x = 0 \/ x = 1))
         (map (fun ns => ints_of (snd ns)) (anomaly_columns df)).
Proof.
  unfold flags_ok. induction (anomaly_columns df) as [|[n s] l IH];
    intros F; simpl.
  - split; [reflexivity|constructor].
  - inversion F as [|? ? (bl & E & B) F']; subst. simpl in E. subst s.
    destruct (IH F') as (E' & B'). split.
    + simpl. f_equal. exact E'.
    + constructor; assumption.
Qed.

Lemma anomaly_columns_aligned df :
  aligned df ->
  Forall (fun col => length col = nrows df)
         (map (fun ns => ints_of (snd ns)) (anomaly_columns df)) \/
  ~ flags_ok df.
Proof.
  intros A.
  destruct (Forall_dec (fun ns : string * Series => is_int64 (snd ns) = true)
              (fun ns => Bool.bool_dec _ _) (anomaly_columns df)) as [Y|N].
  - left. rewrite Forall_map. apply Forall_forall. intros [n s] I.
    rewrite Forall_forall in Y. specialize (Y _ I). simpl in *.
    destruct s; try discriminate. simpl.
    unfold anomaly_columns in I. apply filter_In in I. destruct I as [I _].
    unfold aligned in A. rewrite Forall_forall in A. apply (A _ I).
  - right. intros F. apply N. unfold flags_ok in F.
    eapply Forall_impl; [|exact F]. intros [n s] (bl & E & _).
    simpl in *. subst. reflexivity.
Qed.

Lemma nth_repeat_zero n i : nth i (repeat 0 n) 0 = 0.
Proof.
  revert i. induction n as [|n IH]; intros [|i]; simpl; auto.
Qed.

Lemma no_anomaly_columns df :
  (forall n, In n (names df) -> endswith n "_is_anomaly" = false) ->
  anomaly_columns df = [].
Proof.
  unfold anomaly_columns, names.
  induction (columns df) as [|[n s] l IH]; intros H; simpl; auto.
  simpl in H. rewrite (H n) by (now left). apply IH.
  intros m Im. apply H. now right.
Qed.

(** C7, as the code has it.  In a well-formed frame none of whose columns is
    named like an anomaly flag, after the flagger has run anomaly_score is
    in every row the sum of the [_is_anomaly] columns and is not negative,
    has_any_anomaly is 1 exactly where the score is positive, and every
    [c_is_anomaly] is 1 exactly where [c_anomaly_zscore] or
    [c_anomaly_iqr] is 1. *)
Theorem anomaly_score_and_flags (df df' : DataFrame) :
  well_formed df ->
  (forall n, In n (names df) -> endswith n "_is_anomaly" = false) ->
  flag_anomalies_column df = Ok df' ->
  exists (flagcols : list (list Z)) (score : Series) (any : list Z),
    map snd (anomaly_columns df') = map SInt flagcols /\
    lookup "anomaly_score" (columns df') = Some score /\
    lookup "has_any_anomaly" (columns df') = Some (SInt any) /\
    (forall i, (i < nrows df)%nat ->
       exists c a,
         cell_at score i = Some c /\
         holds_int (row_total flagcols i) c /\
         0 <= row_total flagcols i /\
         nth_error any i = Some a /\
         (a = 0 \/ a = 1) /\
         (a = 1 <-> 0 < row_total flagcols i)) /\
    (forall c b,
       lookup (String.append c "_is_anomaly") (columns df') = Some b ->
       exists z q bl,
         lookup (String.append c "_anomaly_zscore") (columns df')
         = Some (SInt z) /\
         lookup (String.append c "_anomaly_iqr") (columns df')
         = Some (SInt q) /\
         b = SInt bl /\
         forall i bi,
           nth_error bl i = Some bi ->
           exists zi qi,
             nth_error z i = Some zi /\ nth_error q i = Some qi /\
             (bi = 1 <-> zi = 1 \/ qi = 1)).
Proof.
  intros [A D] Hnone H. unfold flag_anomalies_column in H.
  inv_bind H. rename a into d1. inv_bind H. rename a into sc.
  unfold getitem in H. rewrite lookup_setitem, String.eqb_refl in H.
  cbn [bind] in H. inv_bind H. rename a into fl. injection H as <-.
  (* the frame after the loop *)
  assert (G : grows df d1)
    by (eapply for_each_grows; [apply flag_column_grows|exact A|exact E]).
  unfold grows in G. destruct G as (Nr & _ & A1).
  assert (F0 : flags_ok df).
  { unfold flags_ok. rewrite (@no_anomaly_columns df Hnone). constructor. }
  assert (C0 : combined_ok df).
  { intros c b L. apply lookup_In in L.
    assert (I : In (String.append c "_is_anomaly") (names df))
      by (unfold names; apply in_map_iff; eexists; split; [|exact L];
          reflexivity).
    apply Hnone in I. rewrite endswith_append in I. discriminate. }
  destruct (@for_each_flag_column (cols_to_check df) df d1 E F0 C0 D) as (F1 & C1 & D1 & Len).
  assert (Len10 : (length (anomaly_columns d1) <= 10)%nat).
  { pose proof (cols_to_check_length df).
    rewrite (@no_anomaly_columns df Hnone) in Len. simpl in Len. lia. }
  set (flagcols := map (fun ns => ints_of (snd ns)) (anomaly_columns d1)).
  destruct (@flags_ok_ints d1 F1) as (Eflag & Bflag). fold flagcols in Eflag, Bflag.
  assert (Lflag : Forall (fun col => length col = nrows d1) flagcols).
  { destruct (@anomaly_columns_aligned d1 A1) as [Y|N]; [exact Y|tauto]. }
  assert (Lcount : (length flagcols <= 10)%nat)
    by (unfold flagcols; rewrite length_map; exact Len10).
  (* the score *)
  assert (Hsum : sum_axis1 d1 (map fst (anomaly_columns d1)) = Ok sc).
  { rewrite <- E0. f_equal. unfold anomaly_columns, names.
    symmetry.
    apply (@filter_map_fst string Series
             (fun col => endswith col "_is_anomaly")). }
  unfold sum_axis1 in Hsum.
  rewrite (@mapM_getitem_sublist d1 (anomaly_columns d1) D1) in Hsum
    by (intros ns I; unfold anomaly_columns in I; apply filter_In in I;
        apply I).
  cbn [bind] in Hsum. rewrite Eflag in Hsum.
  assert (Score :
            forall i, (i < nrows df)%nat ->
              exists c a,
                cell_at sc i = Some c /\
                holds_int (row_total flagcols i) c /\
                0 <= row_total flagcols i /\
                nth_error (ints_of fl) i = Some a /\
                (a = 0 \/ a = 1) /\
                (a = 1 <-> 0 < row_total flagcols i) /\
                fl = SInt (ints_of fl)).
  { destruct flagcols as [|col0 rest] eqn:EF.
    - simpl in Hsum. injection Hsum as <-. simpl in E1. injection E1 as <-.
      intros i Hi. exists (Some (CFloat B64.zero)), 0.
      unfold cell_at, row_total. simpl. rewrite !nth_error_map.
      rewrite (nth_error_nth' _ B64.zero)
        by (rewrite repeat_length; lia).
      rewrite nth_repeat. simpl.
      repeat split; auto; try lia; try discriminate.
      now right.
    - assert (Z : forallb is_int64 (map SInt (col0 :: rest)) = true).
      { apply forallb_forall. intros x Ix. apply in_map_iff in Ix.
        destruct Ix as (y & <- & _). reflexivity. }
      cbn [map] in Hsum, Z. rewrite Z in Hsum.
      change (SInt col0 :: map SInt rest) with (map SInt (col0 :: rest))
        in Hsum.
      destruct (@sum_rows_ints (nrows d1) (col0 :: rest)
                  (repeat 0 (nrows d1))) as (r & Hr & Lr & Nr').
      + apply repeat_length.
      + exact Lflag.
      + exact Bflag.
      + intros i Hi. rewrite nth_repeat_zero. split; [lia|].
        assert (Z.of_nat (length (col0 :: rest)) <= 10) by lia. lia.
      + rewrite Hr in Hsum. injection Hsum as <-.
        simpl in E1. injection E1 as <-.
        intros i Hi.
        assert (Ri : nth i r 0 = row_total (col0 :: rest) i).
        { rewrite Nr' by lia. rewrite nth_repeat_zero. reflexivity. }
        pose proof (@row_step_bounds (col0 :: rest) i 0 Bflag) as Bd.
        fold (row_total (col0 :: rest) i) in Bd.
        exists (Some (CInt (row_total (col0 :: rest) i))),
               (bool_int (0 <? row_total (col0 :: rest) i)).
        unfold cell_at. simpl cells. simpl ints_of.
        rewrite !nth_error_map.
        rewrite (nth_error_nth' r 0) by lia. rewrite Ri. simpl option_map.
        repeat split; auto; try lia.
        * now left.
        * destruct (0 <? _); simpl; auto.
        * destruct (Z.ltb_spec 0 (row_total (col0 :: rest) i)); simpl;
            intros; auto; discriminate.
        * intros P. apply Z.ltb_lt in P. rewrite P. reflexivity. }
  (* the final frame *)
  exists flagcols, sc, (ints_of fl).
  assert (Efl : fl = SInt (ints_of fl)).
  { destruct sc; simpl in E1; try discriminate; injection E1 as <-;
      reflexivity. }
  split.
  { rewrite !anomaly_columns_setitem_other by reflexivity. exact Eflag. }
  split.
  { rewrite !lookup_setitem. reflexivity. }
  split.
  { rewrite !lookup_setitem. simpl. f_equal. exact Efl. }
  split.
  { intros i Hi. destruct (Score i Hi) as (c & a & P1 & P2 & P3 & P4 & P5 & P6 & _).
    exists c, a.
    exact (conj P1 (conj P2 (conj P3 (conj P4 (conj P5 P6))))). }
  intros c b L.
  assert (Same : forall suffix,
             endswith "anomaly_score" suffix = false ->
             endswith "has_any_anomaly" suffix = false ->
             lookup (String.append c suffix)
               (columns (setitem (setitem d1 "anomaly_score" sc)
                           "has_any_anomaly" fl))
             = lookup (String.append c suffix) (columns d1)).
  { intros suffix S1 S2. rewrite !lookup_setitem.
    rewrite (eqb_false_of_neq (@name_not_literal c suffix "has_any_anomaly" S2)).
    rewrite (eqb_false_of_neq (@name_not_literal c suffix "anomaly_score" S1)).
    reflexivity. }
  rewrite Same in L by reflexivity.
  destruct (C1 _ _ L) as (z & q & Lz & Lq & ->).
  exists z, q, (combined z q).
  rewrite !Same by reflexivity.
  repeat split; auto. apply combined_nth.
Qed.

(** ** The z-score in exact arithmetic *)

Section ExactArithmetic.

#[local] Open Scope R_scope.


















End ExactArithmetic.

(* ===================================================================== *)
(** * The stages keep rows and columns *)
(* ===================================================================== *)

(** C9.  Whatever the stage, when it returns a table on an aligned table,
    the output has the number of rows of the input, and the column names of
    the input, in their order, are the first column names of the output:
    a stage adds columns and neither removes nor renames one. *)
Theorem stage_keeps_rows_and_columns
    (to_datetime_text : list (option string) -> option (list (option Z)))
    (now : Z) (st : stage) (df df' : DataFrame) :
  (forall l r, to_datetime_text l = Some r -> length r = length l) ->
  aligned df ->
  run_stage to_datetime_text now st df = Ok df' ->
  nrows df' = nrows df /\
  (exists added, names df' = names df ++ added) /\
  (forall c, has_col df c = true -> has_col df' c = true) /\
  aligned df'.
Proof.
  intros Hlen A H.
  assert (G : grows df df').
  { destruct st; simpl in H.
    - eapply derive_computed_columns_grows; eauto.
    - eapply encode_categorical_features_grows; eauto.
    - eapply bin_numeric_ranges_grows; eauto.
    - eapply time_based_feature_extraction_grows; eauto.
    - eapply flag_anomalies_column_grows; eauto. }
  destruct G as (N & (added & E) & A').
  split; [exact N|]. split; [exists added; exact E|]. split; [|exact A'].
  intros c Hc. unfold has_col in *. rewrite E.
  rewrite mem_string_In in *. apply in_or_app. left. exact Hc.
Qed.

(* ===================================================================== *)
(** * The stages on the example tables *)
(* ===================================================================== *)

Lemma no_text_dates_length :
  forall l r, no_text_dates l = Some r -> length r = length l.
Proof. intros l r H. discriminate H. Qed.

Ltac names_case H :=
  simpl in H;
  repeat (destruct H as [H|H]; [subst; reflexivity|]);
  contradiction.

Ltac nodup_names :=
  repeat (constructor; [simpl; intuition discriminate|]); constructor.

Lemma aligned_sample_df : aligned sample_df.
Proof. unfold aligned. repeat constructor. Qed.

Lemma well_formed_incomes_df : well_formed incomes_df.
Proof. split; [unfold aligned; repeat constructor|nodup_names]. Qed.

(** C3.  On a table whose row 0 holds 0 in each of the five binned columns,
    the binner gives row 0 the first label of age, rating and
    discount_percent, and a missing label for income and for
    purchase_amount, whose call of [cut] does not include the lowest edge;
    row 1, inside the tables, is labelled in all five. *)
Theorem lower_bound_labels :
  (do d <- bin_numeric_ranges lower_bound_df;
   mapM (getitem d)
        ["age_group"; "income_bracket"; "purchase_category";
         "rating_category"; "discount_tier"])
  = Ok [SCat [Some (LStr "18-25"); Some (LStr "26-35")];
        SCat [None; Some (LStr "Lower-Middle")];
        SCat [None; Some (LStr "Low")];
        SCat [Some (LStr "Poor"); Some (LStr "Excellent")];
        SCat [Some (LStr "No Discount"); Some (LStr "Low Discount")]].
Proof. vm_compute. reflexivity. Qed.

(** C4.  On eight different prices the binner labels two rows with each of
    Q1 to Q4; on four equal prices the quartile edges coincide, the
    duplicates are dropped, the four labels no longer fit the one bin that
    is left, and the binner raises ValueError. *)
Theorem price_quartile_equal_prices :
  (do d <- bin_numeric_ranges spread_price_df; getitem d "price_quartile")
  = Ok (SCat [Some (LStr "Q1"); Some (LStr "Q1"); Some (LStr "Q2");
              Some (LStr "Q2"); Some (LStr "Q3"); Some (LStr "Q3");
              Some (LStr "Q4"); Some (LStr "Q4")]) /\
  bin_numeric_ranges same_price_df = Raise ValueError.
Proof. split; vm_compute; reflexivity. Qed.


(** Against C5 as stated: in the row where gender is missing, no gender
    indicator is 1. *)
Lemma missing_gender_no_indicator :
  (do d <- encode_categorical_features no_text_dates missing_gender_df;
   Ok (filter (fun ns => startswith (fst ns) "gender_") (columns d)))
  = Ok [("gender_Female", SInt [0; 0; 1]); ("gender_Male", SInt [1; 0; 0])].
Proof. vm_compute. reflexivity. Qed.

(** Against C6 as stated: a numeric column whose name has no "id" in it and
    does not end in "_encoded" is still left out when its name starts with
    "gender_". *)
Lemma indicator_named_column_skipped :
  lookup "gender_Male" (columns indicator_named_df) = Some (SInt [1; 0]) /\
  is_numeric (SInt [1; 0]) = true /\
  contains (lower "gender_Male") "id" = false /\
  endswith "gender_Male" "_encoded" = false /\
  cols_to_check indicator_named_df = [].
Proof. repeat split; vm_compute; reflexivity. Qed.

(** Against C7 as stated: a column that comes in under a name ending in
    "_is_anomaly" is summed with the flags, and the score is negative. *)
Lemma flag_named_column_negative_score :
  (do d <- flag_anomalies_column flag_named_df;
   mapM (getitem d) ["x_is_anomaly"; "x_is_anomaly_is_anomaly";
                     "anomaly_score"; "has_any_anomaly"])
  = Ok [SInt [-1; -1]; SInt [0; 0]; SInt [-1; -1]; SInt [0; 0]].
Proof. vm_compute. reflexivity. Qed.


(** ** The theorems at the example tables *)

Lemma derive_final_price_total_cost_rows_witness :
  exists df' tc fp,
    derive_computed_columns sample_df = Ok df' /\
    lookup "total_cost" (columns df') = Some tc /\
    lookup "final_price" (columns df') = Some fp /\
    num_at tc 0 = Some (NFloat (B64.of_Z 105)) /\
    num_at fp 0 = Some (NFloat (B64.of_Z 95)).
Proof.
  destruct (derive_computed_columns sample_df) as [df'|e] eqn:E;
    [|vm_compute in E; discriminate E].
  destruct (@derive_final_price_total_cost_rows sample_df df'
              (SFloat (map B64.of_Z [100; 500; 1000; 2000; 12000]))
              (SFloat (map B64.of_Z [5; 10; 15; 20; 25]))
              (SFloat (map B64.of_Z [10; 25; 5; 40; 0]))
              0%nat (NFloat (B64.of_Z 100)) (NFloat (B64.of_Z 5))
              (NFloat (B64.of_Z 10))
              eq_refl eq_refl eq_refl eq_refl eq_refl eq_refl E)
    as (tc & fp & Ltc & Lfp & Ntc & Nfp).
  exists df', tc, fp. repeat split; try assumption.
Defined.


Lemma one_hot_indicators_witness :
  exists df',
    encode_categorical_features no_text_dates sample_df = Ok df' /\
    In ("gender_Male", SInt [1; 0; 1; 0; 0]) (columns df') /\
    In ("gender_Female", SInt [0; 1; 0; 0; 1]) (columns df') /\
    In ("gender_Other", SInt [0; 0; 0; 1; 0]) (columns df').
Proof.
  destruct (encode_categorical_features no_text_dates sample_df)
    as [df'|e] eqn:E; [|vm_compute in E; discriminate E].
  assert (N : forall n, In n (names sample_df) ->
                        startswith n (String.append "gender" "_") = false)
    by (intros n H; names_case H).
  destruct (@one_hot_indicators no_text_dates sample_df df' "gender"
              [Some "Male"; Some "Female"; Some "Male"; Some "Other";
               Some "Female"]
              (or_introl eq_refl) eq_refl N E)
    as (_ & _ & P & _).
  exists df'. split; [reflexivity|].
  split; [|split].
  - apply (P "Male"). simpl. auto.
  - apply (P "Female"). simpl. auto.
  - apply (P "Other"). simpl. auto.
Defined.

Lemma cols_to_check_selection_witness :
  cols_to_check sample_df
  = ["income"; "purchase_amount"; "age"; "rating"; "discount_percent";
     "shipping_cost"] /\
  (length (cols_to_check sample_df) <= 10)%nat.
Proof.
  destruct (cols_to_check_selection sample_df) as (E & _ & L & _).
  split; [rewrite E; vm_compute; reflexivity|exact L].
Defined.

Lemma anomaly_score_and_flags_witness :
  exists df' score any,
    flag_anomalies_column incomes_df = Ok df' /\
    lookup "anomaly_score" (columns df') = Some score /\
    lookup "has_any_anomaly" (columns df') = Some (SInt any).
Proof.
  destruct (flag_anomalies_column incomes_df) as [df'|e] eqn:E;
    [|vm_compute in E; discriminate E].
  assert (N : forall n, In n (names incomes_df) ->
                        endswith n "_is_anomaly" = false)
    by (intros n H; names_case H).
  destruct (@anomaly_score_and_flags incomes_df df'
              well_formed_incomes_df N E)
    as (flagcols & score & any & _ & Ls & La & _).
  exists df', score, any. repeat split; assumption.
Defined.

Lemma education_encoded_ranks_witness :
  exists df' e c0 c2,
    encode_categorical_features no_text_dates sample_df = Ok df' /\
    lookup "education_encoded" (columns df') = Some e /\
    cell_at e 0 = Some c0 /\ holds_int 1 c0 /\
    cell_at e 2 = Some c2 /\ holds_int 3 c2.
Proof.
  destruct (encode_categorical_features no_text_dates sample_df)
    as [df'|e] eqn:E; [|vm_compute in E; discriminate E].
  destruct (@education_encoded_ranks no_text_dates sample_df df'
              (SObj [Some "Bachelor"; Some "Master"; Some "PhD";
                     Some "High School"; Some "Bachelor"])
              eq_refl E)
    as (e & Le & _ & P).
  destruct (P 0%nat (Some (CStr "Bachelor")) eq_refl)
    as (c0 & C0 & _ & B0 & _).
  destruct (P 2%nat (Some (CStr "PhD")) eq_refl)
    as (c2 & C2 & _ & _ & _ & B2 & _).
  exists df', e, c0, c2. split; [reflexivity|]. split; [exact Le|].
  split; [exact C0|]. split; [apply B0; reflexivity|].
  split; [exact C2|]. apply B2. reflexivity.
Defined.

Lemma stage_keeps_rows_and_columns_witness :
  exists df',
    run_stage no_text_dates 0 TimeBasedFeatureExtraction sample_df = Ok df' /\
    nrows df' = 5%nat /\
    has_col df' "purchase_date" = true.
Proof.
  destruct (run_stage no_text_dates 0 TimeBasedFeatureExtraction sample_df)
    as [df'|e] eqn:E; [|vm_compute in E; discriminate E].
  destruct (@stage_keeps_rows_and_columns no_text_dates 0
              TimeBasedFeatureExtraction sample_df df'
              no_text_dates_length aligned_sample_df E)
    as (N & _ & C & _).
  exists df'. split; [reflexivity|]. split; [exact N|].
  apply C. reflexivity.
Defined.


(* ===================================================================== *)
(** * The calendar of stage 4 *)
(* ===================================================================== *)

Lemma all_from_spec f n :
  forall z, all_from f n z = true ->
  forall k, z <= k < z + Z.of_nat n -> f k = true.
Proof.
  induction n as [|n IH]; intros z H k Hk.
  - simpl in Hk. lia.
  - simpl in H. apply andb_true_iff in H. destruct H as [H0 H1].
    destruct (Z.eq_dec k z) as [->|Hne]; [exact H0|].
    apply (IH (z + 1) H1). lia.
Qed.

Lemma years_ok : forall y, 0 <= y < 400 -> year_ok y = true.
Proof.
  intros y H. apply (@all_from_spec year_ok 400 0); [|lia].
  vm_compute. reflexivity.
Qed.

Lemma days_ok : forall doy, 0 <= doy < 366 -> day_ok doy = true.
Proof.
  intros doy H. apply (@all_from_spec day_ok 366 0); [|lia].
  vm_compute. reflexivity.
Qed.

Lemma nexts_ok : forall doy, 0 <= doy < 365 -> next_ok doy = true.
Proof.
  intros doy H. apply (@all_from_spec next_ok 365 0); [|lia].
  vm_compute. reflexivity.
Qed.

Lemma year_guess_mono a b :
  0 <= a <= b -> b <= 146096 -> year_guess a <= year_guess b.
Proof.
  intros H1 H2. unfold year_guess. apply Z.div_le_mono; [lia|].
  Z.div_mod_to_equations. lia.
Qed.

(** What [year_ok] says. *)
Lemma year_facts y :
  0 <= y < 400 ->
  0 <= year_start y /\ year_last y <= 146096 /\
  year_guess (year_start y) = y /\ year_guess (year_last y) = y /\
  (y = 399 -> year_last y = 146096) /\
  (y <> 399 -> year_last y + 1 = year_start (y + 1)).
Proof.
  intros H. pose proof (years_ok H) as C. unfold year_ok in C.
  rewrite !andb_true_iff in C. destruct C as ((((A & B) & G1) & G2) & N).
  apply Z.leb_le in A, B. apply Z.eqb_eq in G1, G2.
  repeat split; auto.
  - intros ->. reflexivity.
  - intros Hne. destruct (Z.eqb_spec y 399); [contradiction|].
    apply Z.eqb_eq in N. exact N.
Qed.

Lemma year_start_le_last y : year_start y <= year_last y.
Proof. unfold year_last. destruct (is_leap_year (y + 1)); lia. Qed.

(** Every day of the cycle is a day of one of its years. *)
Lemma year_cover_upto (n : nat) :
  (n < 400)%nat ->
  forall doe, 0 <= doe <= year_last (Z.of_nat n) ->
  exists y, 0 <= y <= Z.of_nat n /\ year_start y <= doe <= year_last y.
Proof.
  induction n as [|n IH]; intros Hn doe H.
  - exists 0. change (Z.of_nat 0) with 0 in *.
    assert (year_start 0 = 0) by reflexivity. lia.
  - destruct (Z_le_gt_dec doe (year_last (Z.of_nat n))) as [L|G].
    + destruct (IH ltac:(lia) doe ltac:(lia)) as (y & Hy & Hd).
      exists y. split; [lia|exact Hd].
    + exists (Z.of_nat (S n)). split; [lia|].
      destruct (@year_facts (Z.of_nat n) ltac:(lia))
        as (_ & _ & _ & _ & _ & N).
      specialize (N ltac:(lia)).
      replace (Z.of_nat (S n)) with (Z.of_nat n + 1) in * by lia. lia.
Qed.

Lemma year_cover doe :
  0 <= doe < 146097 ->
  exists y, 0 <= y < 400 /\ year_start y <= doe <= year_last y.
Proof.
  intros H.
  destruct (@year_facts 399 ltac:(lia)) as (_ & _ & _ & _ & L & _).
  specialize (L eq_refl).
  destruct (@year_cover_upto 399 ltac:(lia) doe) as (y & Hy & Hd).
  { change (Z.of_nat 399) with 399. lia. }
  exists y. change (Z.of_nat 399) with 399 in Hy. split; [lia|exact Hd].
Qed.

Lemma year_of_day doe y :
  0 <= y < 400 -> year_start y <= doe <= year_last y ->
  year_guess doe = y.
Proof.
  intros Hy Hd.
  destruct (year_facts Hy) as (A & B & G1 & G2 & _).
  pose proof (@year_guess_mono (year_start y) doe ltac:(lia) ltac:(lia)).
  pose proof (@year_guess_mono doe (year_last y) ltac:(lia) ltac:(lia)).
  lia.
Qed.

(** [civil_from_days] in its parts. *)
Lemma civil_from_days_parts era doe :
  0 <= doe < 146097 ->
  civil_from_days (doe - 719468 + era * 146097)
  = (let y := year_guess doe in
     let m := fst (month_day (doe - year_start y)) in
     let d := snd (month_day (doe - year_start y)) in
     (if m <=? 2 then y + era * 400 + 1 else y + era * 400, m, d)).
Proof.
  intros H. unfold civil_from_days.
  replace (doe - 719468 + era * 146097 + 719468) with (doe + era * 146097)
    by ring.
  rewrite Z.div_add, (Z.div_small doe 146097) by lia.
  replace (doe + era * 146097 - (0 + era) * 146097) with doe by ring.
  reflexivity.
Qed.

Lemma cycle_of_day z :
  exists era doe, 0 <= doe < 146097 /\ z = doe - 719468 + era * 146097.
Proof.
  exists ((z + 719468) / 146097), ((z + 719468) mod 146097).
  split; [apply Z.mod_pos_bound; lia|].
  pose proof (Z.div_mod (z + 719468) 146097 ltac:(lia)). lia.
Qed.

Lemma is_leap_year_shift y e : is_leap_year (y + 400 * e) = is_leap_year y.
Proof.
  unfold is_leap_year.
  replace (y + 400 * e) with (y + (100 * e) * 4) at 1 by ring.
  replace (y + 400 * e) with (y + (4 * e) * 100) at 1 by ring.
  replace (y + 400 * e) with (y + e * 400) by ring.
  rewrite !Z_mod_plus_full. reflexivity.
Qed.

Lemma days_in_month_other y m : m <> 2 -> days_in_month y m = days_in_month 1 m.
Proof.
  intros H. unfold days_in_month.
  destruct (Z.eqb_spec m 2); [contradiction|reflexivity].
Qed.

Lemma days_in_february y :
  days_in_month y 2 = 28 + (if is_leap_year y then 1 else 0).
Proof. unfold days_in_month. simpl. destruct (is_leap_year y); reflexivity. Qed.

(** A day count in its cycle, its year of the cycle and its day of that
    year. *)
Lemma day_in_year z :
  exists era y doy,
    0 <= y < 400 /\
    0 <= doy <= 364 + (if is_leap_year (y + 1) then 1 else 0) /\
    z = year_start y + doy - 719468 + era * 146097 /\
    0 <= year_start y + doy < 146097 /\
    civil_from_days z
    = (if fst (month_day doy) <=? 2 then y + era * 400 + 1
       else y + era * 400,
       fst (month_day doy), snd (month_day doy)).
Proof.
  destruct (cycle_of_day z) as (era & doe & R & ->).
  destruct (year_cover R) as (y & Hy & Hd).
  exists era, y, (doe - year_start y).
  split; [exact Hy|]. unfold year_last in Hd.
  split; [lia|]. split; [f_equal; lia|].
  split; [lia|].
  rewrite (civil_from_days_parts era R). cbv zeta.
  rewrite (year_of_day Hy).
  - reflexivity.
  - unfold year_last. lia.
Qed.

(** What [day_ok] says. *)
Lemma day_facts doy :
  0 <= doy < 366 ->
  let m := fst (month_day doy) in
  let d := snd (month_day doy) in
  1 <= m <= 12 /\ 1 <= d /\
  (153 * (if 2 <? m then m - 3 else m + 9) + 2) / 5 + d - 1 = doy /\
  (m = 2 -> d = doy - 336) /\
  (m <> 2 -> d <= days_in_month 1 m).
Proof.
  intros H. pose proof (days_ok H) as C. unfold day_ok in C.
  destruct (month_day doy) as [m d]. cbn [fst snd].
  rewrite !andb_true_iff in C.
  destruct C as ((((M1 & M2) & D1) & I) & F).
  apply Z.leb_le in M1, M2, D1. apply Z.eqb_eq in I.
  repeat split; auto.
  - intros ->. simpl in F. apply Z.eqb_eq in F. exact F.
  - intros Hne. destruct (Z.eqb_spec m 2); [contradiction|].
    apply Z.leb_le in F. exact F.
Qed.

(** The date of a day count is a date of the calendar, and the day count
    of that date is the one it came from. *)
Lemma civil_from_days_valid z :
  let y := fst (fst (civil_from_days z)) in
  let m := snd (fst (civil_from_days z)) in
  let d := snd (civil_from_days z) in
  1 <= m <= 12 /\ 1 <= d <= days_in_month y m /\ days_from_civil y m d = z.
Proof.
  destruct (day_in_year z) as (era & y & doy & Hy & Hd & -> & _ & E).
  rewrite E. cbn [fst snd]. clear E.
  assert (R : 0 <= doy < 366) by (destruct (is_leap_year (y + 1)); lia).
  destruct (day_facts R) as (M & D1 & I & F2 & Fo).
  set (m := fst (month_day doy)) in *. set (d := snd (month_day doy)) in *.
  split; [exact M|]. split; [split; [exact D1|]|].
  - destruct (Z.eq_dec m 2) as [E2|N2].
    + rewrite E2. change (2 <=? 2) with true. cbv iota.
      rewrite days_in_february.
      replace (y + era * 400 + 1) with (y + 1 + 400 * era) by ring.
      rewrite is_leap_year_shift. specialize (F2 E2). lia.
    + rewrite days_in_month_other by exact N2. apply Fo, N2.
  - unfold days_from_civil.
    assert (Y : (if m <=? 2
                 then (if m <=? 2 then y + era * 400 + 1 else y + era * 400)
                      - 1
                 else (if m <=? 2 then y + era * 400 + 1
                       else y + era * 400))
                = y + era * 400)
      by (destruct (m <=? 2); ring).
    rewrite Y. cbv zeta.
    rewrite Z.div_add, (Z.div_small y 400) by lia.
    replace (y + era * 400 - (0 + era) * 400) with y by ring.
    unfold year_start. lia.
Qed.



Lemma days_of_ns_floor t :
  days_of_ns t * ns_per_day <= t < (days_of_ns t + 1) * ns_per_day.
Proof.
  unfold days_of_ns.
  assert (P : 0 < ns_per_day) by (vm_compute; reflexivity).
  pose proof (Z.div_mod t ns_per_day ltac:(lia)).
  pose proof (Z.mod_pos_bound t ns_per_day P). lia.
Qed.

Lemma dt_month_range t : 1 <= dt_month t <= 12.
Proof. unfold dt_month. apply (civil_from_days_valid (days_of_ns t)). Qed.

Lemma dt_dayofweek_range t : 0 <= dt_dayofweek t <= 6.
Proof.
  unfold dt_dayofweek. pose proof (Z.mod_pos_bound (days_of_ns t + 3) 7). lia.
Qed.

Lemma dt_fields_range t :
  1 <= dt_month t <= 12 /\
  1 <= dt_day t <= days_in_month (dt_year t) (dt_month t).
Proof.
  split; [apply dt_month_range|].
  apply (civil_from_days_valid (days_of_ns t)).
Qed.

Ltac month_cases t :=
  let R := fresh "R" in
  pose proof (dt_month_range t) as R;
  let m := fresh "m" in
  set (m := dt_month t) in *; clearbody m;
  assert (m = 1 \/ m = 2 \/ m = 3 \/ m = 4 \/ m = 5 \/ m = 6 \/ m = 7
          \/ m = 8 \/ m = 9 \/ m = 10 \/ m = 11 \/ m = 12) as R' by lia;
  clear R;
  repeat (destruct R' as [R'|R']; [subst m|]); [..|subst m].

Ltac weekday_cases t :=
  let R := fresh "R" in
  pose proof (dt_dayofweek_range t) as R;
  let w := fresh "w" in
  set (w := dt_dayofweek t) in *; clearbody w;
  assert (w = 0 \/ w = 1 \/ w = 2 \/ w = 3 \/ w = 4 \/ w = 5 \/ w = 6)
    as R' by lia;
  clear R;
  repeat (destruct R' as [R'|R']; [subst w|]); [..|subst w].

(** X1.  Whatever the timestamp, also before 1970: the month is one of 1 to
    12 and has its name, the day is a day of that month in that year, the
    day of the week is one of 0 to 6 and has its name, the quarter is one
    of 1 to 4 and is the quarter of the month. *)
Theorem dt_fields_valid (t : Z) :
  1 <= dt_month t <= 12 /\
  1 <= dt_day t <= days_in_month (dt_year t) (dt_month t) /\
  0 <= dt_dayofweek t <= 6 /\
  1 <= dt_quarter t <= 4 /\
  3 * dt_quarter t - 2 <= dt_month t <= 3 * dt_quarter t /\
  nth_error month_names (Z.to_nat (dt_month t - 1)) = Some (dt_month_name t) /\
  nth_error day_names (Z.to_nat (dt_dayofweek t)) = Some (dt_day_name t).
Proof.
  split; [apply dt_month_range|].
  split; [apply (civil_from_days_valid (days_of_ns t))|].
  split; [apply dt_dayofweek_range|].
  unfold dt_quarter, dt_month_name, dt_day_name.
  split; [|split; [|split]].
  - month_cases t; vm_compute; split; discriminate.
  - month_cases t; vm_compute; split; discriminate.
  - month_cases t; reflexivity.
  - weekday_cases t; reflexivity.
Qed.

(** X2.  The year, month and day of a timestamp name the day it falls on:
    counting the days from 1970-01-01 to that date gives days_since_epoch,
    which is the number of whole days up to the timestamp, rounded down
    also before 1970. *)
Theorem dt_date_round_trip (t : Z) :
  days_from_civil (dt_year t) (dt_month t) (dt_day t) = days_of_ns t /\
  days_of_ns t * ns_per_day <= t < (days_of_ns t + 1) * ns_per_day.
Proof.
  split; [|apply days_of_ns_floor].
  unfold dt_year, dt_month, dt_day.
  apply (civil_from_days_valid (days_of_ns t)).
Qed.

(** X3.  The season of a timestamp is Winter exactly in December, January
    and February, Spring in March to May, Summer in June to August and Fall
    in September to November: the last branch of the season lambda is taken
    by these three months only. *)
Theorem season_of_month (t : Z) :
  let season := season_of (Some (dt_month t)) in
  (season = "Winter" <-> dt_month t = 12 \/ dt_month t <= 2) /\
  (season = "Spring" <-> 3 <= dt_month t <= 5) /\
  (season = "Summer" <-> 6 <= dt_month t <= 8) /\
  (season = "Fall" <-> 9 <= dt_month t <= 11).
Proof.
  month_cases t; cbv zeta; cbn;
    repeat split; intros; try lia; try discriminate; auto.
Qed.

(** X4.  The weekend test of the stage, day of week 5 or 6, holds exactly
    of the timestamps whose day name is Saturday or Sunday. *)
Theorem weekend_day_names (t : Z) :
  (dt_dayofweek t =? 5) || (dt_dayofweek t =? 6) = true <->
  dt_day_name t = "Saturday" \/ dt_day_name t = "Sunday".
Proof.
  unfold dt_day_name.
  weekday_cases t; cbn; split; intros H; try discriminate; auto;
    destruct H; discriminate.
Qed.

(** The date of a day of a year of a cycle. *)
Lemma civil_of_year_day era y doy :
  0 <= y < 400 ->
  0 <= doy <= 364 + (if is_leap_year (y + 1) then 1 else 0) ->
  civil_from_days (year_start y + doy - 719468 + era * 146097)
  = (if fst (month_day doy) <=? 2 then y + era * 400 + 1
     else y + era * 400,
     fst (month_day doy), snd (month_day doy)).
Proof.
  intros Hy Hd.
  destruct (year_facts Hy) as (A & B & _).
  assert (L : year_start y + doy <= year_last y) by (unfold year_last; lia).
  assert (R : 0 <= year_start y + doy < 146097) by lia.
  rewrite (civil_from_days_parts era R). cbv zeta.
  rewrite (@year_of_day (year_start y + doy) y Hy) by lia.
  replace (year_start y + doy - year_start y) with doy by ring.
  reflexivity.
Qed.

(** The day of the month of a day of a year is a day of that month. *)
Lemma year_day_in_month era y doy :
  0 <= y < 400 ->
  0 <= doy <= 364 + (if is_leap_year (y + 1) then 1 else 0) ->
  snd (month_day doy)
  <= days_in_month (if fst (month_day doy) <=? 2 then y + era * 400 + 1
                    else y + era * 400)
                   (fst (month_day doy)).
Proof.
  intros Hy Hd.
  pose proof (civil_from_days_valid
                (year_start y + doy - 719468 + era * 146097)) as V.
  rewrite (civil_of_year_day era Hy Hd) in V. cbn [fst snd] in V.
  cbv zeta in V. lia.
Qed.

(** What [next_ok] says. *)
Lemma next_facts doy :
  0 <= doy < 365 ->
  let m := fst (month_day doy) in
  let d := snd (month_day doy) in
  let m' := fst (month_day (doy + 1)) in
  let d' := snd (month_day (doy + 1)) in
  (m' = m /\ d' = d + 1)
  \/ (d' = 1 /\ d = days_in_month 1 m /\ m <> 2 /\
      m' = (if m <? 12 then m + 1 else 1)).
Proof.
  intros H. pose proof (nexts_ok H) as C. unfold next_ok in C.
  destruct (month_day doy) as [m d].
  destruct (month_day (doy + 1)) as [m' d']. cbn [fst snd].
  apply orb_true_iff in C. destruct C as [C|C].
  - left. apply andb_true_iff in C. destruct C as [C1 C2].
    apply Z.eqb_eq in C1, C2. auto.
  - right. rewrite !andb_true_iff in C. destruct C as (((C1 & C2) & C3) & C4).
    apply Z.eqb_eq in C1, C2, C4. apply negb_true_iff in C3.
    apply Z.eqb_neq in C3. auto.
Qed.

(** The date of the day after a day. *)
Lemma civil_from_days_next z :
  civil_from_days (z + 1)
  = next_date (fst (fst (civil_from_days z))) (snd (fst (civil_from_days z)))
              (snd (civil_from_days z)).
Proof.
  destruct (day_in_year z) as (era & y & doy & Hy & Hd & -> & _ & E).
  rewrite E. cbn [fst snd]. clear E.
  destruct (Z_lt_ge_dec doy (364 + (if is_leap_year (y + 1) then 1 else 0)))
    as [Lt|Ge].
  - (* the next day is a day of the same year *)
    replace (year_start y + doy - 719468 + era * 146097 + 1)
      with (year_start y + (doy + 1) - 719468 + era * 146097) by ring.
    assert (Hd' : 0 <= doy + 1
                  <= 364 + (if is_leap_year (y + 1) then 1 else 0)) by lia.
    rewrite (civil_of_year_day era Hy Hd').
    pose proof (year_day_in_month era Hy Hd') as B.
    assert (R : 0 <= doy < 365)
      by (destruct (is_leap_year (y + 1)); lia).
    destruct (@day_facts doy ltac:(lia)) as (M & _).
    destruct (next_facts R) as [(Em & Ed)|(Ed & Last & N2 & Em)].
    + rewrite Em, Ed in *. unfold next_date.
      destruct (Z.ltb_spec (snd (month_day doy))
                  (days_in_month
                     (if fst (month_day doy) <=? 2 then y + era * 400 + 1
                      else y + era * 400) (fst (month_day doy))));
        [reflexivity|lia].
    + rewrite Em, Ed. unfold next_date.
      rewrite (days_in_month_other _ N2), Last, Z.ltb_irrefl.
      set (m := fst (month_day doy)) in *.
      destruct (Z.ltb_spec m 12) as [L12|G12].
      * destruct (Z.leb_spec m 2); destruct (Z.leb_spec (m + 1) 2);
          try reflexivity; lia.
      * assert (m = 12) as -> by lia. reflexivity.
  - (* the next day is the first of the next year *)
    assert (Ed : doy = 364 + (if is_leap_year (y + 1) then 1 else 0)) by lia.
    assert (Md : month_day doy
                 = (2, 28 + (if is_leap_year (y + 1) then 1 else 0)))
      by (rewrite Ed; destruct (is_leap_year (y + 1)); reflexivity).
    rewrite Md. cbn [fst snd]. change (2 <=? 2) with true. cbv iota.
    unfold next_date. rewrite days_in_february.
    replace (y + era * 400 + 1) with (y + 1 + 400 * era) by ring.
    rewrite is_leap_year_shift, Z.ltb_irrefl. change (2 <? 12) with true.
    cbv iota. change (2 + 1) with 3.
    destruct (year_facts Hy) as (_ & _ & _ & _ & L399 & Lnext).
    assert (Yl : year_start y + doy = year_last y)
      by (unfold year_last; lia).
    destruct (Z.eq_dec y 399) as [E399|N399].
    + specialize (L399 E399). subst y.
      replace (year_start 399 + doy - 719468 + era * 146097 + 1)
        with (year_start 0 + 0 - 719468 + (era + 1) * 146097)
        by (change (year_start 0) with 0; lia).
      rewrite (@civil_of_year_day (era + 1) 0 0) by (vm_compute; intuition discriminate).
      change (month_day 0) with (3, 1). cbn [fst snd].
      change (3 <=? 2) with false. cbv iota. f_equal. f_equal. ring.
    + specialize (Lnext N399).
      replace (year_start y + doy - 719468 + era * 146097 + 1)
        with (year_start (y + 1) + 0 - 719468 + era * 146097) by lia.
      rewrite (@civil_of_year_day era (y + 1) 0);
        [|lia|destruct (is_leap_year (y + 1 + 1)); lia].
      change (month_day 0) with (3, 1). cbn [fst snd].
      change (3 <=? 2) with false. cbv iota. f_equal. f_equal. ring.
Qed.

Lemma days_of_ns_next t : days_of_ns (t + ns_per_day) = days_of_ns t + 1.
Proof.
  unfold days_of_ns.
  replace (t + ns_per_day) with (t + 1 * ns_per_day) by ring.
  apply Z.div_add. vm_compute. discriminate.
Qed.

(** X5.  A day later the date is the next date of the calendar: the next
    day of the month, or the first of the next month after the last day of
    a month, February having 29 days in leap years; so a timestamp is
    flagged as a month end exactly when the timestamp a day later is
    flagged as a month start. *)
Theorem dt_next_day (t : Z) :
  (dt_year (t + ns_per_day), dt_month (t + ns_per_day),
   dt_day (t + ns_per_day))
  = next_date (dt_year t) (dt_month t) (dt_day t) /\
  ((dt_day t =? days_in_month (dt_year t) (dt_month t)) = true <->
   (dt_day (t + ns_per_day) =? 1) = true).
Proof.
  assert (N : (dt_year (t + ns_per_day), dt_month (t + ns_per_day),
               dt_day (t + ns_per_day))
              = next_date (dt_year t) (dt_month t) (dt_day t)).
  { unfold dt_year, dt_month, dt_day. rewrite days_of_ns_next.
    rewrite civil_from_days_next.
    destruct (next_date _ _ _) as [[y m] d]. reflexivity. }
  split; [exact N|].
  destruct (dt_fields_range t) as (M & D).
  unfold next_date in N.
  rewrite Z.eqb_eq, Z.eqb_eq.
  destruct (Z.ltb_spec (dt_day t) (days_in_month (dt_year t) (dt_month t)))
    as [L|L].
  - injection N as _ _ N. lia.
  - destruct (dt_month t <? 12); injection N as _ _ N; lia.
Qed.

(* ===================================================================== *)
(** * More on stage 1 *)
(* ===================================================================== *)

Lemma series_square_num_at (a c : Series) (i : nat) :
  series_square a = Ok c ->
  num_at c i = option_map (fun x => n_mul x x) (num_at a i).
Proof.
  unfold series_square, num_at.
  destruct a as [x|x| | |]; simpl; try discriminate; intros [= <-]; simpl;
    rewrite ?nth_error_map; case_nth; reflexivity.
Qed.

(** Block 6 on a frame that has its input. *)
Lemma derive_age_squared_value df df' a :
  lookup "age" (columns df) = Some a ->
  derive_age_squared df = Ok df' ->
  exists v, series_square a = Ok v /\
            lookup "age_squared" (columns df') = Some v.
Proof.
  intros Ha. unfold derive_age_squared, getitem.
  rewrite (lookup_has_col _ _ Ha), Ha.
  cbn [bind]. intros H. repeat inv_bind H. injection H as <-.
  eexists. split; [reflexivity|]. rewrite lookup_setitem. reflexivity.
Qed.

Ltac stage1_steps Hrun :=
  destruct (derive_computed_columns_steps _ Hrun)
    as (d1 & d2 & d3 & d4 & d5 & d6 & R1 & R2 & R3 & R4 & R5 & R6 & R7);
  pose proof (derive_total_cost_sets _ R1) as S1;
  pose proof (derive_discount_amount_sets _ R2) as S2;
  pose proof (derive_final_price_sets _ R3) as S3;
  pose proof (derive_price_per_rating_sets _ R4) as S4;
  pose proof (derive_income_purchase_ratio_sets _ R5) as S5;
  pose proof (derive_age_squared_sets _ R6) as S6;
  pose proof (derive_spending_power_index_sets _ R7) as S7.

(** X6.  Whenever stage 1 returns, a column it does not write is in the
    output what it was in the input. *)
Theorem derive_keeps_other_columns (df df' : DataFrame) (c : string) :
  ~ In c stage1_targets ->
  derive_computed_columns df = Ok df' ->
  lookup c (columns df') = lookup c (columns df).
Proof.
  intros N Hrun. stage1_steps Hrun.
  assert (forall t, In t stage1_targets -> c <> t) as D
    by (intros t I ->; exact (N I)).
  repeat match goal with
  | S : sets_only ?t ?d ?d' |- context [lookup c (columns ?d')] =>
      rewrite (@sets_only_lookup t c d d' S)
        by (apply D; unfold stage1_targets; simpl; tauto)
  end.
  reflexivity.
Qed.

(** X7.  The other derived columns, row by row, whenever stage 1 returns:
    discount_amount is [round(p * d / 100, 2)], income_purchase_ratio is
    [round(p / c * 100, 2)], age_squared is [a * a] and
    spending_power_index is [round(c / 1000 / a, 2)] for the purchase
    amount [p], the discount percent [d], the income [c] and the age [a] of
    the row; price_per_rating is [round(f / r, 2)] for the final price [f]
    the stage leaves in the row and the rating [r]. *)
Theorem derive_other_columns_rows (df df' : DataFrame) (i : nat) :
  derive_computed_columns df = Ok df' ->
  (forall pa dp p d,
     lookup "purchase_amount" (columns df) = Some pa ->
     lookup "discount_percent" (columns df) = Some dp ->
     num_at pa i = Some p -> num_at dp i = Some d ->
     exists v, lookup "discount_amount" (columns df') = Some v /\
               num_at v i
               = Some (n_round 2 (n_truediv (n_mul p d) (NInt 100)))) /\
  (forall pa inc p c,
     lookup "purchase_amount" (columns df) = Some pa ->
     lookup "income" (columns df) = Some inc ->
     num_at pa i = Some p -> num_at inc i = Some c ->
     exists v, lookup "income_purchase_ratio" (columns df') = Some v /\
               num_at v i
               = Some (n_round 2 (n_mul (n_truediv p c) (NInt 100)))) /\
  (forall age a,
     lookup "age" (columns df) = Some age ->
     num_at age i = Some a ->
     exists v, lookup "age_squared" (columns df') = Some v /\
               num_at v i = Some (n_mul a a)) /\
  (forall inc age c a,
     lookup "income" (columns df) = Some inc ->
     lookup "age" (columns df) = Some age ->
     num_at inc i = Some c -> num_at age i = Some a ->
     exists v, lookup "spending_power_index" (columns df') = Some v /\
               num_at v i
               = Some (n_round 2 (n_truediv (n_truediv c (NInt 1000)) a))) /\
  (forall fp rating f r,
     lookup "final_price" (columns df') = Some fp ->
     lookup "rating" (columns df) = Some rating ->
     num_at fp i = Some f -> num_at rating i = Some r ->
     exists v, lookup "price_per_rating" (columns df') = Some v /\
               num_at v i = Some (n_round 2 (n_truediv f r))).
Proof.
  intros Hrun. stage1_steps Hrun.
  split; [|split; [|split; [|split]]].
  - intros pa dp p d Hpa Hdp Hp Hd.
    assert (Hpa1 : lookup "purchase_amount" (columns d1) = Some pa)
      by (frame_lookup; exact Hpa).
    assert (Hdp1 : lookup "discount_percent" (columns d1) = Some dp)
      by (frame_lookup; exact Hdp).
    destruct (derive_discount_amount_value _ Hpa1 Hdp1 R2)
      as (m & q & v & Am & Aq & Av & Lv).
    exists v. split; [frame_lookup; exact Lv|].
    rewrite (series_round_num_at _ _ i Av).
    rewrite (series_truediv_scalar_num_at _ _ i Aq).
    rewrite (series_arith_num_at _ _ _ _ i Am), Hp, Hd. reflexivity.
  - intros pa inc p c Hpa Hinc Hp Hc.
    assert (Hpa4 : lookup "purchase_amount" (columns d4) = Some pa)
      by (frame_lookup; exact Hpa).
    assert (Hinc4 : lookup "income" (columns d4) = Some inc)
      by (frame_lookup; exact Hinc).
    destruct (derive_income_purchase_ratio_value _ Hpa4 Hinc4 R5)
      as (q & m & v & Aq & Am & Av & Lv).
    exists v. split; [frame_lookup; exact Lv|].
    rewrite (series_round_num_at _ _ i Av).
    rewrite (series_mul_scalar_num_at _ _ i Am).
    rewrite (series_truediv_num_at _ _ i Aq), Hp, Hc. reflexivity.
  - intros age a Hage Ha.
    assert (Hage5 : lookup "age" (columns d5) = Some age)
      by (frame_lookup; exact Hage).
    destruct (derive_age_squared_value _ Hage5 R6) as (v & Av & Lv).
    exists v. split; [frame_lookup; exact Lv|].
    rewrite (series_square_num_at _ i Av), Ha. reflexivity.
  - intros inc age c a Hinc Hage Hc Ha.
    assert (Hinc6 : lookup "income" (columns d6) = Some inc)
      by (frame_lookup; exact Hinc).
    assert (Hage6 : lookup "age" (columns d6) = Some age)
      by (frame_lookup; exact Hage).
    destruct (derive_spending_power_index_value _ Hinc6 Hage6 R7)
      as (k & q & v & Ak & Aq & Av & Lv).
    exists v. split; [exact Lv|].
    rewrite (series_round_num_at _ _ i Av).
    rewrite (series_truediv_num_at _ _ i Aq).
    rewrite (series_truediv_scalar_num_at _ _ i Ak), Hc, Ha. reflexivity.
  - intros fp rating f r Hfp Hr Hf Hrt.
    assert (Hfp3 : lookup "final_price" (columns d3) = Some fp)
      by (frame_lookup_in Hfp; exact Hfp).
    assert (Hr3 : lookup "rating" (columns d3) = Some rating)
      by (frame_lookup; exact Hr).
    destruct (derive_price_per_rating_value _ Hfp3 Hr3 R4)
      as (q & v & Aq & Av & Lv).
    exists v. split; [frame_lookup; exact Lv|].
    rewrite (series_round_num_at _ _ i Av).
    rewrite (series_truediv_num_at _ _ i Aq), Hf, Hrt. reflexivity.
Qed.

(* ===================================================================== *)
(** * Blocks that are run twice *)
(* ===================================================================== *)

Lemma replace_replace c v w (l : list (string * Series)) :
  map (fun ns => if String.eqb c (fst ns) then (fst ns, w) else ns)
      (map (fun ns => if String.eqb c (fst ns) then (fst ns, v) else ns) l)
  = map (fun ns => if String.eqb c (fst ns) then (fst ns, w) else ns) l.
Proof.
  rewrite map_map. apply map_ext. intros [n s]. simpl.
  destruct (String.eqb c n) eqn:E; simpl; rewrite E; reflexivity.
Qed.

Lemma has_col_setitem df c c' v :
  has_col (setitem df c' v) c = String.eqb c c' || has_col df c.
Proof.
  rewrite !has_col_lookup, lookup_setitem.
  destruct (String.eqb c c'); reflexivity.
Qed.

Lemma replace_absent c w (l : list (string * Series)) :
  ~ In c (map fst l) ->
  map (fun ns => if String.eqb c (fst ns) then (fst ns, w) else ns) l = l.
Proof.
  induction l as [|[n s] l IH]; simpl; intros N; [reflexivity|].
  destruct (String.eqb_spec c n) as [->|Hne]; [tauto|].
  rewrite IH by tauto. reflexivity.
Qed.

Lemma has_col_false df c : has_col df c = false -> ~ In c (names df).
Proof.
  unfold has_col. intros H I. apply mem_string_In in I. congruence.
Qed.

Lemma setitem_setitem df c v w :
  setitem (setitem df c v) c w = setitem df c w.
Proof.
  unfold setitem at 1. rewrite has_col_setitem, String.eqb_refl. simpl.
  rewrite nrows_setitem. unfold setitem.
  destruct (has_col df c) eqn:E; simpl; [rewrite replace_replace; reflexivity|].
  rewrite map_app. simpl. rewrite String.eqb_refl.
  rewrite replace_absent by (apply has_col_false, E). reflexivity.
Qed.

(** Setting a column that holds the value already, after another column
    has been set. *)
Lemma setitem_fixed_after df c v dst w :
  c <> dst -> setitem df dst w = df ->
  setitem (setitem df c v) dst w = setitem df c v.
Proof.
  intros Hne F.
  assert (Hd : has_col df dst = true).
  { destruct (has_col df dst) eqn:E; [reflexivity|].
    apply (f_equal (fun d => length (columns d))) in F.
    unfold setitem in F. rewrite E in F. simpl in F.
    rewrite length_app in F. simpl in F. lia. }
  assert (M : map (fun ns => if String.eqb dst (fst ns) then (fst ns, w)
                             else ns) (columns df) = columns df).
  { apply (f_equal columns) in F. unfold setitem in F. rewrite Hd in F.
    exact F. }
  unfold setitem at 1.
  rewrite has_col_setitem, Hd, orb_true_r, nrows_setitem.
  unfold setitem. destruct (has_col df c) eqn:Ec; simpl.
  - f_equal. rewrite map_map.
    rewrite <- M at 2. rewrite map_map. apply map_ext. intros [n s]. simpl.
    destruct (String.eqb_spec c n) as [->|N1];
      destruct (String.eqb_spec dst n) as [->|N2]; simpl;
      rewrite ?String.eqb_refl; try congruence.
    + destruct (String.eqb_spec dst n); congruence.
    + destruct (String.eqb_spec c n); congruence.
    + destruct (String.eqb_spec dst n); [congruence|].
      destruct (String.eqb_spec c n); congruence.
  - f_equal. rewrite map_app. simpl.
    destruct (String.eqb_spec dst c); [congruence|].
    rewrite M. reflexivity.
Qed.

Section Blocks.

Variable srcs : list string.
Variable guard : DataFrame -> bool.
Variable value : DataFrame -> result Series.
Variable dst : string.

Hypothesis guard_reads : reads_only srcs guard.
Hypothesis value_reads : reads_only srcs value.
Hypothesis dst_fresh : ~ In dst srcs.

Lemma srcs_after_setitem d c v :
  ~ In c srcs ->
  forall s, In s srcs ->
            lookup s (columns d) = lookup s (columns (setitem d c v)).
Proof.
  intros N s I. rewrite lookup_setitem.
  destruct (String.eqb_spec s c) as [->|]; [contradiction|reflexivity].
Qed.

(** A block that has run changes nothing when it is run again. *)
Lemma block_again d d' :
  block guard value dst d = Ok d' -> block guard value dst d' = Ok d'.
Proof.
  unfold block. destruct (guard d) eqn:G.
  - destruct (value d) as [v|] eqn:V; cbn [bind]; [|discriminate].
    intros [= <-].
    rewrite <- (guard_reads d (setitem d dst v) (@srcs_after_setitem d dst v dst_fresh)), G.
    rewrite <- (value_reads d (setitem d dst v) (@srcs_after_setitem d dst v dst_fresh)), V.
    cbn [bind]. rewrite setitem_setitem. reflexivity.
  - intros [= <-]. rewrite G. reflexivity.
Qed.

(** A block that changes nothing still changes nothing after a column it
    neither reads nor writes has been set. *)
Lemma block_fixed_after d d' c :
  sets_only c d d' -> ~ In c srcs -> c <> dst ->
  block guard value dst d = Ok d -> block guard value dst d' = Ok d'.
Proof.
  intros [->|[v ->]] N Hne F; [exact F|].
  unfold block in *.
  rewrite <- (guard_reads d (setitem d c v) (@srcs_after_setitem d c v N)).
  rewrite <- (value_reads d (setitem d c v) (@srcs_after_setitem d c v N)).
  destruct (guard d); [|reflexivity].
  destruct (value d) as [w|]; cbn [bind] in *; [|discriminate].
  injection F as F. rewrite setitem_fixed_after; auto.
Qed.

End Blocks.

Lemma is_block_again srcs dst step d d' :
  is_block srcs dst step -> ~ In dst srcs ->
  step d = Ok d' -> step d' = Ok d'.
Proof.
  intros (guard & value & G & V & E) N. rewrite !E.
  eapply block_again; eauto.
Qed.

Lemma is_block_fixed_after srcs dst step c d d' :
  is_block srcs dst step -> sets_only c d d' ->
  ~ In c (dst :: srcs) -> step d = Ok d -> step d' = Ok d'.
Proof.
  intros (guard & value & G & V & E) S N. rewrite !E.
  eapply block_fixed_after; eauto; simpl in N; intuition congruence.
Qed.

Lemma is_block_sets srcs dst step d d' :
  is_block srcs dst step -> step d = Ok d' -> sets_only dst d d'.
Proof.
  intros (guard & value & _ & _ & E). rewrite E. unfold block.
  destruct (guard d); [|intros [= <-]; left; reflexivity].
  destruct (value d); cbn [bind]; [|discriminate].
  intros [= <-]. right. eexists. reflexivity.
Qed.

Ltac reads_tac :=
  let d := fresh "d" in
  let d' := fresh "d'" in
  let H := fresh "H" in
  intros d d' H; unfold getitem; rewrite ?has_col_lookup;
  repeat match goal with
  | |- context [lookup ?c (columns d)] =>
      rewrite (H c) by (simpl; tauto)
  end;
  reflexivity.

Ltac split_binds :=
  repeat match goal with
  | |- context [bind ?r _] =>
      lazymatch r with
      | bind _ _ => fail
      | _ => destruct r; cbn [bind]
      end
  end.

Ltac block_form :=
  let df := fresh "df" in
  intros df; unfold block;
  match goal with
  | |- (if ?b then _ else _) = _ => destruct b; [|reflexivity]
  end;
  split_binds; reflexivity.

Lemma derive_total_cost_block :
  is_block ["purchase_amount"; "shipping_cost"] "total_cost"
           derive_total_cost.
Proof.
  exists (fun d => has_col d "purchase_amount" && has_col d "shipping_cost"),
         (fun d => do pa <- getitem d "purchase_amount";
                   do sc <- getitem d "shipping_cost";
                   series_add pa sc).
  split; [reads_tac|]. split; [reads_tac|].
  unfold derive_total_cost. block_form.
Qed.

Lemma derive_discount_amount_block :
  is_block ["purchase_amount"; "discount_percent"] "discount_amount"
           derive_discount_amount.
Proof.
  exists (fun d => has_col d "purchase_amount"
                   && has_col d "discount_percent"),
         (fun d => do pa <- getitem d "purchase_amount";
                   do dp <- getitem d "discount_percent";
                   do p <- series_mul pa dp;
                   do q <- series_truediv_scalar p 100;
                   series_round 2 q).
  split; [reads_tac|]. split; [reads_tac|].
  unfold derive_discount_amount. block_form.
Qed.

Lemma derive_final_price_block :
  is_block ["total_cost"; "discount_amount"] "final_price"
           derive_final_price.
Proof.
  exists (fun d => has_col d "total_cost" && has_col d "discount_amount"),
         (fun d => do tc <- getitem d "total_cost";
                   do da <- getitem d "discount_amount";
                   do x <- series_sub tc da;
                   series_round 2 x).
  split; [reads_tac|]. split; [reads_tac|].
  unfold derive_final_price. block_form.
Qed.

Lemma derive_price_per_rating_block :
  is_block ["final_price"; "rating"] "price_per_rating"
           derive_price_per_rating.
Proof.
  exists (fun d => has_col d "final_price" && has_col d "rating"),
         (fun d => do fp <- getitem d "final_price";
                   do r <- getitem d "rating";
                   do q <- series_truediv fp r;
                   series_round 2 q).
  split; [reads_tac|]. split; [reads_tac|].
  unfold derive_price_per_rating. block_form.
Qed.

Lemma derive_income_purchase_ratio_block :
  is_block ["income"; "purchase_amount"] "income_purchase_ratio"
           derive_income_purchase_ratio.
Proof.
  exists (fun d => has_col d "income" && has_col d "purchase_amount"),
         (fun d => do pa <- getitem d "purchase_amount";
                   do inc <- getitem d "income";
                   do q <- series_truediv pa inc;
                   do p <- series_mul_scalar q 100;
                   series_round 2 p).
  split; [reads_tac|]. split; [reads_tac|].
  unfold derive_income_purchase_ratio. block_form.
Qed.

Lemma derive_age_squared_block :
  is_block ["age"] "age_squared" derive_age_squared.
Proof.
  exists (fun d => has_col d "age"),
         (fun d => do a <- getitem d "age"; series_square a).
  split; [reads_tac|]. split; [reads_tac|].
  unfold derive_age_squared. block_form.
Qed.

Lemma derive_spending_power_index_block :
  is_block ["income"; "age"] "spending_power_index"
           derive_spending_power_index.
Proof.
  exists (fun d => has_col d "income" && has_col d "age"),
         (fun d => do inc <- getitem d "income";
                   do a <- getitem d "age";
                   do k <- series_truediv_scalar inc 1000;
                   do q <- series_truediv k a;
                   series_round 2 q).
  split; [reads_tac|]. split; [reads_tac|].
  unfold derive_spending_power_index. block_form.
Qed.

Ltac not_among := simpl; intuition discriminate.

Ltac again B R F :=
  pose proof (@is_block_again _ _ _ _ _ B ltac:(not_among) R) as F.

Ltac push B F S :=
  let F' := fresh "F" in
  pose proof (@is_block_fixed_after _ _ _ _ _ _ B S ltac:(not_among) F)
    as F';
  clear F; rename F' into F.

(** X8.  Stage 1 run on its own output changes nothing: every block finds
    the inputs it found the first time and writes the value that is there
    already. *)
Theorem derive_computed_columns_idempotent (df df' : DataFrame) :
  derive_computed_columns df = Ok df' ->
  derive_computed_columns df' = Ok df'.
Proof.
  intros Hrun. stage1_steps Hrun.
  again derive_total_cost_block R1 F1.
  push derive_total_cost_block F1 S2. push derive_total_cost_block F1 S3.
  push derive_total_cost_block F1 S4. push derive_total_cost_block F1 S5.
  push derive_total_cost_block F1 S6. push derive_total_cost_block F1 S7.
  again derive_discount_amount_block R2 F2.
  push derive_discount_amount_block F2 S3.
  push derive_discount_amount_block F2 S4.
  push derive_discount_amount_block F2 S5.
  push derive_discount_amount_block F2 S6.
  push derive_discount_amount_block F2 S7.
  again derive_final_price_block R3 F3.
  push derive_final_price_block F3 S4. push derive_final_price_block F3 S5.
  push derive_final_price_block F3 S6. push derive_final_price_block F3 S7.
  again derive_price_per_rating_block R4 F4.
  push derive_price_per_rating_block F4 S5.
  push derive_price_per_rating_block F4 S6.
  push derive_price_per_rating_block F4 S7.
  again derive_income_purchase_ratio_block R5 F5.
  push derive_income_purchase_ratio_block F5 S6.
  push derive_income_purchase_ratio_block F5 S7.
  again derive_age_squared_block R6 F6.
  push derive_age_squared_block F6 S7.
  again derive_spending_power_index_block R7 F7.
  unfold derive_computed_columns.
  rewrite F1; cbn [bind]. rewrite F2; cbn [bind]. rewrite F3; cbn [bind].
  rewrite F4; cbn [bind]. rewrite F5; cbn [bind]. rewrite F6; cbn [bind].
  rewrite F7; cbn [bind]. reflexivity.
Qed.

(* ===================================================================== *)
(** * More on stage 3 *)
(* ===================================================================== *)

Lemma bin_column_block src dst f : is_block [src] dst (bin_column src dst f).
Proof.
  exists (fun d => has_col d src), (fun d => do s <- getitem d src; f s).
  split; [reads_tac|]. split; [reads_tac|].
  unfold bin_column. block_form.
Qed.

Lemma bin_numeric_ranges_steps df df' :
  bin_numeric_ranges df = Ok df' ->
  exists d1 d2 d3 d4 d5 d6,
    bin_column "age" "age_group"
      (fun s => cut s age_bins age_labels true) df = Ok d1 /\
    bin_column "income" "income_bracket"
      (fun s => cut s income_bins income_labels false) d1 = Ok d2 /\
    bin_column "purchase_amount" "purchase_category"
      (fun s => cut s purchase_bins purchase_labels false) d2 = Ok d3 /\
    bin_column "rating" "rating_category"
      (fun s => cut s rating_bins rating_labels true) d3 = Ok d4 /\
    bin_column "discount_percent" "discount_tier"
      (fun s => cut s discount_bins discount_labels true) d4 = Ok d5 /\
    bin_column "final_price" "price_quartile"
      (fun s => qcut4 s quartile_labels) d5 = Ok d6 /\
    bin_column "income_purchase_ratio" "spending_ratio_bin"
      (fun s => cut_equal_width s 5) d6 = Ok df'.
Proof.
  unfold bin_numeric_ranges. intros H.
  repeat inv_bind H. injection H as <-.
  do 6 eexists. repeat split; eassumption.
Qed.

Ltac stage3_steps Hrun :=
  destruct (bin_numeric_ranges_steps _ Hrun)
    as (d1 & d2 & d3 & d4 & d5 & d6 & R1 & R2 & R3 & R4 & R5 & R6 & R7);
  pose proof (@is_block_sets _ _ _ _ _ (bin_column_block _ _ _) R1) as S1;
  pose proof (@is_block_sets _ _ _ _ _ (bin_column_block _ _ _) R2) as S2;
  pose proof (@is_block_sets _ _ _ _ _ (bin_column_block _ _ _) R3) as S3;
  pose proof (@is_block_sets _ _ _ _ _ (bin_column_block _ _ _) R4) as S4;
  pose proof (@is_block_sets _ _ _ _ _ (bin_column_block _ _ _) R5) as S5;
  pose proof (@is_block_sets _ _ _ _ _ (bin_column_block _ _ _) R6) as S6;
  pose proof (@is_block_sets _ _ _ _ _ (bin_column_block _ _ _) R7) as S7.

Ltac again3 R F :=
  match type of R with
  | ?step ?d = Ok ?d' =>
      assert (F : step d' = Ok d')
        by (eapply (@is_block_again _ _ step d d');
            [apply bin_column_block|not_among|exact R])
  end.

Ltac push3 F S :=
  match type of S with
  | sets_only ?c ?d ?d' =>
      match type of F with
      | ?step d = Ok d =>
          let F' := fresh "F" in
          assert (F' : step d' = Ok d')
            by (eapply (@is_block_fixed_after _ _ step c d d');
                [apply bin_column_block|exact S|not_among|exact F]);
          clear F; rename F' into F
      end
  end.

(** X9.  The binner run on its own output changes nothing. *)
Theorem bin_numeric_ranges_idempotent (df df' : DataFrame) :
  bin_numeric_ranges df = Ok df' -> bin_numeric_ranges df' = Ok df'.
Proof.
  intros Hrun. stage3_steps Hrun.
  again3 R1 F1. push3 F1 S2. push3 F1 S3. push3 F1 S4. push3 F1 S5.
  push3 F1 S6. push3 F1 S7.
  again3 R2 F2. push3 F2 S3. push3 F2 S4. push3 F2 S5. push3 F2 S6.
  push3 F2 S7.
  again3 R3 F3. push3 F3 S4. push3 F3 S5. push3 F3 S6. push3 F3 S7.
  again3 R4 F4. push3 F4 S5. push3 F4 S6. push3 F4 S7.
  again3 R5 F5. push3 F5 S6. push3 F5 S7.
  again3 R6 F6. push3 F6 S7.
  again3 R7 F7.
  unfold bin_numeric_ranges.
  rewrite F1; cbn [bind]. rewrite F2; cbn [bind]. rewrite F3; cbn [bind].
  rewrite F4; cbn [bind]. rewrite F5; cbn [bind]. rewrite F6; cbn [bind].
  rewrite F7; cbn [bind]. reflexivity.
Qed.

Lemma bin_column_value src dst f d d' s :
  lookup src (columns d) = Some s ->
  bin_column src dst f d = Ok d' ->
  exists v, f s = Ok v /\ lookup dst (columns d') = Some v.
Proof.
  intros L. unfold bin_column, getitem.
  rewrite (lookup_has_col _ _ L), L. cbn [bind].
  destruct (f s) as [v|]; cbn [bind]; [|discriminate].
  intros [= <-]. exists v. split; [reflexivity|].
  rewrite lookup_setitem, String.eqb_refl. reflexivity.
Qed.

(** [_bins_to_cuts] with edges and labels that pass its checks. *)
Lemma bins_to_cuts_checked x bins labels lowest :
  unique_nums bins = bins ->
  length (unique_strings labels) = length labels ->
  length labels = (length bins - 1)%nat ->
  bins_to_cuts x bins labels lowest false
  = Ok (map (fun v => match bin_code bins lowest v with
                      | Some k => option_map LStr (nth_error labels k)
                      | None => None
                      end) x).
Proof.
  intros U L1 L2. unfold bins_to_cuts.
  rewrite U, Nat.ltb_irrefl. cbn [andb bind].
  rewrite L1, L2, !Nat.eqb_refl. reflexivity.
Qed.

Lemma age_code (a : Z) :
  bin_code age_bins true (NInt a)
  = if (a <? 0) || (100 <? a) then None
    else if a <=? 25 then Some 0%nat
    else if a <=? 35 then Some 1%nat
    else if a <=? 50 then Some 2%nat
    else if a <=? 65 then Some 3%nat
    else Some 4%nat.
Proof.
  unfold bin_code, searchsorted_left, age_bins. cbn -[Z.ltb Z.leb Z.eqb].
  repeat match goal with
  | |- context [?x <? ?y] => destruct (Z.ltb_spec x y)
  | |- context [?x <=? ?y] => destruct (Z.leb_spec x y)
  | |- context [?x =? ?y] => destruct (Z.eqb_spec x y)
  end; cbn; try reflexivity; try lia.
Qed.

(** X10.  The age groups of whole-number ages, whenever the binner returns:
    0 to 25 is "18-25", 26 to 35 is "26-35", 36 to 50 is "36-50", 51 to 65
    is "51-65", 66 to 100 is "65+", and an age below 0 or above 100 has no
    group. *)
Theorem age_group_table (df df' : DataFrame) (l : list Z) :
  lookup "age" (columns df) = Some (SInt l) ->
  bin_numeric_ranges df = Ok df' ->
  exists g,
    lookup "age_group" (columns df') = Some (SCat g) /\
    forall i a, nth_error l i = Some a ->
      (0 <= a <= 25 -> nth_error g i = Some (Some (LStr "18-25"))) /\
      (25 < a <= 35 -> nth_error g i = Some (Some (LStr "26-35"))) /\
      (35 < a <= 50 -> nth_error g i = Some (Some (LStr "36-50"))) /\
      (50 < a <= 65 -> nth_error g i = Some (Some (LStr "51-65"))) /\
      (65 < a <= 100 -> nth_error g i = Some (Some (LStr "65+"))) /\
      (a < 0 \/ 100 < a -> nth_error g i = Some None).
Proof.
  intros L Hrun. stage3_steps Hrun.
  destruct (@bin_column_value _ _ _ _ _ _ L R1) as (v & C & Lv).
  unfold cut in C. cbn [nums] in C.
  rewrite bins_to_cuts_checked in C by reflexivity.
  cbn [bind] in C. injection C as <-.
  eexists. split.
  { frame_lookup. exact Lv. }
  intros i a Ha. rewrite map_map, nth_error_map, Ha. cbn [option_map].
  rewrite age_code.
  repeat split; intros R;
    repeat match goal with
    | |- context [?x <? ?y] => destruct (Z.ltb_spec x y); try lia
    | |- context [?x <=? ?y] => destruct (Z.leb_spec x y); try lia
    end; reflexivity.
Qed.

Lemma bin_code_nan bins lowest x :
  n_is_nan x = true -> bin_code bins lowest x = None.
Proof. intros H. unfold bin_code. rewrite H. reflexivity. Qed.

Lemma cut_nan l bins labels lowest i f :
  unique_nums bins = bins ->
  length (unique_strings labels) = length labels ->
  length labels = (length bins - 1)%nat ->
  nth_error l i = Some f -> B64.is_nan f = true ->
  exists g, cut (SFloat l) bins labels lowest = Ok (SCat g) /\
            nth_error g i = Some None.
Proof.
  intros U L1 L2 Hi N. unfold cut. cbn [nums].
  rewrite bins_to_cuts_checked by assumption. cbn [bind].
  eexists. split; [reflexivity|].
  rewrite map_map, nth_error_map, Hi. cbn [option_map].
  rewrite bin_code_nan by exact N. reflexivity.
Qed.

(** X11.  A missing value (NaN) in age, income, purchase_amount, rating or
    discount_percent gives a missing label in the binned column of that
    row, whenever the binner returns. *)
Theorem missing_value_missing_label
    (df df' : DataFrame) (src dst : string) (l : list float) (i : nat)
    (f : float) :
  In (src, dst) [("age", "age_group"); ("income", "income_bracket");
                 ("purchase_amount", "purchase_category");
                 ("rating", "rating_category");
                 ("discount_percent", "discount_tier")] ->
  lookup src (columns df) = Some (SFloat l) ->
  nth_error l i = Some f -> B64.is_nan f = true ->
  bin_numeric_ranges df = Ok df' ->
  exists g, lookup dst (columns df') = Some (SCat g) /\
            nth_error g i = Some None.
Proof.
  intros I L Hi N Hrun. stage3_steps Hrun.
  simpl in I.
  repeat (destruct I as [I|I]; [injection I as <- <-|]); [..|contradiction].
  - destruct (@bin_column_value _ _ _ _ _ _ L R1) as (v & C & Lv).
    destruct (@cut_nan l age_bins age_labels true i f) as (g & C' & G);
      try assumption; try (vm_compute; reflexivity).
    rewrite C' in C. injection C as <-.
    exists g. split; [frame_lookup; exact Lv|exact G].
  - assert (L1 : lookup "income" (columns d1) = Some (SFloat l))
      by (frame_lookup; exact L).
    destruct (@bin_column_value _ _ _ _ _ _ L1 R2) as (v & C & Lv).
    destruct (@cut_nan l income_bins income_labels false i f)
      as (g & C' & G); try assumption; try (vm_compute; reflexivity).
    rewrite C' in C. injection C as <-.
    exists g. split; [frame_lookup; exact Lv|exact G].
  - assert (L1 : lookup "purchase_amount" (columns d2) = Some (SFloat l))
      by (frame_lookup; exact L).
    destruct (@bin_column_value _ _ _ _ _ _ L1 R3) as (v & C & Lv).
    destruct (@cut_nan l purchase_bins purchase_labels false i f)
      as (g & C' & G); try assumption; try (vm_compute; reflexivity).
    rewrite C' in C. injection C as <-.
    exists g. split; [frame_lookup; exact Lv|exact G].
  - assert (L1 : lookup "rating" (columns d3) = Some (SFloat l))
      by (frame_lookup; exact L).
    destruct (@bin_column_value _ _ _ _ _ _ L1 R4) as (v & C & Lv).
    destruct (@cut_nan l rating_bins rating_labels true i f)
      as (g & C' & G); try assumption; try (vm_compute; reflexivity).
    rewrite C' in C. injection C as <-.
    exists g. split; [frame_lookup; exact Lv|exact G].
  - assert (L1 : lookup "discount_percent" (columns d4) = Some (SFloat l))
      by (frame_lookup; exact L).
    destruct (@bin_column_value _ _ _ _ _ _ L1 R5) as (v & C & Lv).
    destruct (@cut_nan l discount_bins discount_labels true i f)
      as (g & C' & G); try assumption; try (vm_compute; reflexivity).
    rewrite C' in C. injection C as <-.
    exists g. split; [frame_lookup; exact Lv|exact G].
Qed.

(* ===================================================================== *)
(** * More on stage 2 *)
(* ===================================================================== *)

Lemma encode_ordinal_keeps_other c col df df' :
  c <> "education_encoded" ->
  encode_ordinal col df = Ok df' -> keeps c df df'.
Proof.
  unfold encode_ordinal. intros Hc H.
  destruct (has_col df col); [|injection H as <-; apply keeps_refl].
  destruct (String.eqb_spec col "education") as [->|];
    [|injection H as <-; apply keeps_refl].
  inv_bind H. injection H as <-. apply keeps_setitem. exact Hc.
Qed.

Section Encoder.

Variable to_datetime_text : list (option string) -> option (list (option Z)).

Lemma encode_steps df df' :
  encode_categorical_features to_datetime_text df = Ok df' ->
  exists d1 d2,
    for_each encode_ordinal ordinal_features df = Ok d1 /\
    for_each encode_nominal nominal_features d1 = Ok d2 /\
    for_each encode_frequency (categorical_columns to_datetime_text df) d2
    = Ok df'.
Proof.
  unfold encode_categorical_features. intros H.
  repeat inv_bind H. injection H as <-.
  do 2 eexists. repeat split; eassumption.
Qed.

Lemma encode_keeps_before_frequency c df d1 d2 :
  c <> "education_encoded" ->
  for_each encode_ordinal ordinal_features df = Ok d1 ->
  for_each encode_nominal nominal_features d1 = Ok d2 ->
  keeps c df d2.
Proof.
  intros Hc E1 E2. eapply keeps_trans.
  - eapply for_each_keeps; [|exact E1]. intros.
    eapply encode_ordinal_keeps_other; eauto.
  - eapply for_each_keeps; [|exact E2]. intros.
    eapply encode_nominal_keeps; eauto.
Qed.

(** X12.  Whenever the encoder returns, a column of the input that is not
    named education_encoded and whose name does not end in "_freq" is in
    the output what it was in the input. *)
Theorem encode_keeps_other_columns
    (df df' : DataFrame) (c : string) (s : Series) :
  c <> "education_encoded" ->
  endswith c "_freq" = false ->
  lookup c (columns df) = Some s ->
  encode_categorical_features to_datetime_text df = Ok df' ->
  lookup c (columns df') = Some s.
Proof.
  intros Hc Hf L H.
  destruct (encode_steps _ H) as (d1 & d2 & E1 & E2 & E3).
  assert (K : keeps c df df').
  { eapply keeps_trans; [eapply encode_keeps_before_frequency; eauto|].
    eapply for_each_keeps; [|exact E3]. intros.
    eapply encode_frequency_keeps; eauto. }
  apply K, L.
Qed.

Lemma count_cell_text v l :
  count_cell (CStr v) (map (option_map CStr) l) = count_text v l.
Proof.
  unfold count_cell, count_text.
  induction l as [|[u|] l IH]; simpl; auto.
  destruct (String.eqb u v); simpl; auto.
Qed.

Lemma somes_cells_length (l : list (option string)) :
  length (somes (map (option_map CStr) l)) = length (somes l).
Proof. induction l as [|[u|] l IH]; simpl; auto. Qed.

Lemma frequencies_text l v :
  frequencies (SObj l) = Ok v ->
  series_round 4 v = Ok (SFloat (map (text_frequency l) l)).
Proof.
  unfold frequencies. cbn [cells]. intros [= <-]. cbn [series_round].
  f_equal. f_equal. rewrite !map_map. apply map_ext. intros [u|]; simpl.
  - rewrite count_cell_text, somes_cells_length. reflexivity.
  - vm_compute. reflexivity.
Qed.

Section FrequencyOfColumn.

Variable c : string.
Variable l : list (option string).

Hypothesis c_other :
  mem_string c (ordinal_features ++ nominal_features) = false.
Hypothesis c_not_freq : endswith c "_freq" = false.

Let source_there (d : DataFrame) : Prop :=
  lookup c (columns d) = Some (SObj l).

Let encoded (d : DataFrame) : Prop :=
  lookup c (columns d) = Some (SObj l) /\
  lookup (String.append c "_freq") (columns d)
  = Some (SFloat (map (text_frequency l) l)).

Lemma encode_frequency_source col d d' :
  encode_frequency col d = Ok d' -> source_there d -> source_there d'.
Proof.
  intros H S. eapply encode_frequency_keeps; eauto.
Qed.

Lemma encode_frequency_here d d' :
  encode_frequency c d = Ok d' -> source_there d -> encoded d'.
Proof.
  unfold encode_frequency, getitem. intros H S.
  rewrite c_other in H. cbn [negb] in H.
  rewrite (lookup_has_col _ _ S), S in H.
  destruct (_ <? _)%nat; [discriminate|]. cbn [bind] in H.
  destruct (frequencies (SObj l)) as [v|] eqn:F; cbn [bind] in H;
    [|discriminate].
  rewrite (@frequencies_text l v F) in H. cbn [bind] in H. injection H as <-.
  split.
  - rewrite lookup_setitem.
    destruct (String.eqb_spec c (String.append c "_freq")) as [E|_];
      [|exact S].
    rewrite E, endswith_append in c_not_freq. discriminate.
  - rewrite lookup_setitem, String.eqb_refl. reflexivity.
Qed.

Lemma encode_frequency_encoded col d d' :
  encode_frequency col d = Ok d' -> encoded d -> encoded d'.
Proof.
  intros H [S F].
  destruct (String.eqb_spec col c) as [->|Hne];
    [eapply encode_frequency_here; eauto|].
  split; [eapply encode_frequency_source; eauto|].
  unfold encode_frequency in H.
  destruct (negb _); [|injection H as <-; exact F].
  destruct (has_col d col); [|injection H as <-; exact F].
  destruct (_ <? _)%nat; [discriminate|].
  repeat inv_bind H. injection H as <-.
  rewrite lookup_setitem.
  destruct (String.eqb_spec (String.append c "_freq")
                            (String.append col "_freq")) as [Q|_];
    [|exact F].
  apply append_inj_l in Q. congruence.
Qed.

Lemma for_each_frequency_encoded cols :
  forall d d',
    for_each encode_frequency cols d = Ok d' -> encoded d -> encoded d'.
Proof.
  induction cols as [|col cols IH]; intros d d' H P; simpl in H.
  - injection H as <-. exact P.
  - inv_bind H. eapply IH; [exact H|].
    eapply encode_frequency_encoded; eauto.
Qed.

Lemma for_each_frequency_here cols :
  In c cols ->
  forall d d',
    for_each encode_frequency cols d = Ok d' -> source_there d -> encoded d'.
Proof.
  induction cols as [|col cols IH]; intros I d d' H S; simpl in H.
  - contradiction.
  - inv_bind H. destruct (String.eqb_spec col c) as [->|Hne].
    + eapply for_each_frequency_encoded; [exact H|].
      eapply encode_frequency_here; eauto.
    + destruct I as [I|I]; [contradiction|].
      eapply IH; [exact I|exact H|].
      eapply encode_frequency_source; eauto.
Qed.

End FrequencyOfColumn.

Lemma categorical_columns_In df c l :
  lookup c (columns df) = Some (SObj l) ->
  to_datetime_text l = None ->
  In c (categorical_columns to_datetime_text df).
Proof.
  intros L T. unfold categorical_columns.
  assert (I : In c (map fst (filter (fun ns => is_object (snd ns))
                                    (columns df)))).
  { apply in_map_iff. exists (c, SObj l). split; [reflexivity|].
    apply filter_In. split; [apply lookup_In, L|reflexivity]. }
  apply filter_In. split; [exact I|].
  apply negb_true_iff. destruct (mem_string c _) eqn:M; [|reflexivity].
  apply mem_string_In, filter_In in M. destruct M as [_ M].
  unfold getitem in M. rewrite L in M. simpl in M. rewrite T in M.
  discriminate.
Qed.

(** X13.  A text column that is neither education, gender nor
    product_category, does not parse as dates and whose name does not end
    in "_freq" is frequency encoded whenever the encoder returns: in
    [<col>_freq] a row with a value holds, to four decimals, the number of
    rows with that value over the number of rows with any value, and a row
    without a value holds NaN. *)
Theorem frequency_encoding
    (df df' : DataFrame) (c : string) (l : list (option string)) :
  lookup c (columns df) = Some (SObj l) ->
  ~ In c ["education"; "gender"; "product_category"] ->
  c <> "education_encoded" ->
  endswith c "_freq" = false ->
  to_datetime_text l = None ->
  encode_categorical_features to_datetime_text df = Ok df' ->
  exists fr,
    lookup (String.append c "_freq") (columns df') = Some (SFloat fr) /\
    length fr = length l /\
    (forall i v, nth_error l i = Some (Some v) ->
       nth_error fr i
       = Some (B64.round 4 (B64.div (B64.of_nat (count_text v l))
                                    (B64.of_nat (length (somes l)))))) /\
    (forall i, nth_error l i = Some None -> nth_error fr i = Some B64.nan).
Proof.
  intros L N Hc Hf T H.
  destruct (encode_steps _ H) as (d1 & d2 & E1 & E2 & E3).
  assert (M : mem_string c (ordinal_features ++ nominal_features) = false).
  { destruct (mem_string c _) eqn:M; [|reflexivity].
    apply mem_string_In in M. contradiction. }
  assert (S2 : lookup c (columns d2) = Some (SObj l))
    by (eapply encode_keeps_before_frequency; eauto).
  assert (I : In c (categorical_columns to_datetime_text df))
    by (eapply categorical_columns_In; eauto).
  destruct (@for_each_frequency_here c l M Hf _ I _ _ E3 S2) as [_ F].
  exists (map (text_frequency l) l).
  split; [exact F|]. split; [apply length_map|].
  split; intros i; [intros v Hi|intros Hi]; rewrite nth_error_map, Hi;
    reflexivity.
Qed.

Lemma In_names_setitem d c v n :
  In n (names (setitem d c v)) -> In n (names d) \/ n = c.
Proof.
  rewrite names_setitem. destruct (has_col d c); [tauto|].
  intros I. apply in_app_or in I. simpl in I. intuition.
Qed.

Lemma names_after_ordinal col d d' n :
  encode_ordinal col d = Ok d' -> In n (names d') ->
  In n (names d) \/ n = "education_encoded".
Proof.
  unfold encode_ordinal. intros H I.
  destruct (has_col d col); [|injection H as <-; tauto].
  destruct (String.eqb_spec col "education") as [->|];
    [|injection H as <-; tauto].
  inv_bind H. injection H as <-. apply In_names_setitem in I. exact I.
Qed.

Lemma names_after_nominal col d d' n :
  encode_nominal col d = Ok d' -> In n (names d') ->
  In n (names d) \/ exists v, n = String.append col (String.append "_" v).
Proof.
  unfold encode_nominal. intros H I.
  destruct (has_col d col); [|injection H as <-; tauto].
  repeat inv_bind H. injection H as <-.
  unfold names, concat_columns in I. simpl in I.
  rewrite map_app in I. apply in_app_or in I.
  destruct I as [I|I]; [left; exact I|right].
  destruct a; simpl in E0; try discriminate; injection E0 as <-;
    unfold dummies_of in I; rewrite map_map in I; apply in_map_iff in I;
    destruct I as (v & <- & _); simpl; eexists; reflexivity.
Qed.

Lemma names_after_frequency col d d' n :
  encode_frequency col d = Ok d' -> In n (names d') ->
  In n (names d) \/ n = String.append col "_freq".
Proof.
  unfold encode_frequency. intros H I.
  destruct (negb _); [|injection H as <-; tauto].
  destruct (has_col d col); [|injection H as <-; tauto].
  destruct (_ <? _)%nat; [discriminate|].
  repeat inv_bind H. injection H as <-. apply In_names_setitem in I. exact I.
Qed.

Lemma categorical_columns_not_dates df c l r :
  lookup c (columns df) = Some (SObj l) ->
  to_datetime_text l = Some r ->
  ~ In c (categorical_columns to_datetime_text df).
Proof.
  intros L T I. unfold categorical_columns in I.
  apply filter_In in I. destruct I as [I M].
  apply negb_true_iff in M.
  assert (M' : mem_string c
                 (filter (fun col => match getitem df col with
                                     | Ok s => succeeded (to_datetime
                                                           to_datetime_text s)
                                     | Raise _ => false
                                     end)
                         (map fst (filter (fun ns => is_object (snd ns))
                                          (columns df)))) = true).
  { apply mem_string_In, filter_In. split; [exact I|].
    unfold getitem. rewrite L. simpl. rewrite T. reflexivity. }
  congruence.
Qed.

(** X14.  A text column that parses as dates is not frequency encoded:
    when no column of the input is named [<col>_freq] and that name is not
    the name of an indicator of gender or product_category, no column of
    the output is named [<col>_freq]. *)
Theorem date_text_not_frequency_encoded
    (df df' : DataFrame) (c : string) (l : list (option string))
    (r : list (option Z)) :
  lookup c (columns df) = Some (SObj l) ->
  to_datetime_text l = Some r ->
  ~ In (String.append c "_freq") (names df) ->
  (forall col v, In col nominal_features ->
     String.append c "_freq" <> String.append col (String.append "_" v)) ->
  encode_categorical_features to_datetime_text df = Ok df' ->
  ~ In (String.append c "_freq") (names df').
Proof.
  intros L T N D H.
  destruct (encode_steps _ H) as (d1 & d2 & E1 & E2 & E3).
  pose (P := fun d : DataFrame => ~ In (String.append c "_freq") (names d)).
  assert (P1 : P d1).
  { refine (@for_each_preserves P encode_ordinal ordinal_features _ _ _
              E1 N).
    intros col d d' _ S Pd I.
    destruct (@names_after_ordinal _ _ _ _ S I) as [I'|E]; [exact (Pd I')|].
    assert (W : endswith (String.append c "_freq") "_freq" = true)
      by apply endswith_append.
    rewrite E in W. vm_compute in W. discriminate W. }
  assert (P2 : P d2).
  { refine (@for_each_preserves P encode_nominal nominal_features _ _ _
              E2 P1).
    intros col d d' Icol S Pd I.
    destruct (@names_after_nominal _ _ _ _ S I) as [I'|[v E]]; [exact (Pd I')|].
    exact (D col v Icol E). }
  refine (@for_each_preserves P encode_frequency
            (categorical_columns to_datetime_text df) _ _ _ E3 P2).
  intros col d d' Icol S Pd I.
  destruct (@names_after_frequency _ _ _ _ S I) as [I'|E]; [exact (Pd I')|].
  apply append_inj_l in E. subst col.
  exact (@categorical_columns_not_dates _ _ _ _ L T Icol).
Qed.

End Encoder.

(* ===================================================================== *)
(** * More on stage 5 *)
(* ===================================================================== *)

Lemma is_nan_eq f : B64.is_nan f = true -> f = B64.nan.
Proof. destruct f; simpl; try discriminate. reflexivity. Qed.

Lemma ltb_nan_l y : B64.ltb B64.nan y = false.
Proof. reflexivity. Qed.

Lemma gtb_nan_l y : B64.gtb B64.nan y = false.
Proof. destruct y; reflexivity. Qed.

Lemma eqb_refl_not_nan x : B64.is_nan x = false -> B64.eqb x x = true.
Proof.
  destruct x as [s|s| |s m e]; simpl; intros H; try discriminate;
    unfold B64.eqb, SFeqb, SFcompare; try (destruct s; reflexivity).
  destruct s; rewrite Z.compare_refl, Pos.compare_cont_refl; reflexivity.
Qed.

Lemma assign_where_absent present :
  forall values i,
    nth_error present i = Some false ->
    nth_error (assign_where present values) i = Some 0.
Proof.
  induction present as [|p present IH]; intros values [|i] H; simpl in H;
    try discriminate.
  - injection H as ->. reflexivity.
  - destruct p; simpl.
    + destruct values; simpl; apply IH; exact H.
    + apply IH; exact H.
Qed.

Lemma assign_where_In present :
  forall values f,
    In f (assign_where present values) -> f = 0 \/ In f values.
Proof.
  induction present as [|p present IH]; intros values f H; simpl in H.
  - contradiction.
  - destruct p.
    + destruct values as [|v values]; simpl in H.
      * destruct H as [<-|H]; [now left|]. apply (IH [] f H).
      * destruct H as [<-|H]; [right; now left|].
        destruct (IH values f H); [now left|right; now right].
    + destruct H as [<-|H]; [now left|]. apply (IH values f H).
Qed.

(** X15.  A row whose value is missing (NaN) is flagged by none of the
    three tests: its z-score flag, its IQR flag and its percentile flag
    are 0. *)
Theorem missing_rows_not_flagged (column : list float) (i : nat) (v : float) :
  nth_error column i = Some v ->
  B64.is_nan v = true ->
  nth_error (flag_anomalies_zscore column) i = Some 0 /\
  nth_error (flag_anomalies_iqr (map NFloat column)) i = Some 0 /\
  nth_error (flag_anomalies_percentile (map NFloat column)) i = Some 0.
Proof.
  intros Hi N. split; [|split].
  - unfold flag_anomalies_zscore. apply assign_where_absent.
    rewrite nth_error_map, Hi. simpl. rewrite N. reflexivity.
  - unfold flag_anomalies_iqr. cbv zeta.
    rewrite nth_error_map, nth_error_map, Hi. simpl.
    rewrite (is_nan_eq _ N), ltb_nan_l, gtb_nan_l. reflexivity.
  - unfold flag_anomalies_percentile. cbv zeta.
    rewrite nth_error_map, nth_error_map, Hi. simpl.
    rewrite (is_nan_eq _ N), ltb_nan_l, gtb_nan_l. reflexivity.
Qed.

Lemma forallb_eqb_constant c l :
  B64.is_nan c = false -> (forall v, In v l -> v = c) ->
  forallb (fun v => B64.eqb c v) l = true.
Proof.
  intros N H. apply forallb_forall. intros v I. rewrite (H v I).
  apply eqb_refl_not_nan, N.
Qed.

(** X16.  A column whose values, the missing ones apart, are all the same
    has no z-score flag, however many rows it has: its standard deviation
    is 0 and the z-scores are not numbers. *)
Theorem constant_column_no_zscore_flag (column : list float) (c : float) :
  (forall v, In v column -> B64.is_nan v = true \/ v = c) ->
  forall f, In f (flag_anomalies_zscore column) -> f = 0.
Proof.
  intros H f I. unfold flag_anomalies_zscore in I.
  apply assign_where_In in I. destruct I as [I|I]; [exact I|].
  unfold zscore_flags, zscore in I.
  set (l := filter (fun v => negb (B64.is_nan v)) column) in *.
  assert (Hl : forall v, In v l -> B64.is_nan v = false /\ v = c).
  { intros v Iv. apply filter_In in Iv. destruct Iv as [Iv Nv].
    apply negb_true_iff in Nv. destruct (H v Iv); [congruence|auto]. }
  destruct l as [|first rest] eqn:El; [contradiction|].
  rewrite <- El in *.
  assert (F : first = c /\ B64.is_nan c = false).
  { destruct (Hl first) as [N ->]; [rewrite El; now left|auto]. }
  destruct F as [-> N].
  change (a_eqb binary64) with B64.eqb in I.
  rewrite (@forallb_eqb_constant c l N) in I by (intros v Iv; apply Hl, Iv).
  rewrite !map_map in I. apply in_map_iff in I.
  destruct I as (v & <- & _). reflexivity.
Qed.

Lemma zscore_flags_binary column :
  Forall (fun x => x = 0 \/ x = 1) (flag_anomalies_zscore column).
Proof.
  apply Forall_forall. intros f I. unfold flag_anomalies_zscore in I.
  apply assign_where_In in I. destruct I as [->|I]; [now left|].
  unfold zscore_flags in I. apply in_map_iff in I.
  destruct I as (z & <- & _). destruct (a_gtb _ _ _); auto.
Qed.

Lemma iqr_flags_binary column :
  Forall (fun x => x = 0 \/ x = 1) (flag_anomalies_iqr column).
Proof.
  apply Forall_forall. intros f I. unfold flag_anomalies_iqr in I.
  apply in_map_iff in I. destruct I as (v & <- & _).
  destruct (_ || _); simpl; auto.
Qed.

Lemma flag_column_flags col df df' :
  flag_column col df = Ok df' ->
  (has_col df col = false /\ df' = df) \/
  (has_col df col = true /\
   exists zf qf, Forall (fun x => x = 0 \/ x = 1) zf /\
                 Forall (fun x => x = 0 \/ x = 1) qf /\
                 df' = flagged col zf qf df).
Proof.
  unfold flag_column. intros H.
  destruct (has_col df col); [|injection H as <-; now left].
  right. split; [reflexivity|]. repeat inv_bind H. injection H as <-.
  unfold getitem in E3, E4. rewrite !lookup_setitem in E3, E4.
  rewrite String.eqb_refl in E4.
  rewrite (eqb_false_of_neq (@zscore_name_not_iqr col col)) in E3.
  rewrite String.eqb_refl in E3.
  injection E3 as <-. injection E4 as <-. simpl in E5. injection E5 as <-.
  eexists _, _. split; [apply zscore_flags_binary|].
  split; [apply iqr_flags_binary|reflexivity].
Qed.

Lemma cols_to_check_names df c :
  In c (cols_to_check df) -> has_col df c = true.
Proof.
  intros I.
  assert (C : In c (numeric_candidates df)).
  { unfold cols_to_check in I. apply in_app_or in I. destruct I as [I|I].
    - apply filter_In in I. apply mem_string_In, I.
    - apply In_firstn in I. apply filter_In in I. apply I. }
  rewrite numeric_candidates_filter in C. apply in_map_iff in C.
  destruct C as (ns & <- & I'). apply filter_In in I'.
  apply mem_string_In. unfold names. apply in_map, I'.
Qed.

Lemma has_col_flagged col zf qf d n :
  has_col d n = true -> has_col (flagged col zf qf d) n = true.
Proof.
  intros H. unfold flagged. rewrite !has_col_setitem, H.
  rewrite !orb_true_r. reflexivity.
Qed.

Lemma has_flags_flagged c col zf qf d :
  Forall (fun x => x = 0 \/ x = 1) zf ->
  Forall (fun x => x = 0 \/ x = 1) qf ->
  col = c \/ has_flags c d ->
  has_flags c (flagged col zf qf d).
Proof.
  intros Bz Bq H.
  destruct (String.eqb_spec col c) as [->|Hne].
  - exists zf, qf. rewrite !lookup_flagged, !String.eqb_refl.
    rewrite (eqb_false_of_neq (@zscore_name_not_flag c c)).
    rewrite (eqb_false_of_neq (@zscore_name_not_iqr c c)).
    rewrite (eqb_false_of_neq (@iqr_name_not_flag c c)).
    auto.
  - destruct H as [E|(z & q & Lz & Lq & Lb & Fz & Fq)]; [congruence|].
    assert (D : forall s, String.append c s <> String.append col s)
      by (intros s E; apply append_inj_l in E; congruence).
    exists z, q. rewrite !lookup_flagged.
    rewrite (eqb_false_of_neq (@zscore_name_not_flag c col)).
    rewrite (eqb_false_of_neq (@zscore_name_not_iqr c col)).
    rewrite (eqb_false_of_neq (@iqr_name_not_flag c col)).
    rewrite (eqb_false_of_neq
               (fun E => @zscore_name_not_iqr col c (eq_sym E))).
    rewrite (eqb_false_of_neq
               (fun E => @zscore_name_not_flag col c (eq_sym E))).
    rewrite (eqb_false_of_neq
               (fun E => @iqr_name_not_flag col c (eq_sym E))).
    rewrite !(eqb_false_of_neq (D _)). auto.
Qed.

Lemma for_each_has_flags c cols :
  forall d d',
    for_each flag_column cols d = Ok d' ->
    has_col d c = true ->
    In c cols \/ has_flags c d ->
    has_flags c d'.
Proof.
  induction cols as [|col cols IH]; intros d d' H Hc I; simpl in H.
  - injection H as <-. destruct I as [[]|I]. exact I.
  - inv_bind H.
    destruct (flag_column_flags _ _ E)
      as [[N ->]|[Y (zf & qf & Bz & Bq & ->)]].
    + apply (IH _ _ H Hc). destruct I as [[->|I]|I]; auto. congruence.
    + apply (IH _ _ H (has_col_flagged _ _ _ _ _ Hc)).
      destruct I as [[->|I]|I].
      * right. apply has_flags_flagged; auto.
      * left. exact I.
      * right. apply has_flags_flagged; auto.
Qed.

Lemma has_flags_setitem c d n v :
  endswith n "_anomaly_zscore" = false ->
  endswith n "_anomaly_iqr" = false ->
  endswith n "_is_anomaly" = false ->
  has_flags c d -> has_flags c (setitem d n v).
Proof.
  intros N1 N2 N3 (z & q & Lz & Lq & Lb & Fz & Fq).
  exists z, q. rewrite !lookup_setitem.
  rewrite (eqb_false_of_neq (@name_not_literal c _ n N1)).
  rewrite (eqb_false_of_neq (@name_not_literal c _ n N2)).
  rewrite (eqb_false_of_neq (@name_not_literal c _ n N3)).
  auto.
Qed.

(** X17.  Whenever the flagger returns, every column it selected has its
    three flag columns in the output, [<col>_anomaly_zscore] and
    [<col>_anomaly_iqr] holding only 0 and 1 and [<col>_is_anomaly] holding
    1 exactly where one of the two does, and the output has the columns
    anomaly_score and has_any_anomaly. *)
Theorem selected_columns_are_flagged (df df' : DataFrame) (c : string) :
  In c (cols_to_check df) ->
  flag_anomalies_column df = Ok df' ->
  (exists z q,
     lookup (String.append c "_anomaly_zscore") (columns df')
     = Some (SInt z) /\
     lookup (String.append c "_anomaly_iqr") (columns df') = Some (SInt q) /\
     lookup (String.append c "_is_anomaly") (columns df')
     = Some (SInt (combined z q)) /\
     Forall (fun x => x = 0 \/ x = 1) z /\
     Forall (fun x => x = 0 \/ x = 1) q) /\
  has_col df' "anomaly_score" = true /\
  has_col df' "has_any_anomaly" = true.
Proof.
  intros I H. unfold flag_anomalies_column in H.
  repeat inv_bind H. injection H as <-.
  split.
  - change (has_flags c (setitem (setitem a "anomaly_score" a0)
                           "has_any_anomaly" a2)).
    apply has_flags_setitem; try reflexivity.
    apply has_flags_setitem; try reflexivity.
    eapply for_each_has_flags; [exact E| |left; exact I].
    apply cols_to_check_names, I.
  - rewrite !has_col_setitem.
    change (String.eqb "anomaly_score" "has_any_anomaly") with false.
    change (String.eqb "has_any_anomaly" "has_any_anomaly") with true.
    change (String.eqb "anomaly_score" "anomaly_score") with true.
    split; reflexivity.
Qed.

(* ===================================================================== *)
(** * More on stage 4, and the pipeline *)
(* ===================================================================== *)

Lemma prefix_append (p a b : string) :
  String.prefix p a = true -> String.prefix p (String.append a b) = true.
Proof.
  revert a. induction p as [|x p IH]; intros a H.
  - destruct (String.append a b); reflexivity.
  - destruct a as [|y a]; simpl in H; [discriminate|]. simpl.
    destruct (Ascii.ascii_dec x y); [apply IH; exact H|discriminate].
Qed.

Lemma contains_eq (s sub : string) :
  contains s sub
  = if String.prefix sub s then true
    else match s with
         | EmptyString => false
         | String _ s' => contains s' sub
         end.
Proof. destruct s; reflexivity. Qed.

Lemma contains_append (a b s : string) :
  contains a s = true -> contains (String.append a b) s = true.
Proof.
  induction a as [|x a IH]; intros H.
  - rewrite contains_eq in H.
    destruct (String.prefix s "") eqn:P; [|discriminate H].
    rewrite contains_eq, (prefix_append _ _ b P). reflexivity.
  - rewrite contains_eq in H.
    change (String.append (String x a) b)
      with (String x (String.append a b)).
    rewrite contains_eq.
    destruct (String.prefix s (String x (String.append a b))) eqn:Q;
      [reflexivity|].
    destruct (String.prefix s (String x a)) eqn:P.
    + apply (prefix_append _ _ b) in P.
      change (String.append (String x a) b)
        with (String x (String.append a b)) in P.
      congruence.
    + exact (IH H).
Qed.

Lemma lower_append (a b : string) :
  lower (String.append a b) = String.append (lower a) (lower b).
Proof. induction a as [|x a IH]; simpl; [reflexivity|]. rewrite IH. reflexivity. Qed.

(** A name with "date" or "time" in it. *)
Lemma dated_name_append col suffix :
  contains (lower col) "date" || contains (lower col) "time" = true ->
  contains (lower (String.append col suffix)) "date"
  || contains (lower (String.append col suffix)) "time" = true.
Proof.
  rewrite lower_append, !orb_true_iff.
  intros [H|H]; [left|right]; apply contains_append; exact H.
Qed.

Section TimeStageColumns.

Variable to_datetime_text : list (option string) -> option (list (option Z)).
Variable now : Z.

Variable n : string.
Hypothesis n_plain :
  contains (lower n) "date" || contains (lower n) "time" = false.

Lemma find_datetime_cols_keeps cols :
  forall d r,
    find_datetime_cols to_datetime_text cols d = Ok r ->
    keeps n d (fst r) /\
    Forall (fun col => contains (lower col) "date"
                       || contains (lower col) "time" = true) (snd r).
Proof.
  induction cols as [|col cols IH]; intros d r H; simpl in H.
  - injection H as <-. split; [apply keeps_refl|constructor].
  - destruct (contains (lower col) "date" || contains (lower col) "time")
      eqn:C; [|apply IH; exact H].
    inv_bind H.
    destruct (to_datetime to_datetime_text a) as [l|e] eqn:T.
    + inv_bind H. injection H as <-. simpl.
      destruct (IH _ _ E0) as [K F]. split.
      * eapply keeps_trans; [|exact K]. apply keeps_setitem.
        intros ->. congruence.
      * constructor; [exact C|exact F].
    + destruct e; try discriminate; apply IH; exact H.
Qed.

Lemma set_from_dt_keeps col suffix f d d' :
  contains (lower col) "date" || contains (lower col) "time" = true ->
  set_from_dt col suffix f d = Ok d' -> keeps n d d'.
Proof.
  intros C H. unfold set_from_dt in H. inv_bind H. injection H as <-.
  apply keeps_setitem. intros ->.
  rewrite (dated_name_append _ suffix C) in n_plain. discriminate.
Qed.

Lemma extract_time_features_keeps col d d' :
  contains (lower col) "date" || contains (lower col) "time" = true ->
  extract_time_features now col d = Ok d' -> keeps n d d'.
Proof.
  intros C H. unfold extract_time_features in H.
  repeat match goal with
  | H : bind (set_from_dt _ _ _ ?d) _ = Ok _ |- _ =>
      let E := fresh "E" in
      let K := fresh "K" in
      let d' := fresh "d" in
      destruct (set_from_dt _ _ _ d) as [d'|] eqn:E in H; cbn [bind] in H;
        [|discriminate H];
      assert (K : keeps n d d') by (eapply set_from_dt_keeps; eauto);
      clear E
  end.
  repeat inv_bind H. injection H as <-.
  repeat (eapply keeps_trans; [eassumption|]).
  apply keeps_setitem. intros ->.
  rewrite (dated_name_append _ "_is_recent" C) in n_plain. discriminate.
Qed.

Lemma for_each_extract_keeps cols :
  Forall (fun col => contains (lower col) "date"
                     || contains (lower col) "time" = true) cols ->
  forall d d',
    for_each (extract_time_features now) cols d = Ok d' -> keeps n d d'.
Proof.
  induction 1 as [|col cols C F IH]; intros d d' H; simpl in H.
  - injection H as <-. apply keeps_refl.
  - inv_bind H. eapply keeps_trans; [|apply IH; exact H].
    eapply extract_time_features_keeps; eauto.
Qed.

Lemma time_stage_keeps d d' :
  time_based_feature_extraction to_datetime_text now d = Ok d' ->
  keeps n d d'.
Proof.
  unfold time_based_feature_extraction. intros H. inv_bind H.
  destruct (find_datetime_cols_keeps _ _ E) as [K F].
  eapply keeps_trans; [exact K|].
  eapply for_each_extract_keeps; eauto.
Qed.

End TimeStageColumns.

(** X18.  Whenever the time stage returns, a column whose name has neither
    "date" nor "time" in it, in any case of the letters, is in the output
    what it was in the input. *)
Theorem time_stage_keeps_other_columns
    (to_datetime_text : list (option string) -> option (list (option Z)))
    (now : Z) (df df' : DataFrame) (n : string) (s : Series) :
  contains (lower n) "date" = false ->
  contains (lower n) "time" = false ->
  lookup n (columns df) = Some s ->
  time_based_feature_extraction to_datetime_text now df = Ok df' ->
  lookup n (columns df') = Some s.
Proof.
  intros D T L H.
  assert (P : contains (lower n) "date" || contains (lower n) "time" = false)
    by (rewrite D, T; reflexivity).
  exact (@time_stage_keeps to_datetime_text now n P df df' H s L).
Qed.

Lemma series_round_numeric d a c :
  series_round d a = Ok c -> is_numeric c = true.
Proof. destruct a; simpl; try discriminate; intros [= <-]; reflexivity. Qed.

Lemma flagger_has_flags df df' c :
  In c (cols_to_check df) ->
  flag_anomalies_column df = Ok df' -> has_flags c df'.
Proof.
  intros I H. unfold flag_anomalies_column in H.
  repeat inv_bind H. injection H as <-.
  apply has_flags_setitem; try reflexivity.
  apply has_flags_setitem; try reflexivity.
  eapply for_each_has_flags; [exact E| |left; exact I].
  apply cols_to_check_names, I.
Qed.

(** The flagger leaves a column as it is unless its name ends like one of
    the names it writes. *)
Lemma flagger_keeps df df' n :
  endswith n "_anomaly_zscore" = false ->
  endswith n "_anomaly_iqr" = false ->
  endswith n "_is_anomaly" = false ->
  flag_anomalies_column df = Ok df' ->
  n <> "anomaly_score" -> n <> "has_any_anomaly" ->
  keeps n df df'.
Proof.
  intros N1 N2 N3 H M1 M2. unfold flag_anomalies_column in H.
  repeat inv_bind H. injection H as <-.
  eapply keeps_trans; [|eapply keeps_trans; apply keeps_setitem; assumption].
  eapply for_each_keeps; [|exact E].
  intros col d d' S.
  destruct (flag_column_shape _ _ S) as [->|(zf & qf & ->)];
    [apply keeps_refl|].
  intros s L. rewrite lookup_flagged.
  rewrite (eqb_false_of_neq
             (fun Q => @name_not_literal col _ n N3 (eq_sym Q))).
  rewrite (eqb_false_of_neq
             (fun Q => @name_not_literal col _ n N2 (eq_sym Q))).
  rewrite (eqb_false_of_neq
             (fun Q => @name_not_literal col _ n N1 (eq_sym Q))).
  exact L.
Qed.

(** A numeric column named like a priority column is selected. *)
Lemma priority_column_selected df c s :
  In c priority_cols ->
  lookup c (columns df) = Some s -> is_numeric s = true ->
  In c (cols_to_check df).
Proof.
  intros P L N. unfold cols_to_check. apply in_or_app. left.
  apply filter_In. split; [exact P|]. apply mem_string_In.
  rewrite numeric_candidates_filter. apply in_map_iff.
  exists (c, s). split; [reflexivity|]. apply filter_In.
  split; [apply lookup_In, L|].
  unfold is_candidate. cbn [fst snd]. rewrite N.
  unfold priority_cols in P. simpl in P.
  destruct P as [<-|[<-|[<-|[<-|[]]]]]; reflexivity.
Qed.

Section WholePipeline.

Variable to_datetime_text : list (option string) -> option (list (option Z)).
Variable now : Z.

Hypothesis to_datetime_text_length :
  forall l r, to_datetime_text l = Some r -> length r = length l.

Lemma run_pipeline_steps df df' :
  run_pipeline to_datetime_text now df = Ok df' ->
  exists d1 d2 d3 d4,
    derive_computed_columns df = Ok d1 /\
    encode_categorical_features to_datetime_text d1 = Ok d2 /\
    bin_numeric_ranges d2 = Ok d3 /\
    time_based_feature_extraction to_datetime_text now d3 = Ok d4 /\
    flag_anomalies_column d4 = Ok df'.
Proof.
  unfold run_pipeline, run_stage. intros H. repeat inv_bind H.
  do 4 eexists. repeat split; eassumption.
Qed.

Lemma run_pipeline_grows df df' :
  aligned df -> run_pipeline to_datetime_text now df = Ok df' ->
  grows df df'.
Proof.
  intros A H.
  destruct (run_pipeline_steps _ H) as (d1 & d2 & d3 & d4 & R1 & R2 & R3
                                        & R4 & R5).
  assert (G1 : grows df d1)
    by (eapply derive_computed_columns_grows; eauto).
  assert (G2 : grows d1 d2)
    by (eapply encode_categorical_features_grows; eauto;
        eapply grows_aligned; eauto).
  assert (G3 : grows d2 d3)
    by (eapply bin_numeric_ranges_grows; eauto; eapply grows_aligned; eauto).
  assert (G4 : grows d3 d4)
    by (eapply time_based_feature_extraction_grows; eauto;
        eapply grows_aligned; eauto).
  assert (G5 : grows d4 df')
    by (eapply flag_anomalies_column_grows; eauto;
        eapply grows_aligned; eauto).
  eapply grows_trans; [exact G1|]. eapply grows_trans; [exact G2|].
  eapply grows_trans; [exact G3|]. eapply grows_trans; [exact G4|].
  exact G5.
Qed.

(** X19.  The five stages in a row: whenever the pipeline returns on an
    aligned table, the output has the rows of the input, its columns under
    their names and in their order before the new ones, one value per row
    in every column, and the columns anomaly_score and has_any_anomaly. *)
Theorem run_pipeline_keeps_rows_and_columns (df df' : DataFrame) :
  aligned df ->
  run_pipeline to_datetime_text now df = Ok df' ->
  nrows df' = nrows df /\
  (exists added, names df' = names df ++ added) /\
  aligned df' /\
  has_col df' "anomaly_score" = true /\
  has_col df' "has_any_anomaly" = true.
Proof.
  intros A H. destruct (run_pipeline_grows A H) as (N & E & A').
  split; [exact N|]. split; [exact E|]. split; [exact A'|].
  destruct (run_pipeline_steps _ H) as (d1 & d2 & d3 & d4 & _ & _ & _ & _
                                        & R5).
  unfold flag_anomalies_column in R5. repeat inv_bind R5.
  injection R5 as <-. rewrite !has_col_setitem.
  change (String.eqb "anomaly_score" "has_any_anomaly") with false.
  change (String.eqb "has_any_anomaly" "has_any_anomaly") with true.
  change (String.eqb "anomaly_score" "anomaly_score") with true.
  split; reflexivity.
Qed.

(** X20.  From end to end: on a table with the columns purchase_amount,
    shipping_cost and discount_percent, whenever the pipeline returns, the
    output has the final price that stage 1 derived, as a numeric column,
    and the flagger has flagged it: final_price_anomaly_zscore,
    final_price_anomaly_iqr and final_price_is_anomaly are there. *)
Theorem run_pipeline_flags_final_price
    (df df' : DataFrame) (pa sc dp : Series) :
  lookup "purchase_amount" (columns df) = Some pa ->
  lookup "shipping_cost" (columns df) = Some sc ->
  lookup "discount_percent" (columns df) = Some dp ->
  run_pipeline to_datetime_text now df = Ok df' ->
  exists d1 fp,
    derive_computed_columns df = Ok d1 /\
    lookup "final_price" (columns d1) = Some fp /\
    is_numeric fp = true /\
    lookup "final_price" (columns df') = Some fp /\
    has_flags "final_price" df'.
Proof.
  intros Hpa Hsc Hdp H.
  destruct (run_pipeline_steps _ H) as (s1 & s2 & s3 & s4 & T1 & T2 & T3
                                        & T4 & T5).
  assert (F1 : exists fp, lookup "final_price" (columns s1) = Some fp
                          /\ is_numeric fp = true).
  { stage1_steps T1.
    destruct (derive_total_cost_value _ Hpa Hsc R1) as (tc & Atc & Ltc).
    assert (Hpa1 : lookup "purchase_amount" (columns d1) = Some pa)
      by (frame_lookup; exact Hpa).
    assert (Hdp1 : lookup "discount_percent" (columns d1) = Some dp)
      by (frame_lookup; exact Hdp).
    destruct (derive_discount_amount_value _ Hpa1 Hdp1 R2)
      as (m & q & da & Am & Aq & Ada & Lda).
    assert (Ltc2 : lookup "total_cost" (columns d2) = Some tc)
      by (frame_lookup; exact Ltc).
    destruct (derive_final_price_value _ Ltc2 Lda R3)
      as (x & fp & Ax & Afp & Lfp).
    exists fp. split; [frame_lookup; exact Lfp|].
    eapply series_round_numeric; eauto. }
  destruct F1 as (fp & L1 & N).
  assert (L2 : lookup "final_price" (columns s2) = Some fp).
  { destruct (encode_steps _ _ T2) as (e1 & e2 & E1 & E2 & E3).
    assert (K : keeps "final_price" s1 s2).
    { eapply keeps_trans;
        [eapply (@encode_keeps_before_frequency "final_price"); eauto;
         discriminate|].
      eapply for_each_keeps; [|exact E3]. intros.
      eapply encode_frequency_keeps; eauto. }
    apply K, L1. }
  assert (L3 : lookup "final_price" (columns s3) = Some fp).
  { stage3_steps T3. frame_lookup. exact L2. }
  assert (L4 : lookup "final_price" (columns s4) = Some fp).
  { refine (@time_stage_keeps to_datetime_text now "final_price" _ s3 s4 T4
              fp L3).
    reflexivity. }
  exists s1, fp. split; [exact T1|]. split; [exact L1|]. split; [exact N|].
  assert (I : In "final_price" (cols_to_check s4)).
  { eapply priority_column_selected; eauto. simpl. tauto. }
  pose proof (@flagger_has_flags _ _ _ I T5) as F.
  split; [|exact F].
  refine (@flagger_keeps s4 df' "final_price" _ _ _ T5 _ _ fp L4);
    try reflexivity; discriminate.
Qed.

End WholePipeline.

(* ===================================================================== *)
(** * The z-score standardises *)
(* ===================================================================== *)

Section Standardised.

#[local] Open Scope R_scope.





End Standardised.

(* ===================================================================== *)
(** * The other tables of whole numbers *)
(* ===================================================================== *)

Ltac compare_cases :=
  repeat match goal with
  | |- context [?x <? ?y] => destruct (Z.ltb_spec x y)
  | |- context [?x <=? ?y] => destruct (Z.leb_spec x y)
  | |- context [?x =? ?y] => destruct (Z.eqb_spec x y)
  end.

Lemma discount_code (a : Z) :
  bin_code discount_bins true (NInt a)
  = if (a <? 0) || (100 <? a) then None
    else if a <=? 10 then Some 0%nat
    else if a <=? 25 then Some 1%nat
    else if a <=? 40 then Some 2%nat
    else Some 3%nat.
Proof.
  unfold bin_code, searchsorted_left, discount_bins.
  cbn -[Z.ltb Z.leb Z.eqb].
  compare_cases; cbn; try reflexivity; try lia.
Qed.

Lemma rating_code (a : Z) :
  bin_code rating_bins true (NInt a)
  = if (a <? 0) || (5 <? a) then None
    else if a <=? 2 then Some 0%nat
    else if a <=? 3 then Some 1%nat
    else if a <=? 4 then Some 2%nat
    else Some 3%nat.
Proof.
  unfold bin_code, searchsorted_left, rating_bins.
  cbn -[Z.ltb Z.leb Z.eqb].
  compare_cases; cbn; try reflexivity; try lia.
Qed.

(** X22.  The tiers of whole-number discounts and the categories of
    whole-number ratings, whenever the binner returns: a discount of 0 to
    10 is "No Discount", 11 to 25 "Low Discount", 26 to 40
    "Medium Discount", 41 to 100 "High Discount"; a rating of 0 to 2 is
    "Poor", 3 "Fair", 4 "Good", 5 "Excellent"; a value outside its table
    has no label. *)
Theorem discount_and_rating_tables (df df' : DataFrame) :
  bin_numeric_ranges df = Ok df' ->
  (forall l, lookup "discount_percent" (columns df) = Some (SInt l) ->
     exists g,
       lookup "discount_tier" (columns df') = Some (SCat g) /\
       forall i a, nth_error l i = Some a ->
         (0 <= a <= 10 ->
          nth_error g i = Some (Some (LStr "No Discount"))) /\
         (10 < a <= 25 ->
          nth_error g i = Some (Some (LStr "Low Discount"))) /\
         (25 < a <= 40 ->
          nth_error g i = Some (Some (LStr "Medium Discount"))) /\
         (40 < a <= 100 ->
          nth_error g i = Some (Some (LStr "High Discount"))) /\
         (a < 0 \/ 100 < a -> nth_error g i = Some None)) /\
  (forall l, lookup "rating" (columns df) = Some (SInt l) ->
     exists g,
       lookup "rating_category" (columns df') = Some (SCat g) /\
       forall i a, nth_error l i = Some a ->
         (0 <= a <= 2 -> nth_error g i = Some (Some (LStr "Poor"))) /\
         (a = 3 -> nth_error g i = Some (Some (LStr "Fair"))) /\
         (a = 4 -> nth_error g i = Some (Some (LStr "Good"))) /\
         (a = 5 -> nth_error g i = Some (Some (LStr "Excellent"))) /\
         (a < 0 \/ 5 < a -> nth_error g i = Some None)).
Proof.
  intros Hrun. stage3_steps Hrun. split; intros l L.
  - assert (L4 : lookup "discount_percent" (columns d4) = Some (SInt l))
      by (frame_lookup; exact L).
    destruct (@bin_column_value _ _ _ _ _ _ L4 R5) as (v & C & Lv).
    unfold cut in C. cbn [nums] in C.
    rewrite bins_to_cuts_checked in C by reflexivity.
    cbn [bind] in C. injection C as <-.
    eexists. split; [frame_lookup; exact Lv|].
    intros i a Ha. rewrite map_map, nth_error_map, Ha. cbn [option_map].
    rewrite discount_code.
    repeat split; intros R; compare_cases; try lia; reflexivity.
  - assert (L3 : lookup "rating" (columns d3) = Some (SInt l))
      by (frame_lookup; exact L).
    destruct (@bin_column_value _ _ _ _ _ _ L3 R4) as (v & C & Lv).
    unfold cut in C. cbn [nums] in C.
    rewrite bins_to_cuts_checked in C by reflexivity.
    cbn [bind] in C. injection C as <-.
    eexists. split; [frame_lookup; exact Lv|].
    intros i a Ha. rewrite map_map, nth_error_map, Ha. cbn [option_map].
    rewrite rating_code.
    repeat split; intros R; compare_cases; try lia; reflexivity.
Qed.

(* ===================================================================== *)
(** * Stage 4 on one dated column *)
(* ===================================================================== *)

Lemma append_eqb_l (n a b : string) :
  String.eqb (String.append n a) (String.append n b) = String.eqb a b.
Proof.
  induction n as [|x n IH]; simpl; [reflexivity|].
  rewrite Ascii.eqb_refl. exact IH.
Qed.

Lemma append_nil_r (n : string) : String.append n "" = n.
Proof. induction n as [|x n IH]; simpl; [reflexivity|]. rewrite IH. reflexivity. Qed.

Lemma eqb_name_suffix (n s : string) :
  String.eqb n (String.append n s) = String.eqb "" s.
Proof. rewrite <- (append_nil_r n) at 1. apply append_eqb_l. Qed.

Section OneDatedColumn.

Variable to_datetime_text : list (option string) -> option (list (option Z)).
Variable now : Z.
Variable n : string.
Variable l : list (option Z).

Lemma dt_after_setitem d suffix v :
  lookup n (columns d) = Some (SDate l) ->
  suffix <> "" ->
  lookup n (columns (setitem d (String.append n suffix) v))
  = Some (SDate l).
Proof.
  intros L N. rewrite lookup_setitem, eqb_name_suffix.
  destruct (String.eqb_spec "" suffix); [congruence|exact L].
Qed.

Lemma set_from_dt_there d suffix f :
  lookup n (columns d) = Some (SDate l) ->
  set_from_dt n suffix f d = Ok (setitem d (String.append n suffix) (f l)).
Proof.
  intros L. unfold set_from_dt, dt, getitem. rewrite L. reflexivity.
Qed.

Lemma set_from_dt_step d d' suffix f :
  lookup n (columns d) = Some (SDate l) ->
  suffix <> "" ->
  set_from_dt n suffix f d = Ok d' ->
  lookup n (columns d') = Some (SDate l) /\
  lookup (String.append n suffix) (columns d') = Some (f l) /\
  forall a, a <> suffix ->
    lookup (String.append n a) (columns d')
    = lookup (String.append n a) (columns d).
Proof.
  intros L N H. rewrite (@set_from_dt_there d suffix f L) in H.
  injection H as <-.
  split; [apply dt_after_setitem; assumption|].
  split.
  - rewrite lookup_setitem, String.eqb_refl. reflexivity.
  - intros a Na. rewrite lookup_setitem, append_eqb_l.
    destruct (String.eqb_spec a suffix); [contradiction|reflexivity].
Qed.

Ltac dt_step H :=
  match type of H with
  | bind (set_from_dt n ?s ?f ?d0) _ = Ok _ =>
      match goal with
      | Lc : lookup n (columns d0) = Some (SDate l) |- _ =>
          let dk := fresh "d" in
          let E := fresh "E" in
          let Lk := fresh "Lc" in
          let V := fresh "V" in
          let K := fresh "K" in
          destruct (set_from_dt n s f d0) as [dk|] eqn:E;
            cbn [bind] in H; [|discriminate H];
          destruct (@set_from_dt_step d0 dk s f Lc ltac:(discriminate) E)
            as (Lk & V & K);
          cbv beta in V; clear E
      end
  end.

Ltac look_back :=
  repeat match goal with
  | K : forall a, a <> _ -> lookup _ (columns ?dk) = _
    |- context [lookup (String.append n ?a) (columns ?dk)] =>
      rewrite (K a) by discriminate
  end;
  match goal with
  | V : lookup ?c (columns ?dk) = Some ?v |- lookup ?c (columns ?dk) = _ =>
      exact V
  end.

Lemma lookup_setitem_suffix d a b v :
  lookup (String.append n a) (columns (setitem d (String.append n b) v))
  = if String.eqb a b then Some v
    else lookup (String.append n a) (columns d).
Proof. rewrite lookup_setitem, append_eqb_l. reflexivity. Qed.

Lemma extract_time_features_single d d' :
  lookup n (columns d) = Some (SDate l) ->
  extract_time_features now n d = Ok d' ->
  time_features now n l d'.
Proof.
  intros Lc H. unfold extract_time_features in H. cbv zeta in H.
  do 14 dt_step H.
  match type of H with
  | context [getitem ?dk _] =>
      assert (G : getitem dk (String.append n "_days_from_today")
                  = Ok (dt_field (fun t => days_of_ns (now - t)) l))
        by (apply getitem_Ok; look_back)
  end.
  rewrite G in H. cbn [bind] in H.
  assert (R : exists r,
             match dt_field (fun t => days_of_ns (now - t)) l with
             | SInt z => Ok (SInt (map (fun z => bool_int (z <=? 30)) z))
             | SFloat z =>
                 Ok (SInt (map (fun f => bool_int (B64.leb f (B64.of_Z 30)))
                               z))
             | _ => Raise TypeError
             end = Ok (SInt r) /\ length r = length l).
  { pose proof (dt_field_slen (fun t => days_of_ns (now - t)) l) as Len.
    destruct (dt_field _ l) as [z|z| | |] eqn:F;
      try (unfold dt_field, int_or_nan_series in F;
           destruct (all_some _) in F; discriminate F);
      simpl in Len; eexists; (split; [reflexivity|]);
      rewrite length_map; exact Len. }
  destruct R as (r & R & Len). rewrite R in H. cbn [bind] in H.
  injection H as <-.
  unfold time_features. cbv zeta.
  split.
  { apply dt_after_setitem; [|discriminate].
    match goal with
    | Lx : lookup n (columns ?D) = Some (SDate l)
      |- lookup n (columns ?D) = Some (SDate l) => exact Lx
    end. }
  do 14 (split;
         [rewrite lookup_setitem_suffix;
          match goal with
          | |- context [String.eqb ?a ?b] =>
              change (String.eqb a b) with false
          end; cbv iota; look_back|]).
  exists r. split; [|exact Len].
  rewrite lookup_setitem_suffix, String.eqb_refl. reflexivity.
Qed.

Lemma time_features_dt d :
  time_features now n l d -> lookup n (columns d) = Some (SDate l).
Proof. intros [H _]. exact H. Qed.

Lemma for_each_extract_single k :
  forall d d',
    lookup n (columns d) = Some (SDate l) ->
    for_each (extract_time_features now) (repeat n (S k)) d = Ok d' ->
    time_features now n l d'.
Proof.
  induction k as [|k IH]; intros d d' L H; simpl in H.
  - inv_bind H. injection H as <-.
    eapply extract_time_features_single; eauto.
  - inv_bind H. apply (IH a d'); [|exact H].
    apply time_features_dt. eapply extract_time_features_single; eauto.
Qed.

Hypothesis n_dated : dated n = true.

Lemma find_datetime_cols_single cols :
  (forall c, In c cols -> dated c = true -> c = n) ->
  forall d s,
    lookup n (columns d) = Some s ->
    to_datetime to_datetime_text s = Ok l ->
    exists k,
      find_datetime_cols to_datetime_text cols d
      = Ok (match k with
            | O => d
            | S _ => setitem d n (SDate l)
            end, repeat n k) /\
      (In n cols -> k <> O).
Proof.
  induction cols as [|col cols IH]; intros Only d s L T.
  - exists O. split; [reflexivity|]. intros [].
  - simpl. fold (dated col).
    assert (Only' : forall c, In c cols -> dated c = true -> c = n)
      by (intros c I; apply Only; now right).
    destruct (dated col) eqn:D.
    + assert (col = n) as -> by (apply Only; [now left|exact D]).
      unfold getitem. rewrite L. cbn [bind]. rewrite T.
      destruct (IH Only' (setitem d n (SDate l)) (SDate l)) as (k & E & _).
      { rewrite lookup_setitem, String.eqb_refl. reflexivity. }
      { reflexivity. }
      rewrite E. cbn [bind fst snd]. exists (S k). split; [|discriminate].
      destruct k; [reflexivity|]. rewrite setitem_setitem. reflexivity.
    + destruct (IH Only' d s L T) as (k & E & P).
      exists k. split; [exact E|].
      intros [->|I]; [congruence|exact (P I)].
Qed.

(** X23.  On a table in which one column only has "date" or "time" in its
    name, a column that holds or parses as timestamps, the time stage,
    whenever it returns, leaves the timestamps in that column and writes
    the fields of the timestamps beside it: year, month, month name, day,
    day of the week, day name, quarter, ISO week, the flags for weekend,
    month start and month end, the days since 1970-01-01, the season, the
    days from now and the flag for the last 30 days. *)
Theorem single_dated_column_features
    (df df' : DataFrame) (s : Series) :
  lookup n (columns df) = Some s ->
  to_datetime to_datetime_text s = Ok l ->
  (forall c, In c (names df) -> dated c = true -> c = n) ->
  time_based_feature_extraction to_datetime_text now df = Ok df' ->
  time_features now n l df'.
Proof.
  intros L T Only H. unfold time_based_feature_extraction in H.
  destruct (@find_datetime_cols_single (names df) Only df s L T)
    as (k & E & P).
  rewrite E in H. cbn [bind fst snd] in H.
  assert (I : In n (names df)).
  { apply mem_string_In. change (has_col df n = true).
    eapply lookup_has_col; eauto. }
  destruct k as [|k]; [elim (P I); reflexivity|].
  eapply for_each_extract_single; [|exact H].
  rewrite lookup_setitem, String.eqb_refl. reflexivity.
Qed.

End OneDatedColumn.

(* ===================================================================== *)
(** * The further theorems at the example tables *)
(* ===================================================================== *)

Lemma derive_keeps_other_columns_witness :
  exists df',
    derive_computed_columns sample_df = Ok df' /\
    lookup "age" (columns df') = Some (SInt [22; 35; 45; 55; 70]).
Proof.
  destruct (derive_computed_columns sample_df) as [df'|e] eqn:E;
    [|vm_compute in E; discriminate E].
  exists df'. split; [reflexivity|].
  rewrite (@derive_keeps_other_columns sample_df df' "age"
             ltac:(simpl; intuition discriminate) E).
  reflexivity.
Defined.

Lemma derive_other_columns_rows_witness :
  exists df' v,
    derive_computed_columns sample_df = Ok df' /\
    lookup "age_squared" (columns df') = Some v /\
    num_at v 0 = Some (NInt 484).
Proof.
  destruct (derive_computed_columns sample_df) as [df'|e] eqn:E;
    [|vm_compute in E; discriminate E].
  destruct (@derive_other_columns_rows sample_df df' 0%nat E)
    as (_ & _ & A & _).
  destruct (A (SInt [22; 35; 45; 55; 70]) (NInt 22) eq_refl eq_refl)
    as (v & L & N).
  exists df', v. split; [reflexivity|]. split; [exact L|exact N].
Defined.

Lemma derive_computed_columns_idempotent_witness :
  exists df',
    derive_computed_columns sample_df = Ok df' /\
    derive_computed_columns df' = Ok df'.
Proof.
  destruct (derive_computed_columns sample_df) as [df'|e] eqn:E;
    [|vm_compute in E; discriminate E].
  exists df'. split; [reflexivity|].
  apply (@derive_computed_columns_idempotent sample_df df' E).
Defined.

Lemma bin_numeric_ranges_idempotent_witness :
  exists df',
    bin_numeric_ranges lower_bound_df = Ok df' /\
    bin_numeric_ranges df' = Ok df'.
Proof.
  destruct (bin_numeric_ranges lower_bound_df) as [df'|e] eqn:E;
    [|vm_compute in E; discriminate E].
  exists df'. split; [reflexivity|].
  apply (@bin_numeric_ranges_idempotent lower_bound_df df' E).
Defined.

Lemma age_group_table_witness :
  exists df' g,
    bin_numeric_ranges lower_bound_df = Ok df' /\
    lookup "age_group" (columns df') = Some (SCat g) /\
    nth_error g 0 = Some (Some (LStr "18-25")) /\
    nth_error g 1 = Some (Some (LStr "26-35")).
Proof.
  destruct (bin_numeric_ranges lower_bound_df) as [df'|e] eqn:E;
    [|vm_compute in E; discriminate E].
  destruct (@age_group_table lower_bound_df df' [0; 30] eq_refl E)
    as (g & L & T).
  exists df', g. split; [reflexivity|]. split; [exact L|].
  split.
  - apply (T 0%nat 0 eq_refl). lia.
  - apply (T 1%nat 30 eq_refl). lia.
Defined.

Lemma missing_value_missing_label_witness :
  exists df' g,
    bin_numeric_ranges missing_income_df = Ok df' /\
    lookup "income_bracket" (columns df') = Some (SCat g) /\
    nth_error g 0 = Some None.
Proof.
  destruct (bin_numeric_ranges missing_income_df) as [df'|e] eqn:E;
    [|vm_compute in E; discriminate E].
  destruct (@missing_value_missing_label missing_income_df df'
              "income" "income_bracket" [B64.nan; B64.of_Z 40000] 0%nat
              B64.nan ltac:(simpl; tauto) eq_refl eq_refl eq_refl E)
    as (g & L & G).
  exists df', g. split; [reflexivity|]. split; [exact L|exact G].
Defined.

Lemma encode_keeps_other_columns_witness :
  exists df',
    encode_categorical_features no_text_dates sample_df = Ok df' /\
    lookup "age" (columns df') = Some (SInt [22; 35; 45; 55; 70]).
Proof.
  destruct (encode_categorical_features no_text_dates sample_df)
    as [df'|e] eqn:E; [|vm_compute in E; discriminate E].
  exists df'. split; [reflexivity|].
  apply (@encode_keeps_other_columns no_text_dates sample_df df' "age"
           (SInt [22; 35; 45; 55; 70]) ltac:(discriminate) eq_refl eq_refl
           E).
Defined.

Lemma frequency_encoding_witness :
  exists df' fr,
    encode_categorical_features no_text_dates city_df = Ok df' /\
    lookup "city_freq" (columns df') = Some (SFloat fr) /\
    nth_error fr 0 = Some (B64.round 4 (B64.div (B64.of_nat 2)
                                                 (B64.of_nat 3))) /\
    nth_error fr 1 = Some B64.nan.
Proof.
  destruct (encode_categorical_features no_text_dates city_df)
    as [df'|e] eqn:E; [|vm_compute in E; discriminate E].
  destruct (@frequency_encoding no_text_dates city_df df' "city"
              [Some "Rome"; None; Some "Oslo"; Some "Rome"]
              eq_refl ltac:(simpl; intuition discriminate)
              ltac:(discriminate) eq_refl eq_refl E)
    as (fr & L & _ & V & M).
  exists df', fr. split; [reflexivity|]. split; [exact L|].
  split; [apply (V 0%nat "Rome" eq_refl)|apply (M 1%nat eq_refl)].
Defined.

Lemma date_text_not_frequency_encoded_witness :
  exists df',
    encode_categorical_features two_text_dates signup_df = Ok df' /\
    ~ In "signup_freq" (names df').
Proof.
  destruct (encode_categorical_features two_text_dates signup_df)
    as [df'|e] eqn:E; [|vm_compute in E; discriminate E].
  exists df'. split; [reflexivity|].
  apply (@date_text_not_frequency_encoded two_text_dates signup_df df'
           "signup" [Some "2024-01-15"; Some "1970-01-01"]
           [day 19737; day 0] eq_refl eq_refl).
  - simpl. intuition discriminate.
  - intros col v [<-|[<-|[]]]; simpl; discriminate.
  - exact E.
Defined.

Lemma missing_rows_not_flagged_witness :
  nth_error (flag_anomalies_zscore [B64.nan; B64.of_Z 1]) 0 = Some 0 /\
  nth_error (flag_anomalies_iqr (map NFloat [B64.nan; B64.of_Z 1])) 0
  = Some 0.
Proof.
  destruct (@missing_rows_not_flagged [B64.nan; B64.of_Z 1] 0%nat B64.nan
              eq_refl eq_refl) as (Z & Q & _).
  split; [exact Z|exact Q].
Defined.

Lemma constant_column_no_zscore_flag_witness :
  Forall (fun f => f = 0)
         (flag_anomalies_zscore [B64.of_Z 5; B64.nan; B64.of_Z 5]).
Proof.
  apply Forall_forall.
  apply (@constant_column_no_zscore_flag
           [B64.of_Z 5; B64.nan; B64.of_Z 5] (B64.of_Z 5)).
  intros v [<-|[<-|[<-|[]]]]; [right|left|right]; reflexivity.
Defined.

Lemma selected_columns_are_flagged_witness :
  exists df' z,
    flag_anomalies_column incomes_df = Ok df' /\
    lookup "income_anomaly_zscore" (columns df') = Some (SInt z) /\
    has_col df' "anomaly_score" = true.
Proof.
  destruct (flag_anomalies_column incomes_df) as [df'|e] eqn:E;
    [|vm_compute in E; discriminate E].
  destruct (@selected_columns_are_flagged incomes_df df' "income"
              ltac:(vm_compute; tauto) E)
    as ((z & q & Lz & _) & S & _).
  exists df', z. split; [reflexivity|]. split; [exact Lz|exact S].
Defined.

Lemma time_stage_keeps_other_columns_witness :
  exists df',
    time_based_feature_extraction no_text_dates 0 sample_df = Ok df' /\
    lookup "age" (columns df') = Some (SInt [22; 35; 45; 55; 70]).
Proof.
  destruct (time_based_feature_extraction no_text_dates 0 sample_df)
    as [df'|e] eqn:E; [|vm_compute in E; discriminate E].
  exists df'. split; [reflexivity|].
  apply (@time_stage_keeps_other_columns no_text_dates 0 sample_df df'
           "age" (SInt [22; 35; 45; 55; 70]) eq_refl eq_refl eq_refl E).
Defined.

Lemma run_pipeline_keeps_rows_and_columns_witness :
  exists df',
    run_pipeline no_text_dates 0 sample_df = Ok df' /\
    nrows df' = 5%nat /\
    has_col df' "anomaly_score" = true.
Proof.
  destruct (run_pipeline no_text_dates 0 sample_df) as [df'|e] eqn:E;
    [|vm_compute in E; discriminate E].
  destruct (@run_pipeline_keeps_rows_and_columns no_text_dates 0
              no_text_dates_length sample_df df' aligned_sample_df E)
    as (N & _ & _ & S & _).
  exists df'. split; [reflexivity|]. split; [exact N|exact S].
Defined.

Lemma run_pipeline_flags_final_price_witness :
  exists df' fp,
    run_pipeline no_text_dates 0 sample_df = Ok df' /\
    lookup "final_price" (columns df') = Some fp /\
    has_flags "final_price" df'.
Proof.
  destruct (run_pipeline no_text_dates 0 sample_df) as [df'|e] eqn:E;
    [|vm_compute in E; discriminate E].
  destruct (@run_pipeline_flags_final_price no_text_dates 0 sample_df df'
              (SFloat (map B64.of_Z [100; 500; 1000; 2000; 12000]))
              (SFloat (map B64.of_Z [5; 10; 15; 20; 25]))
              (SFloat (map B64.of_Z [10; 25; 5; 40; 0]))
              eq_refl eq_refl eq_refl E)
    as (d1 & fp & _ & _ & _ & L & F).
  exists df', fp. split; [reflexivity|]. split; [exact L|exact F].
Defined.


Lemma discount_and_rating_tables_witness :
  exists df' g,
    bin_numeric_ranges whole_numbers_df = Ok df' /\
    lookup "discount_tier" (columns df') = Some (SCat g) /\
    nth_error g 1 = Some (Some (LStr "Low Discount")) /\
    nth_error g 2 = Some None.
Proof.
  destruct (bin_numeric_ranges whole_numbers_df) as [df'|e] eqn:E;
    [|vm_compute in E; discriminate E].
  destruct (@discount_and_rating_tables whole_numbers_df df' E) as (D & _).
  destruct (D [0; 25; 101] eq_refl) as (g & L & T).
  exists df', g. split; [reflexivity|]. split; [exact L|].
  split.
  - apply (T 1%nat 25 eq_refl). lia.
  - apply (T 2%nat 101 eq_refl). lia.
Defined.

Lemma single_dated_column_features_witness :
  exists df',
    time_based_feature_extraction no_text_dates 0 sample_df = Ok df' /\
    time_features 0 "purchase_date"
      [day 19737; day 19894; day 19792; day 19692; day 20052] df'.
Proof.
  destruct (time_based_feature_extraction no_text_dates 0 sample_df)
    as [df'|e] eqn:E; [|vm_compute in E; discriminate E].
  exists df'. split; [reflexivity|].
  apply (@single_dated_column_features no_text_dates 0 "purchase_date"
           [day 19737; day 19894; day 19792; day 19692; day 20052]
           eq_refl sample_df df'
           (SDate [day 19737; day 19894; day 19792; day 19692; day 20052])
           eq_refl eq_refl).
  - intros c I D. simpl in I.
    repeat (destruct I as [<-|I];
            [first [reflexivity|vm_compute in D; discriminate D]|]).
    contradiction.
  - exact E.
Defined.
